(** * react-native-calendar-datepicker: the calendar engine

    A shallow embedding of [src/utils.ts] (the revision that converts through
    [@umalqura/core]; the earlier revision kept in the same file is embedded
    in [Module Legacy]) and of the [onSelectDate] handler, the reducer and
    the [firstDay] memo of [src/datetime-picker.tsx].

    The engine is written against three libraries whose sources are not part
    of the repository: dayjs (core, the timezone plugin, the calendar-system
    plugins), [@umalqura/core] and the numeral tables of [./numerals].  Their
    operations are the fields of the class [Host]; every function of the
    repository is embedded over an arbitrary host, and [Module Ref] gives one
    executable host (proleptic Gregorian arithmetic in UTC, with a tabular
    Hijri calendar standing in for the Umm-al-Qura table) on which the
    functions are run. *)

From Stdlib Require Import ZArith List String Ascii Bool Lia QArith Lqa.
From Stdlib Require Import Sorting.Sorted Sorting.Permutation.
From Stdlib Require Import Numbers.DecimalString.
Import ListNotations.

Open Scope string_scope.
Open Scope Z_scope.

(** ** Values *)

(** [CalendarType] of [./types]. *)
Inductive CalendarType := gregory | islamic | jalali.

(** [calendar === 'islamic'], for the optional [calendar] argument. *)
Definition is_islamic (calendar : option CalendarType) : bool :=
  match calendar with Some islamic => true | _ => false end.

Definition TimeZone := string.
Definition Numerals := string.

(** The units the engine passes to [add], [startOf], [endOf] and [isSame]. *)
Inductive UnitType := u_day | u_week | u_month.

(** A dayjs object, as far as the engine looks into it: the fields it reads
    or assigns ([$C], [$y], [$M], [$D], [$W], [$H], [$m], [$C_y], [$C_M],
    [$C_D], [$G_y], [$G_M], [$G_D]), the instant [$d] in epoch milliseconds
    and the zone [$x.$timezone] left by the timezone plugin.  A field that
    has not been assigned is [None]. *)
Record Dayjs := mkDayjs {
  d_C : option CalendarType;
  d_d : Z;
  d_x : option TimeZone;
  d_y : Z;
  d_M : Z;
  d_D : Z;
  d_W : Z;
  d_H : Z;
  d_m : Z;
  d_C_y : option Z;
  d_C_M : option Z;
  d_C_D : option Z;
  d_G_y : option Z;
  d_G_M : option Z;
  d_G_D : option Z
}.

(** [DateType] of [./types]: what callers may hand over as a date.  A native
    [Date] and a number carry an instant in epoch milliseconds. *)
Inductive DateType :=
| Undefined
| Null
| Num (n : Z)
| Str (s : string)
| NativeDate (t : Z)
| Obj (d : Dayjs).

(** JavaScript truthiness of a [DateType] ([!date], [date && ...]). *)
Definition truthy (x : DateType) : bool :=
  match x with
  | Undefined | Null => false
  | Num n => negb (n =? 0)
  | Str s => negb (s =? "")%string
  | NativeDate _ | Obj _ => true
  end.

(** [x === null || x === undefined]. *)
Definition absent (x : DateType) : bool :=
  match x with Undefined | Null => true | _ => false end.

(** ** Exceptions *)

Inductive Exn := TypeError | RangeError.

Inductive result (A : Type) : Type :=
| Ok (a : A)
| Throw (e : Exn).
Arguments Ok {A} a.
Arguments Throw {A} e.

Definition bind {A B : Type} (c : result A) (k : A -> result B) : result B :=
  match c with
  | Ok a => k a
  | Throw e => Throw e
  end.

Notation "x <- c ;; k" := (bind c (fun x => k))
  (at level 61, c at next level, right associativity).

(** [Array.prototype.some], [filter] and [map] with a callback that may
    throw; [some] stops at the first match. *)
Fixpoint someM {A : Type} (f : A -> result bool) (l : list A) : result bool :=
  match l with
  | [] => Ok false
  | x :: l' => b <- f x ;; if b then Ok true else someM f l'
  end.

Fixpoint filterM {A : Type} (f : A -> result bool) (l : list A)
  : result (list A) :=
  match l with
  | [] => Ok []
  | x :: l' =>
      b <- f x ;; r <- filterM f l' ;; Ok (if b then x :: r else r)
  end.

Fixpoint mapM {A B : Type} (f : A -> result B) (l : list A)
  : result (list B) :=
  match l with
  | [] => Ok []
  | x :: l' => y <- f x ;; r <- mapM f l' ;; Ok (y :: r)
  end.

(** [Array.from({ length: n }, (_, index) => f index)]: a length that is not
    positive gives the empty array. *)
Definition Array_from {B : Type} (n : Z) (f : Z -> result B)
  : result (list B) :=
  mapM f (map Z.of_nat (seq 0 (Z.to_nat n))).

(** [Array(n).fill(v)]: a negative length is a [RangeError]. *)
Definition Array_fill {B : Type} (n : Z) (v : B) : result (list B) :=
  if n <? 0 then Throw RangeError else Ok (repeat v (Z.to_nat n)).

(** ** The host libraries *)

(** The result of [umalqura.$.hijriToGregorian]. *)
Record GregorianDate := mkGregorianDate { gy : Z; gm : Z; gd : Z }.

(** Every operation is a total function: an invalid date (what dayjs makes
    of [null] or of text it cannot parse) has no counterpart here, and the
    statements below are about dates the libraries can read. *)
Class Host := {
  (** dayjs: [dayjs(x)] and [dayjs.tz(x, zone)] for a defined [x] *)
  parse : DateType -> Dayjs;
  parse_tz : DateType -> option TimeZone -> Dayjs;
  (** getters [.year()], [.month()], [.date()] / [.get('date')], [.day()] *)
  year : Dayjs -> Z;
  month : Dayjs -> Z;
  get_date : Dayjs -> Z;
  day : Dayjs -> Z;
  (** setters [.year(v)], [.month(v)], [.date(v)] / [.set('date', v)] *)
  set_year : Dayjs -> Z -> Dayjs;
  set_month : Dayjs -> Z -> Dayjs;
  set_date : Dayjs -> Z -> Dayjs;
  add : Dayjs -> Z -> UnitType -> Dayjs;
  startOf : Dayjs -> UnitType -> Dayjs;
  endOf : Dayjs -> UnitType -> Dayjs;
  daysInMonth : Dayjs -> Z;
  isBefore : Dayjs -> Dayjs -> bool;
  isAfter : Dayjs -> Dayjs -> bool;
  isSame : Dayjs -> Dayjs -> UnitType -> bool;
  format : Dayjs -> string -> string;
  unix : Dayjs -> Z;
  (** [a.diff(b, 'day')] for a dayjs object [b] *)
  diff_day : Dayjs -> Dayjs -> Z;
  toDate : Dayjs -> Z;
  tz : Dayjs -> option TimeZone -> Dayjs;
  toCalendarSystem : Dayjs -> CalendarType -> Dayjs;
  (** the native [new Date(y, m, d)], as an instant *)
  Date_ymd : Z -> Z -> Z -> Z;
  (** [@umalqura/core]: [umalqura(date)], [umalqura(hy, hm, hd)], the fields
      of the object, its [startOf('week')] and [hijriToGregorian] *)
  UmAlQura : Type;
  umalqura_date : Z -> UmAlQura;
  umalqura : Z -> Z -> Z -> UmAlQura;
  hy : UmAlQura -> Z;
  hm : UmAlQura -> Z;
  hd : UmAlQura -> Z;
  dayOfWeek : UmAlQura -> Z;
  umalqura_startOf_week : UmAlQura -> UmAlQura;
  hijriToGregorian : Z -> Z -> Z -> GregorianDate;
  (** [numeralSystems[numerals][i]] of [./numerals] *)
  numeralSystems : Numerals -> Z -> option string
}.

Definition DATE_FORMAT := "YYYY-MM-DD".

(** ** utils.ts *)

Section Utils.
Context {H : Host}.

(** The instant read by [new Date()] while the function runs. *)
Variable now : Z.

(** [dayjs(x)] and [dayjs.tz(x, zone)]: an undefined argument is the current
    instant. *)
Definition dayjs (x : DateType) : Dayjs :=
  parse (match x with Undefined => NativeDate now | _ => x end).

Definition dayjs_tz (x : DateType) (timeZone : option TimeZone) : Dayjs :=
  parse_tz (match x with Undefined => NativeDate now | _ => x end) timeZone.

(** [(x as any).$C]: reading a property of [null] or [undefined] throws. *)
Definition get_C (x : DateType) : result (option CalendarType) :=
  match x with
  | Undefined | Null => Throw TypeError
  | Obj d => Ok (d_C d)
  | Num _ | Str _ | NativeDate _ => Ok None
  end.

(** A method call on a value the source casts to [dayjs.Dayjs]: anything
    else has no such method. *)
Definition as_Dayjs (x : DateType) : result Dayjs :=
  match x with
  | Obj d => Ok d
  | _ => Throw TypeError
  end.

Definition convertHijriToGregorian (umalquraDate : UmAlQura) : GregorianDate :=
  hijriToGregorian (hy umalquraDate) (hm umalquraDate) (hd umalquraDate).

(** The ten assignments that close [adjustDayjsHijriDate]. *)
Definition assign_hijri (validDate : Dayjs) (umalquraDate : UmAlQura)
    (gregoryDate : GregorianDate) : Dayjs :=
  {| d_C := d_C validDate;
     d_d := d_d validDate;
     d_x := d_x validDate;
     d_y := hy umalquraDate;
     d_M := hm umalquraDate - 1;
     d_D := hd umalquraDate;
     d_W := dayOfWeek umalquraDate;
     d_H := d_H validDate;
     d_m := d_m validDate;
     d_C_y := Some (hy umalquraDate);
     d_C_M := Some (hm umalquraDate - 1);
     d_C_D := Some (hd umalquraDate);
     d_G_y := Some (gy gregoryDate);
     d_G_M := Some (gm gregoryDate);
     d_G_D := Some (gd gregoryDate) |}.

Definition adjustDayjsHijriDate (dayjsDate : DateType)
    (hijriDate : option UmAlQura) : result Dayjs :=
  let umalquraDate :=
    match hijriDate with
    | Some u => u
    | None =>
        match dayjsDate with
        | Obj d => umalqura_date (Date_ymd (year d) (month d) (get_date d))
        | _ => umalqura_date (toDate (dayjs dayjsDate))
        end
    end in
  let gregoryDate := convertHijriToGregorian umalquraDate in
  C <- get_C dayjsDate ;;
  let validDate :=
    match dayjsDate, C with
    | Obj d, Some islamic =>
        set_month (set_date (set_year d (hy umalquraDate)) (hd umalquraDate))
                  (hm umalquraDate - 1)
    | _, _ =>
        set_month (set_year (toCalendarSystem (dayjs dayjsDate) islamic)
                            (hy umalquraDate))
                  (hm umalquraDate - 1)
    end in
  Ok (assign_hijri validDate umalquraDate gregoryDate).

Definition getDayjs (date : DateType) (calendar : option CalendarType)
  : result Dayjs :=
  let date := match date with Undefined => NativeDate now | _ => date end in
  if is_islamic calendar then
    match date with
    | Obj d =>
        if is_islamic (d_C d) then Ok d else adjustDayjsHijriDate date None
    | _ => adjustDayjsHijriDate date None
    end
  else Ok (dayjs date).

Definition areDatesOnSameDay (a b : DateType)
    (calendar : option CalendarType) : result bool :=
  if negb (truthy a) || negb (truthy b) then Ok false
  else
    da <- getDayjs a calendar ;;
    let date_a := format da DATE_FORMAT in
    db <- getDayjs b calendar ;;
    let date_b := format db DATE_FORMAT in
    Ok (date_a =? date_b)%string.

(** [enabledDates] / [disabledDates]: an array of dates or a predicate. *)
Inductive DateRule :=
| RuleList (dates : list DateType)
| RuleFn (f : Dayjs -> result bool).

Definition isDateDisabled (date : Dayjs) (minDate maxDate : DateType)
    (enabledDates disabledDates : option DateRule)
    (calendar : option CalendarType) : result bool :=
  let calendar :=
    match calendar with None => Some gregory | Some c => Some c end in
  below <- (if truthy minDate
            then m <- getDayjs minDate calendar ;;
                 Ok (isBefore date (startOf m u_day))
            else Ok false) ;;
  if below then Ok true else
  above <- (if truthy maxDate
            then m <- getDayjs maxDate calendar ;;
                 Ok (isAfter date (endOf m u_day))
            else Ok false) ;;
  if above then Ok true else
  match enabledDates with
  | Some (RuleList l) =>
      isEnabled <- someM (fun enabledDate =>
                     areDatesOnSameDay (Obj date) enabledDate calendar) l ;;
      Ok (negb isEnabled)
  | Some (RuleFn f) => b <- f date ;; Ok (negb b)
  | None =>
      match disabledDates with
      | Some (RuleList l) =>
          someM (fun disabledDate =>
                   areDatesOnSameDay (Obj date) disabledDate calendar) l
      | Some (RuleFn f) => f date
      | None => Ok false
      end
  end.

(** [getDaysInHijriMonth]: probe day 30 of the month of [date]. *)
Definition getDaysInHijriMonth (date : Dayjs) : Z :=
  let lastDay := umalqura (year date) (month date + 1) 30 in
  if hd lastDay =? 30 then 30 else 29.

Record MonthDays := mkMonthDays {
  prevMonthDays : Z;
  prevMonthOffset : Z;
  daysInCurrentMonth : Z;
  daysInNextMonth : Z;
  fullDaysInMonth : Z
}.

Definition getDaysInMonth (date : DateType) (showOutsideDays : bool)
    (firstDayOfWeek : Z) (calendar : option CalendarType)
  : result MonthDays :=
  currentDate <- getDayjs date calendar ;;
  let daysInCurrentMonth := daysInMonth currentDate in
  let prevMonthDays := daysInMonth (add currentDate (-1) u_month) in
  let daysInCurrentMonth :=
    if is_islamic calendar then getDaysInHijriMonth currentDate
    else daysInCurrentMonth in
  let prevMonthDays :=
    if is_islamic calendar
    then getDaysInHijriMonth (set_month currentDate (month currentDate - 1))
    else prevMonthDays in
  let firstDay := set_date currentDate (1 - firstDayOfWeek) in
  let prevMonthOffset := Z.rem (day firstDay) 7 in
  let prevMonthOffset :=
    if is_islamic calendar
    then dayOfWeek (umalqura (year currentDate) (month currentDate + 1) 1)
    else prevMonthOffset in
  let daysInPrevMonth := if showOutsideDays then prevMonthOffset else 0 in
  let monthDaysOffset := prevMonthOffset + daysInCurrentMonth in
  let daysInNextMonth :=
    if showOutsideDays
    then if monthDaysOffset >? 35
         then 42 - monthDaysOffset
         else 35 - monthDaysOffset
    else 0 in
  let fullDaysInMonth :=
    daysInPrevMonth + daysInCurrentMonth + daysInNextMonth in
  Ok {| prevMonthDays := prevMonthDays;
        prevMonthOffset := prevMonthOffset;
        daysInCurrentMonth := daysInCurrentMonth;
        daysInNextMonth := daysInNextMonth;
        fullDaysInMonth := fullDaysInMonth |}.

Definition getStartOfDay (date : DateType) (calendar : option CalendarType)
  : result Dayjs :=
  d <- getDayjs date calendar ;; Ok (startOf d u_day).

Definition getEndOfDay (date : DateType) (calendar : option CalendarType)
  : result Dayjs :=
  d <- getDayjs date calendar ;; Ok (endOf d u_day).

(** [dateToUnix]: seconds, as a JavaScript number; the islamic branch
    divides the milliseconds of [getTime()] by 1000. *)
Definition dateToUnix (date : DateType) (calendar : option CalendarType)
  : result Q :=
  if is_islamic calendar && truthy date then
    dayjsDate <- as_Dayjs date ;;
    let umalquraDate :=
      umalqura (year dayjsDate) (month dayjsDate + 1) (get_date dayjsDate) in
    let gregoryDate := convertHijriToGregorian umalquraDate in
    let dateTime :=
      Date_ymd (gy gregoryDate) (gm gregoryDate) (gd gregoryDate) in
    Ok (inject_Z dateTime / inject_Z 1000)%Q
  else
    d <- getDayjs date calendar ;; Ok (inject_Z (unix d)).

(** [hijriDate.$H = 0; hijriDate.$m = 0]. *)
Definition assign_H_m (d : Dayjs) (h m : Z) : Dayjs :=
  {| d_C := d_C d; d_d := d_d d; d_x := d_x d;
     d_y := d_y d; d_M := d_M d; d_D := d_D d; d_W := d_W d;
     d_H := h; d_m := m;
     d_C_y := d_C_y d; d_C_M := d_C_M d; d_C_D := d_C_D d;
     d_G_y := d_G_y d; d_G_M := d_G_M d; d_G_D := d_G_D d |}.

(** [removeTime].  In the islamic branch the argument itself is assigned to
    and returned: a native [Date] takes the two properties without any
    visible change, a primitive cannot take them (the module is strict). *)
Definition removeTime (date : DateType) (timeZone : option TimeZone)
    (calendar : option CalendarType) : result DateType :=
  if negb (truthy date) then Ok Undefined
  else if is_islamic calendar then
    match date with
    | Obj d => Ok (Obj (assign_H_m d 0 0))
    | NativeDate t => Ok (NativeDate t)
    | _ => Throw TypeError
    end
  else Ok (Obj (dayjs (Obj (startOf (dayjs_tz date timeZone) u_day)))).

Definition getPrevHijriDate (date : Dayjs) (dateDay : Z) : result Dayjs :=
  let prevMonthIndex := if month date =? 0 then 11 else month date - 1 in
  let year := if month date =? 0 then year date - 1 else year date in
  let hijriDate := umalqura year (prevMonthIndex + 1) dateDay in
  adjustDayjsHijriDate (Obj date) (Some hijriDate).

Definition getNextHijriDate (date : Dayjs) (dateDay : Z) : result Dayjs :=
  let nextMonthIndex := if month date =? 11 then 0 else month date + 1 in
  let year := if month date =? 11 then year date + 1 else year date in
  let hijriDate := umalqura year (nextMonthIndex + 1) dateDay in
  adjustDayjsHijriDate (Obj date) (Some hijriDate).

(** [value.toString()] for an integer. *)
Definition toString (value : Z) : string :=
  NilZero.string_of_int (Z.to_int value).

Definition digit_of (c : ascii) : option Z :=
  let n := Z.of_nat (nat_of_ascii c) in
  if (48 <=? n) && (n <=? 57) then Some (n - 48) else None.

Definition getDigitMap (numerals : Numerals) : ascii -> option string :=
  fun digit =>
    match digit_of digit with
    | Some i => numeralSystems numerals i
    | None => None
    end.

(** [input.replace(/\d/g, (digit) => digitMap[digit] || digit)]. *)
Fixpoint replaceDigits (input : string) (numerals : Numerals) : string :=
  match input with
  | EmptyString => EmptyString
  | String c rest =>
      let glyph :=
        match digit_of c with
        | Some _ =>
            match getDigitMap numerals c with
            | Some g => if (g =? "")%string then String c "" else g
            | None => String c ""
            end
        | None => String c ""
        end in
      (glyph ++ replaceDigits rest numerals)%string
  end.

Definition formatNumber (value : Z) (numerals : Numerals) : string :=
  replaceDigits (toString value) numerals.

Definition getStartOfHijriWeek (date : Dayjs) : result Dayjs :=
  let hijriDate := umalqura (year date) (month date + 1) (get_date date) in
  adjustDayjsHijriDate (Obj date) (Some (umalqura_startOf_week hijriDate)).

(** [CalendarDay] of [./types]. *)
Record CalendarDay := mkCalendarDay {
  text : string;
  number : Z;
  cd_date : Dayjs;
  isDisabled : bool;
  isCurrentMonth : bool;
  dayOfMonth : Z;
  isStartOfWeek : bool;
  isEndOfWeek : bool
}.

(** [generateCalendarDay]; [isDateDisabled] is called without a calendar. *)
Definition generateCalendarDay (number : Z) (date : Dayjs)
    (minDate maxDate : DateType)
    (enabledDates disabledDates : option DateRule)
    (isCurrentMonth : bool) (dayOfMonth firstDayOfWeek : Z)
    (numerals : Numerals) (calendar : option CalendarType)
  : result CalendarDay :=
  d <- getDayjs (Obj date) calendar ;;
  let startOfWeek := add (startOf d u_week) firstDayOfWeek u_day in
  startOfWeek <- (if is_islamic calendar then getStartOfHijriWeek date
                  else Ok startOfWeek) ;;
  disabled <- isDateDisabled date minDate maxDate
                enabledDates disabledDates None ;;
  Ok {| text := formatNumber number numerals;
        number := number;
        cd_date := date;
        isDisabled := disabled;
        isCurrentMonth := isCurrentMonth;
        dayOfMonth := dayOfMonth;
        isStartOfWeek := isSame date startOfWeek u_day;
        isEndOfWeek := day date =? Z.rem (firstDayOfWeek + 6) 7 |}.

(** [getMonthDays]: a cell is [None] for the [null] placeholders. *)
Definition getMonthDays (datetime : DateType) (showOutsideDays : bool)
    (minDate maxDate : DateType) (firstDayOfWeek : Z)
    (enabledDates disabledDates : option DateRule)
    (prevMonthDays prevMonthOffset daysInCurrentMonth daysInNextMonth : Z)
    (numerals : Numerals) (calendar : option CalendarType)
  : result (list (option CalendarDay)) :=
  date <- getDayjs datetime calendar ;;
  prevDays <-
    (if showOutsideDays then
       Array_from prevMonthOffset (fun index =>
         let prevDay := index + (prevMonthDays - prevMonthOffset + 1) in
         let thisDay := set_date (set_month date (month date - 1)) prevDay in
         thisDay <- (if is_islamic calendar then getPrevHijriDate date prevDay
                     else Ok thisDay) ;;
         c <- generateCalendarDay prevDay thisDay minDate maxDate
                enabledDates disabledDates false (index + 1)
                firstDayOfWeek numerals calendar ;;
         Ok (Some c))
     else Array_fill prevMonthOffset None) ;;
  currentDays <-
    Array_from daysInCurrentMonth (fun index =>
      let day := index + 1 in
      let thisDay := set_date date day in
      thisDay <- (if is_islamic calendar then
                    let hijriDate :=
                      umalqura (year date) (month date + 1) day in
                    adjustDayjsHijriDate (Obj date) (Some hijriDate)
                  else Ok thisDay) ;;
      c <- generateCalendarDay day thisDay minDate maxDate
             enabledDates disabledDates true (prevMonthOffset + day)
             firstDayOfWeek numerals calendar ;;
      Ok (Some c)) ;;
  nextDays <-
    Array_from daysInNextMonth (fun index =>
      let day := index + 1 in
      let thisDay := set_date (set_month date (month date + 1)) day in
      thisDay <- (if is_islamic calendar then getNextHijriDate date day
                  else Ok thisDay) ;;
      c <- generateCalendarDay day thisDay minDate maxDate
             enabledDates disabledDates false
             (daysInCurrentMonth + prevMonthOffset + day)
             firstDayOfWeek numerals calendar ;;
      Ok (Some c)) ;;
  Ok (prevDays ++ currentDays ++ nextDays)%list.

End Utils.

(** ** datetime-picker.tsx: [onSelectDate] *)

Inductive Mode := single | range | multiple.

(** The props the handler closes over; [onChange] records whether the
    caller supplied a callback. *)
Record Props := mkProps {
  mode : Mode;
  calendar : option CalendarType;
  timeZone : option TimeZone;
  timePicker : bool;
  min : option Z;
  max : option Z;
  onChange : bool
}.

(** The selection held in [stateRef.current]. *)
Record LocalState := mkLocalState {
  st_date : DateType;
  startDate : DateType;
  endDate : DateType;
  dates : option (list DateType)
}.

Inductive ChangeKind := added | removed | updated.

(** The argument of [onChange]; a native [Date] is its instant, [None] is
    [undefined]. *)
Inductive Change :=
| SingleChange (date : option Z)
| RangeChange (startDate endDate : option Z)
| MultiChange (dates : list Z) (datePressed : option Z) (change : ChangeKind).

Inductive Effect :=
| Dispatch_CHANGE_CURRENT_DATE (payload : Dayjs)
| OnChange (c : Change).

(** Truthiness of the optional numbers [min] and [max]. *)
Definition set_number (n : option Z) : bool :=
  match n with Some v => negb (v =? 0) | None => false end.

(** [bound && numberOfDays > bound] and [bound && numberOfDays < bound]. *)
Definition above_bound (bound : option Z) (numberOfDays : Z) : bool :=
  match bound with
  | Some v => negb (v =? 0) && (numberOfDays >? v)
  | None => false
  end.

Definition below_bound (bound : option Z) (numberOfDays : Z) : bool :=
  match bound with
  | Some v => negb (v =? 0) && (numberOfDays <? v)
  | None => false
  end.

(** Comparisons of JavaScript numbers. *)
Definition num_eq (a b : Q) : bool := Qeq_bool a b.
Definition num_ge (a b : Q) : bool := Qle_bool b a.
Definition num_gt (a b : Q) : bool := negb (Qle_bool a b).
Definition num_lt (a b : Q) : bool := negb (Qle_bool b a).

(** [Array.prototype.sort]: [undefined] entries go last without being
    compared; the others are ordered by [comparefn] (positive: the first
    argument goes after the second) by a stable insertion. *)
Fixpoint sort_insert {A : Type} (comparefn : A -> A -> Z) (x : A)
    (l : list A) : list A :=
  match l with
  | [] => [x]
  | y :: l' =>
      if 0 <? comparefn x y then y :: sort_insert comparefn x l'
      else x :: y :: l'
  end.

Definition insertion_sort {A : Type} (comparefn : A -> A -> Z)
    (l : list A) : list A :=
  fold_right (sort_insert comparefn) [] l.

Definition is_undefined (x : DateType) : bool :=
  match x with Undefined => true | _ => false end.

Definition Array_sort (comparefn : DateType -> DateType -> Z)
    (l : list DateType) : list DateType :=
  insertion_sort comparefn (filter (fun x => negb (is_undefined x)) l)
  ++ filter is_undefined l.

(** [(stateRef.current.dates as DateType[]) || []]. *)
Definition safeDates (state : LocalState) : list DateType :=
  match dates state with Some l => l | None => [] end.

Section DateTimePicker.
Context {H : Host}.
Variable now : Z.

(** The [mode === 'range'] branch. *)
Definition onSelectDate_range (props : Props) (state : LocalState)
    (selectedDate : DateType) : result (list Effect) :=
  let calendar := calendar props in
  let timeZone := timeZone props in
  let min := min props in
  let max := max props in
  start <- removeTime now (startDate state) timeZone calendar ;;
  end_ <- removeTime now (endDate state) timeZone calendar ;;
  selected <- removeTime now selectedDate timeZone calendar ;;
  let isStart := true in
  let isReset := false in
  selectedUnix <- dateToUnix now selected calendar ;;
  startUnix <- dateToUnix now start calendar ;;
  endUnix <- dateToUnix now end_ calendar ;;
  let '(isStart, isReset) :=
    if negb (num_eq selectedUnix endUnix)
       && num_ge selectedUnix startUnix
       && negb (num_eq startUnix endUnix)
    then (false, isReset)
    else if truthy start && num_eq selectedUnix startUnix
    then (isStart, true)
    else (isStart, isReset) in
  let '(isStart, end_) :=
    if truthy start && truthy end_ then
      let isStart :=
        if num_eq startUnix endUnix && num_gt selectedUnix startUnix
        then false else isStart in
      let end_ :=
        if num_gt selectedUnix startUnix && num_eq selectedUnix endUnix
        then Undefined else end_ in
      (isStart, end_)
    else (isStart, end_) in
  let end_ :=
    if truthy start && negb (truthy end_) && num_lt selectedUnix startUnix
    then start else end_ in
  r1 <- (if isStart && truthy end_ && (set_number min || set_number max)
         then
           e <- getDayjs now end_ calendar ;;
           let numberOfDays := diff_day e (dayjs now selected) in
           if above_bound max numberOfDays || below_bound min numberOfDays
           then Ok (true, Undefined)
           else Ok (isStart, end_)
         else Ok (isStart, end_)) ;;
  let '(isStart, end_) := r1 in
  r2 <- (if negb isStart && truthy start
            && (set_number min || set_number max)
         then
           s <- getDayjs now selected calendar ;;
           let numberOfDays := diff_day s (dayjs now start) in
           if num_eq selectedUnix startUnix
           then Ok (isStart, true, end_)
           else if above_bound max numberOfDays
                   || below_bound min numberOfDays
           then Ok (true, isReset, Undefined)
           else Ok (isStart, isReset, end_)
         else Ok (isStart, isReset, end_)) ;;
  let '(isStart, isReset, end_) := r2 in
  if isReset then Ok [OnChange (RangeChange None None)]
  else
    reportedStart <-
      (if isStart
       then s <- getDayjs now selected calendar ;; Ok (Some (toDate s))
       else if truthy start
       then Ok (Some (toDate (dayjs_tz now start None)))
       else Ok None) ;;
    reportedEnd <-
      (if negb isStart
       then e <- getEndOfDay now selected calendar ;;
            Ok (Some (toDate (dayjs_tz now (Obj e) timeZone)))
       else if truthy end_
       then e <- getEndOfDay now end_ calendar ;;
            Ok (Some (toDate (dayjs_tz now (Obj e) timeZone)))
       else Ok None) ;;
    Ok [OnChange (RangeChange reportedStart reportedEnd)].

(** The [mode === 'multiple'] branch, in the source's steps. *)
Definition multiple_newDate (props : Props) (selectedDate : DateType)
  : result Dayjs :=
  d <- getDayjs now selectedDate (calendar props) ;;
  Ok (startOf (dayjs_tz now (Obj d) (timeZone props)) u_day).

Definition multiple_exists (props : Props) (safeDates : list DateType)
    (newDate : Dayjs) : result bool :=
  someM (fun ed => areDatesOnSameDay now ed (Obj newDate) (calendar props))
        safeDates.

Definition multiple_newDates (props : Props) (safeDates : list DateType)
    (newDate : Dayjs) (exists_ : bool) : result (list DateType) :=
  if exists_
  then filterM (fun ed =>
                  b <- areDatesOnSameDay now ed (Obj newDate)
                         (calendar props) ;;
                  Ok (negb b)) safeDates
  else Ok (safeDates ++ [Obj newDate])%list.

Definition multiple_comparefn (a b : DateType) : Z :=
  if isAfter (dayjs now a) (dayjs now b) then 1 else -1.

Definition onSelectDate_multiple (props : Props) (state : LocalState)
    (selectedDate : DateType) : result (list Effect) :=
  let safeDates := safeDates state in
  newDate <- multiple_newDate props selectedDate ;;
  exists_ <- multiple_exists props safeDates newDate ;;
  newDates <- multiple_newDates props safeDates newDate exists_ ;;
  if above_bound (max props) (Z.of_nat (List.length newDates))
  then Ok []
  else
    let newDates := Array_sort multiple_comparefn newDates in
    let _dates :=
      map (fun date => Obj (tz (dayjs now date) (timeZone props))) newDates in
    Ok [OnChange
          (MultiChange
             (map (fun item => toDate (dayjs now item)) _dates)
             (Some (toDate (dayjs now (Obj newDate))))
             (if exists_ then removed else added))].

(** The [mode === 'single'] branch. *)
Definition onSelectDate_single (props : Props) (selectedDate : DateType)
  : result (list Effect) :=
  newDate <-
    (if timePicker props
     then Ok (dayjs_tz now selectedDate (timeZone props))
     else s <- getStartOfDay now selectedDate (calendar props) ;;
          Ok (dayjs_tz now (Obj s) (timeZone props))) ;;
  d <- getDayjs now (Obj newDate) (calendar props) ;;
  Ok [Dispatch_CHANGE_CURRENT_DATE newDate;
      OnChange (SingleChange (Some (toDate d)))].

Definition onSelectDate (props : Props) (state : LocalState)
    (selectedDate : DateType) : result (list Effect) :=
  if onChange props then
    match mode props with
    | single => onSelectDate_single props selectedDate
    | range => onSelectDate_range props state selectedDate
    | multiple => onSelectDate_multiple props state selectedDate
    end
  else Ok [].

End DateTimePicker.

(** ** utils.ts, the earlier revision

    The first of the two revisions kept in [src/utils.ts] converts through
    the calendar-system plugin alone; its [areDatesOnSameDay] and
    [isDateDisabled] read as in the later one. *)
Module Legacy.
Section Utils.
Context {H : Host}.
Variable now : Z.

Definition getDayjs (date : DateType) (calendar : option CalendarType)
  : result Dayjs :=
  let date := match date with Undefined => NativeDate now | _ => date end in
  if is_islamic calendar
  then Ok (toCalendarSystem (dayjs now date) islamic)
  else Ok (dayjs now date).

Definition areDatesOnSameDay (a b : DateType)
    (calendar : option CalendarType) : result bool :=
  if negb (truthy a) || negb (truthy b) then Ok false
  else
    da <- getDayjs a calendar ;;
    let date_a := format da DATE_FORMAT in
    db <- getDayjs b calendar ;;
    let date_b := format db DATE_FORMAT in
    Ok (date_a =? date_b)%string.

Definition isDateDisabled (date : Dayjs) (minDate maxDate : DateType)
    (enabledDates disabledDates : option DateRule)
    (calendar : option CalendarType) : result bool :=
  let calendar :=
    match calendar with None => Some gregory | Some c => Some c end in
  below <- (if truthy minDate
            then m <- getDayjs minDate calendar ;;
                 Ok (isBefore date (startOf m u_day))
            else Ok false) ;;
  if below then Ok true else
  above <- (if truthy maxDate
            then m <- getDayjs maxDate calendar ;;
                 Ok (isAfter date (endOf m u_day))
            else Ok false) ;;
  if above then Ok true else
  match enabledDates with
  | Some (RuleList l) =>
      isEnabled <- someM (fun enabledDate =>
                     areDatesOnSameDay (Obj date) enabledDate calendar) l ;;
      Ok (negb isEnabled)
  | Some (RuleFn f) => b <- f date ;; Ok (negb b)
  | None =>
      match disabledDates with
      | Some (RuleList l) =>
          someM (fun disabledDate =>
                   areDatesOnSameDay (Obj date) disabledDate calendar) l
      | Some (RuleFn f) => f date
      | None => Ok false
      end
  end.

End Utils.
End Legacy.

(** ** A reference host

    dayjs over the proleptic Gregorian calendar with every zone resolved to
    UTC and the locale's week starting on Sunday, and the tabular (civil)
    Hijri calendar in the place of the Umm-al-Qura table.  Invalid dates
    have no counterpart: what dayjs would parse to one is read as the
    epoch. *)
Module Ref.

Definition MS_PER_DAY := 86400000.

(** Days since 1970-01-01 of a civil date, [m] from 1 to 12. *)
Definition days_from_civil (y m d : Z) : Z :=
  let y' := if m <=? 2 then y - 1 else y in
  let era := y' / 400 in
  let yoe := y' - era * 400 in
  let mp := (m + 9) mod 12 in
  let doy := (153 * mp + 2) / 5 + d - 1 in
  let doe := yoe * 365 + yoe / 4 - yoe / 100 + doy in
  era * 146097 + doe - 719468.

Definition civil_from_days (z : Z) : Z * Z * Z :=
  let z := z + 719468 in
  let era := z / 146097 in
  let doe := z - era * 146097 in
  let yoe := (doe - doe / 1460 + doe / 36524 - doe / 146096) / 365 in
  let y := yoe + era * 400 in
  let doy := doe - (365 * yoe + yoe / 4 - yoe / 100) in
  let mp := (5 * doy + 2) / 153 in
  let d := doy - (153 * mp + 2) / 5 + 1 in
  let m := if mp <? 10 then mp + 3 else mp - 9 in
  (if m <=? 2 then y + 1 else y, m, d).

Definition is_leap (y : Z) : bool :=
  ((y mod 4 =? 0) && negb (y mod 100 =? 0)) || (y mod 400 =? 0).

(** Length of month [m] (0 to 11) of year [y]. *)
Definition month_length (y m : Z) : Z :=
  if m =? 1 then (if is_leap y then 29 else 28)
  else if (m =? 3) || (m =? 5) || (m =? 8) || (m =? 10) then 30
  else 31.

(** Day number of day [d] of month [m] of year [y], where [m] and [d] may
    lie outside their ranges, as in the native [Date]. *)
Definition day_number (y m d : Z) : Z :=
  let months := y * 12 + m in
  days_from_civil (months / 12) (months mod 12 + 1) 1 + d - 1.

(** The tabular Hijri calendar. *)
Definition hijri_to_days (y m d : Z) : Z :=
  (11 * y + 3) / 30 + 354 * y + 30 * m - (m - 1) / 2 + d + 1948440 - 385
  - 2440588.

Definition days_to_hijri (days : Z) : Z * Z * Z :=
  let l := days + 2440588 - 1948440 + 10632 in
  let n := (l - 1) / 10631 in
  let l := l - 10631 * n + 354 in
  let j := ((10985 - l) / 5316) * ((50 * l) / 17719)
           + (l / 5670) * ((43 * l) / 15238) in
  let l := l - ((30 - j) / 15) * ((17719 * j) / 50)
             - (j / 16) * ((15238 * j) / 43) + 29 in
  let m := (24 * l) / 709 in
  let d := l - (709 * m) / 24 in
  (30 * n + j - 30, m, d).

Record HijriDate := mkHijriDate {
  h_days : Z;
  h_y : Z;
  h_m : Z;
  h_d : Z
}.

Definition hijri_of_days (days : Z) : HijriDate :=
  let '(y, m, d) := days_to_hijri days in
  {| h_days := days; h_y := y; h_m := m; h_d := d |}.

(** dayjs [init()]: the cached fields of an instant. *)
Definition init (C : option CalendarType) (x : option TimeZone) (t : Z)
  : Dayjs :=
  let days := t / MS_PER_DAY in
  let tod := t mod MS_PER_DAY in
  let '(y, m, d) := civil_from_days days in
  let h := hijri_of_days days in
  let islamic_field (v : Z) :=
    if is_islamic C then Some v else None in
  {| d_C := C; d_d := t; d_x := x;
     d_y := y; d_M := m - 1; d_D := d; d_W := (days + 4) mod 7;
     d_H := tod / 3600000; d_m := (tod / 60000) mod 60;
     d_C_y := islamic_field (h_y h);
     d_C_M := islamic_field (h_m h - 1);
     d_C_D := islamic_field (h_d h);
     d_G_y := None; d_G_M := None; d_G_D := None |}.

Definition digit_value (c : ascii) : option Z :=
  let n := Z.of_nat (nat_of_ascii c) in
  if (48 <=? n) && (n <=? 57) then Some (n - 48) else None.

Fixpoint number_of (s : string) (acc : Z) : option Z :=
  match s with
  | EmptyString => Some acc
  | String c rest =>
      match digit_value c with
      | Some v => number_of rest (10 * acc + v)
      | None => None
      end
  end.

(** ["YYYY-MM-DD"], at midnight. *)
Definition parse_string (s : string) : Z :=
  match number_of (substring 0 4 s) 0, number_of (substring 5 2 s) 0,
        number_of (substring 8 2 s) 0 with
  | Some y, Some m, Some d =>
      if (String.length s =? 10)%nat
         && (substring 4 1 s =? "-")%string
         && (substring 7 1 s =? "-")%string
      then day_number y (m - 1) d * MS_PER_DAY
      else 0
  | _, _, _ => 0
  end.

Definition parse (x : DateType) : Dayjs :=
  match x with
  | Obj d => d
  | NativeDate t | Num t => init None None t
  | Str s => init None None (parse_string s)
  | Null | Undefined => init None None 0
  end.

Definition with_zone (d : Dayjs) (zone : option TimeZone) : Dayjs :=
  {| d_C := d_C d; d_d := d_d d; d_x := zone;
     d_y := d_y d; d_M := d_M d; d_D := d_D d; d_W := d_W d;
     d_H := d_H d; d_m := d_m d;
     d_C_y := d_C_y d; d_C_M := d_C_M d; d_C_D := d_C_D d;
     d_G_y := d_G_y d; d_G_M := d_G_M d; d_G_D := d_G_D d |}.

Definition parse_tz (x : DateType) (zone : option TimeZone) : Dayjs :=
  with_zone (parse x) zone.

Definition time_of_day (d : Dayjs) : Z := d_d d mod MS_PER_DAY.

(** A copy of [d] at another day number, at the same time of day. *)
Definition at_day (d : Dayjs) (days : Z) : Dayjs :=
  init (d_C d) (d_x d) (days * MS_PER_DAY + time_of_day d).

(** The Hijri date an islamic object stands for. *)
Definition hijri_fields (d : Dayjs) : Z * Z * Z :=
  let h := hijri_of_days (d_d d / MS_PER_DAY) in
  (match d_C_y d with Some v => v | None => h_y h end,
   match d_C_M d with Some v => v | None => h_m h - 1 end,
   match d_C_D d with Some v => v | None => h_d h end).

(** The getters: the cached fields, and for an islamic object the fields
    of its own calendar. *)
Definition year (d : Dayjs) : Z :=
  if is_islamic (d_C d) then fst (fst (hijri_fields d)) else d_y d.

Definition month (d : Dayjs) : Z :=
  if is_islamic (d_C d) then snd (fst (hijri_fields d)) else d_M d.

Definition get_date (d : Dayjs) : Z :=
  if is_islamic (d_C d) then snd (hijri_fields d) else d_D d.

(** Length of month [m] (0 to 11) of the tabular Hijri year [y]. *)
Definition hijri_month_length (y m : Z) : Z :=
  if m =? 11 then (if (11 * y + 14) mod 30 <? 11 then 30 else 29)
  else if Z.even m then 30 else 29.

Definition daysInMonth (d : Dayjs) : Z :=
  if is_islamic (d_C d)
  then hijri_month_length (year d) (month d)
  else month_length (d_y d) (d_M d).

Definition set_date (d : Dayjs) (v : Z) : Dayjs :=
  if is_islamic (d_C d) then
    let '(cy, cm, _) := hijri_fields d in
    at_day d (hijri_to_days cy (cm + 1) v)
  else at_day d (day_number (d_y d) (d_M d) v).

(** dayjs sets a month or a year on day 1 and then restores the day,
    capped by the length of the month reached. *)
Definition set_month (d : Dayjs) (v : Z) : Dayjs :=
  if is_islamic (d_C d) then
    let '(cy, _, cd) := hijri_fields d in
    let months := cy * 12 + v in
    at_day d (hijri_to_days (months / 12) (months mod 12 + 1) cd)
  else
    let months := d_y d * 12 + v in
    let len := month_length (months / 12) (months mod 12) in
    at_day d (day_number (d_y d) v (Z.min (d_D d) len)).

Definition set_year (d : Dayjs) (v : Z) : Dayjs :=
  if is_islamic (d_C d) then
    let '(_, cm, cd) := hijri_fields d in
    at_day d (hijri_to_days v (cm + 1) cd)
  else
    let len := month_length v (d_M d) in
    at_day d (day_number v (d_M d) (Z.min (d_D d) len)).

Definition add (d : Dayjs) (n : Z) (u : UnitType) : Dayjs :=
  match u with
  | u_day => at_day d (d_d d / MS_PER_DAY + n)
  | u_week => at_day d (d_d d / MS_PER_DAY + 7 * n)
  | u_month => set_month d (d_M d + n)
  end.

Definition day_start (d : Dayjs) (days : Z) : Dayjs :=
  init (d_C d) (d_x d) (days * MS_PER_DAY).

Definition day_end (d : Dayjs) (days : Z) : Dayjs :=
  init (d_C d) (d_x d) (days * MS_PER_DAY + MS_PER_DAY - 1).

Definition startOf (d : Dayjs) (u : UnitType) : Dayjs :=
  let days := d_d d / MS_PER_DAY in
  match u with
  | u_day => day_start d days
  | u_week => day_start d (days - (days + 4) mod 7)
  | u_month => day_start d (day_number (d_y d) (d_M d) 1)
  end.

Definition endOf (d : Dayjs) (u : UnitType) : Dayjs :=
  let days := d_d d / MS_PER_DAY in
  match u with
  | u_day => day_end d days
  | u_week => day_end d (days - (days + 4) mod 7 + 6)
  | u_month => day_end d (day_number (d_y d) (d_M d + 1) 0)
  end.

Definition pad (width : nat) (v : Z) : string :=
  let s := NilZero.string_of_int (Z.to_int v) in
  (fold_right append "" (repeat "0" (width - String.length s)) ++ s)%string.

(** The two formats the engine asks for; other text is left as it is. *)
Definition format (d : Dayjs) (fmt : string) : string :=
  let ymd := (pad 4 (year d) ++ "-" ++ pad 2 (month d + 1) ++ "-"
              ++ pad 2 (get_date d))%string in
  if (fmt =? "YYYY-MM-DD")%string then ymd
  else if (fmt =? "YYYY-MM-DD HH:mm")%string
  then (ymd ++ " " ++ pad 2 (d_H d) ++ ":" ++ pad 2 (d_m d))%string
  else fmt.

Definition toCalendarSystem (d : Dayjs) (c : CalendarType) : Dayjs :=
  init (Some c) (d_x d) (d_d d).

(** [new Date(y, m, d)]; a year from 0 to 99 is in the 1900s. *)
Definition Date_ymd (y m d : Z) : Z :=
  let y := if (0 <=? y) && (y <=? 99) then 1900 + y else y in
  day_number y m d * MS_PER_DAY.

Definition hijriToGregorian (y m d : Z) : GregorianDate :=
  let '(cy, cm, cd) := civil_from_days (hijri_to_days y m d) in
  {| gy := cy; gm := cm - 1; gd := cd |}.

Definition numeralSystems (numerals : Numerals) (i : Z) : option string :=
  if (0 <=? i) && (i <=? 9) then
    if (numerals =? "latn")%string
    then Some (NilZero.string_of_int (Z.to_int i))
    else None
  else None.

End Ref.

Definition ref_host : Host := {|
  parse := Ref.parse;
  parse_tz := Ref.parse_tz;
  year := Ref.year;
  month := Ref.month;
  get_date := Ref.get_date;
  day := d_W;
  set_year := Ref.set_year;
  set_month := Ref.set_month;
  set_date := Ref.set_date;
  add := Ref.add;
  startOf := Ref.startOf;
  endOf := Ref.endOf;
  daysInMonth := Ref.daysInMonth;
  isBefore := fun a b => d_d a <? d_d b;
  isAfter := fun a b => d_d b <? d_d a;
  isSame := fun a b u =>
    (d_d (Ref.startOf a u) <=? d_d b) && (d_d b <=? d_d (Ref.endOf a u));
  format := Ref.format;
  unix := fun d => d_d d / 1000;
  diff_day := fun a b => Z.quot (d_d a - d_d b) Ref.MS_PER_DAY;
  toDate := d_d;
  tz := Ref.with_zone;
  toCalendarSystem := Ref.toCalendarSystem;
  Date_ymd := Ref.Date_ymd;
  UmAlQura := Ref.HijriDate;
  umalqura_date := fun t => Ref.hijri_of_days (t / Ref.MS_PER_DAY);
  umalqura := fun y m d => Ref.hijri_of_days (Ref.hijri_to_days y m d);
  hy := Ref.h_y;
  hm := Ref.h_m;
  hd := Ref.h_d;
  dayOfWeek := fun u => (Ref.h_days u + 4) mod 7;
  umalqura_startOf_week := fun u =>
    Ref.hijri_of_days (Ref.h_days u - (Ref.h_days u + 4) mod 7);
  hijriToGregorian := Ref.hijriToGregorian;
  numeralSystems := Ref.numeralSystems
|}.


(** ** What the host libraries promise

    The facts about dayjs and [@umalqura/core] that statements below rely
    on, each stated where it is used. *)

(** The weekday of a date the library has set runs from 0 to 6, as does the
    weekday of an Umm-al-Qura date, and a month has 28 to 31 days. *)
Definition calendar_ranges (H : Host) : Prop :=
  (forall d v, 0 <= day (set_date d v) <= 6)
  /\ (forall d, 28 <= daysInMonth d <= 31)
  /\ (forall u, 0 <= dayOfWeek u <= 6).

(** [toCalendarSystem('islamic')] tags its result, and setting a year or a
    month keeps the tag. *)
Definition islamic_tag_kept (H : Host) : Prop :=
  (forall d, d_C (toCalendarSystem d islamic) = Some islamic)
  /\ (forall d v, d_C (set_year d v) = d_C d)
  /\ (forall d v, d_C (set_month d v) = d_C d).

(** Cloning and changing the zone keep the instant, and [isAfter] compares
    instants. *)
Definition instants_kept (H : Host) : Prop :=
  (forall d, toDate (parse (Obj d)) = toDate d)
  /\ (forall d zone, toDate (tz d zone) = toDate d)
  /\ (forall a b, isAfter a b = (toDate b <? toDate a)).


(** ** The rules of the specification, in its words *)

Section Rules.
Context {H : Host}.
Variable now : Z.

(** Policy (a): below [minDate]'s start of day. *)
Definition below_minDate (date : Dayjs) (minDate : DateType)
    (calendar : option CalendarType) : result bool :=
  if truthy minDate
  then m <- getDayjs now minDate calendar ;;
       Ok (isBefore date (startOf m u_day))
  else Ok false.

(** Policy (b): above [maxDate]'s end of day. *)
Definition above_maxDate (date : Dayjs) (maxDate : DateType)
    (calendar : option CalendarType) : result bool :=
  if truthy maxDate
  then m <- getDayjs now maxDate calendar ;;
       Ok (isAfter date (endOf m u_day))
  else Ok false.

(** A date matches a rule: membership in the list by same-day comparison,
    or the predicate returns true. *)
Definition matches_rule (rule : DateRule) (date : Dayjs)
    (calendar : option CalendarType) : result bool :=
  match rule with
  | RuleList l =>
      someM (fun entry => areDatesOnSameDay now (Obj date) entry calendar) l
  | RuleFn f => f date
  end.

(** Policies (a), (b) and (c): disabled by a bound, or else exactly when
    the date fails to match the enabled rule. *)
Definition disabled_by_enabled_rule (date : Dayjs)
    (minDate maxDate : DateType) (rule : DateRule)
    (calendar : option CalendarType) : result bool :=
  let calendar :=
    match calendar with None => Some gregory | Some c => Some c end in
  below <- below_minDate date minDate calendar ;;
  if below then Ok true else
  above <- above_maxDate date maxDate calendar ;;
  if above then Ok true else
  m <- matches_rule rule date calendar ;;
  Ok (negb m).

(** A rule whose predicate, if it is one, returns for every date. *)
Definition rule_returns (rule : option DateRule) : Prop :=
  match rule with
  | Some (RuleFn f) => forall d, exists b, f d = Ok b
  | _ => True
  end.

(** Same-day comparison as a boolean: [areDatesOnSameDay] never throws. *)
Definition sameDay (a b : DateType) (calendar : option CalendarType) : bool :=
  match areDatesOnSameDay now a b calendar with
  | Ok r => r
  | Throw _ => false
  end.

End Rules.

(** ** Inputs for the examples *)

(** A native [Date] at midnight (UTC) of a civil day, [m] from 1 to 12. *)
Definition on_day (y m d : Z) : DateType :=
  NativeDate (Ref.day_number y (m - 1) d * Ref.MS_PER_DAY).

(** The dayjs object of the reference host for that day. *)
Definition day_object (y m d : Z) : Dayjs :=
  Ref.parse (on_day y m d).

(** A picker in range mode and one in multiple mode, under the Gregorian
    calendar and the default zone, with the given day-count bounds. *)
Definition range_props (min max : option Z) : Props :=
  {| mode := range; calendar := Some gregory; timeZone := None;
     timePicker := false; min := min; max := max; onChange := true |}.

Definition multiple_props (max : option Z) : Props :=
  {| mode := multiple; calendar := Some gregory; timeZone := None;
     timePicker := false; min := None; max := max; onChange := true |}.

Definition range_state (start end_ : DateType) : LocalState :=
  {| st_date := Undefined; startDate := start; endDate := end_;
     dates := None |}.

Definition multiple_state (l : list DateType) : LocalState :=
  {| st_date := Undefined; startDate := Undefined; endDate := Undefined;
     dates := Some l |}.

(** The instant of midnight (UTC) of a civil day, and of its last
    millisecond. *)
Definition midnight (y m d : Z) : Z :=
  Ref.day_number y (m - 1) d * Ref.MS_PER_DAY.

Definition last_ms (y m d : Z) : Z :=
  midnight y m d + Ref.MS_PER_DAY - 1.

(** The [n] day numbers from [start] on. *)
Fixpoint days_from (start : Z) (n : nat) : list Z :=
  match n with
  | O => []
  | S n' => start :: days_from (start + 1) n'
  end.

(** ** utils.ts: the functions around the grid and the predicates *)

Definition YEAR_PAGE_SIZE := 12.

(** [Math.ceil(a / b)] for integers and a positive [b]. *)
Definition Math_ceil_div (a b : Z) : Z := - ((- a) / b).

Definition getYearRange (year : Z) : list Z :=
  let endYear := YEAR_PAGE_SIZE * Math_ceil_div year YEAR_PAGE_SIZE in
  let startYear :=
    if endYear =? year then endYear else endYear - YEAR_PAGE_SIZE in
  let startYear := if startYear <? 0 then 0 else startYear in
  map (fun i => startYear + i)
      (map Z.of_nat (seq 0 (Z.to_nat YEAR_PAGE_SIZE))).

(** [CalendarWeek] of [./types]. *)
Record WeekdayName := mkWeekdayName {
  wn_full : string;
  wn_short : string;
  wn_min : string
}.

Record CalendarWeek := mkCalendarWeek {
  cw_index : Z;
  cw_name : WeekdayName
}.

(** [names[index] || '']. *)
Definition name_at (names : list string) (index : nat) : string :=
  nth index names "".

(** [names.map((name, index) => f name index)]. *)
Fixpoint map_indexed {A B : Type} (f : A -> nat -> B) (l : list A)
    (index : nat) : list B :=
  match l with
  | [] => []
  | x :: l' => f x index :: map_indexed f l' (S index)
  end.

(** [getWeekdays]; the three lists are what [dayjs.weekdays()],
    [dayjs.weekdaysShort()] and [dayjs.weekdaysMin()] give once
    [dayjs.locale(locale)] is set.  [slice] clamps its bounds to the
    array. *)
Definition getWeekdays (weekdayNames weekdayShortNames weekdayMinNames
                          : list string)
    (firstDayOfWeek : Z) : list CalendarWeek :=
  let weekdays :=
    map_indexed (fun name index =>
                   {| cw_index := Z.of_nat index;
                      cw_name :=
                        {| wn_full := name;
                           wn_short := name_at weekdayShortNames index;
                           wn_min := name_at weekdayMinNames index |} |})
                weekdayNames 0 in
  if firstDayOfWeek >? 0
  then (skipn (Z.to_nat firstDayOfWeek) weekdays
        ++ firstn (Z.to_nat firstDayOfWeek) weekdays)%list
  else weekdays.

(** The 24-hour setters [.hour(v)] and [.minute(v)] of dayjs are taken as
    they come; [addTime] below is written over them. *)
Definition addTime (set_hour set_minute : Dayjs -> Z -> Dayjs)
    (date : Dayjs) (calendar : option CalendarType)
    (hour minute : option Z) : Dayjs :=
  let value (n : option Z) := match n with Some v => v | None => 0 end in
  if is_islamic calendar then
    let hijriDateTime := date in
    let hijriDateTime :=
      if set_number hour
      then assign_H_m hijriDateTime (value hour) (d_m hijriDateTime)
      else hijriDateTime in
    let hijriDateTime :=
      if set_number minute
      then assign_H_m hijriDateTime (d_H hijriDateTime) (value minute)
      else hijriDateTime in
    hijriDateTime
  else if set_number hour && set_number minute
  then set_minute (set_hour date (value hour)) (value minute)
  else if set_number hour && negb (set_number minute)
  then set_hour date (value hour)
  else if set_number minute && negb (set_number hour)
  then set_minute date (value minute)
  else set_minute (set_hour date 0) 0.

Section MoreUtils.
Context {H : Host}.
Variable now : Z.

Definition getDateMonth (date : DateType) (calendar : option CalendarType)
  : result Z :=
  d <- getDayjs now date calendar ;; Ok (month d).

Definition getDateYear (date : DateType) (calendar : option CalendarType)
  : result Z :=
  d <- getDayjs now date calendar ;; Ok (year d).

Definition isYearDisabled (year : Z) (minDate maxDate : DateType)
    (calendar : option CalendarType) : result bool :=
  below <- (if truthy minDate
            then y <- getDateYear minDate calendar ;; Ok (year <? y)
            else Ok false) ;;
  if below then Ok true else
  above <- (if truthy maxDate
            then y <- getDateYear maxDate calendar ;; Ok (year >? y)
            else Ok false) ;;
  if above then Ok true else Ok false.

(** [isMonthDisabled]; the year of [date] is read only once the month is
    on the wrong side of the bound. *)
Definition isMonthDisabled (month : Z) (date minDate maxDate : DateType)
    (calendar : option CalendarType) : result bool :=
  below <- (if truthy minDate
            then m <- getDateMonth minDate calendar ;;
                 if month <? m
                 then y <- getDateYear date calendar ;;
                      y' <- getDateYear minDate calendar ;;
                      Ok (y =? y')
                 else Ok false
            else Ok false) ;;
  if below then Ok true else
  above <- (if truthy maxDate
            then m <- getDateMonth maxDate calendar ;;
                 if month >? m
                 then y <- getDateYear date calendar ;;
                      y' <- getDateYear maxDate calendar ;;
                      Ok (y =? y')
                 else Ok false
            else Ok false) ;;
  if above then Ok true else Ok false.

Definition getDate (date : DateType) (calendar : option CalendarType)
  : result Dayjs :=
  getDayjs now date calendar.

Definition getFirstDayOfMonth (date : DateType) (firstDayOfWeek : Z)
    (calendar : option CalendarType) : result Z :=
  d <- getDate date calendar ;;
  Ok (day (set_date d (1 - firstDayOfWeek))).

(** [isHijriDateBetween]: the two closures, called left to right; the
    bounds are used as dayjs objects. *)
Definition isHijriDateBetween (date startDate endDate : DateType)
  : result bool :=
  current <- getDayjs now date (Some islamic) ;;
  let isBeforeEnd :=
    end_ <- as_Dayjs endDate ;;
    Ok (if year current >? year end_ then false
        else if year current <? year end_ then true
        else if month current >? month end_ then false
        else if month current <? month end_ then true
        else get_date current <=? get_date end_) in
  let isAfterStart :=
    start <- as_Dayjs startDate ;;
    Ok (if year start >? year current then false
        else if year start <? year current then true
        else if month start >? month current then false
        else if month start <? month current then true
        else get_date start <=? get_date current) in
  after <- isAfterStart ;;
  if after then isBeforeEnd else Ok false.

(** The number a value is compared as by [<=] and [>=]: a dayjs object and
    a native [Date] through [valueOf()], text through the host's
    [StringToNumber]; [None] is [NaN], which compares false. *)
Definition ToNumber (StringToNumber : string -> option Q) (x : DateType)
  : option Q :=
  match x with
  | Undefined => None
  | Null => Some (inject_Z 0)
  | Num n => Some (inject_Z n)
  | Str s => StringToNumber s
  | NativeDate t => Some (inject_Z t)
  | Obj d => Some (inject_Z (toDate d))
  end.

Definition js_le (StringToNumber : string -> option Q) (a b : DateType)
  : bool :=
  match ToNumber StringToNumber a, ToNumber StringToNumber b with
  | Some x, Some y => Qle_bool x y
  | _, _ => false
  end.

Definition isDateBetween (StringToNumber : string -> option Q)
    (date startDate endDate : DateType) (calendar : option CalendarType)
  : result bool :=
  if negb (truthy startDate) || negb (truthy endDate) then Ok false
  else
    d <- getDayjs now date calendar ;;
    isBetween <-
      (if js_le StringToNumber (Obj d) endDate
       then d' <- getDayjs now date calendar ;;
            Ok (js_le StringToNumber startDate (Obj d'))
       else Ok false) ;;
    if is_islamic calendar
    then isHijriDateBetween date startDate endDate
    else Ok isBetween.

End MoreUtils.

(** The order of (year, month, day) triples. *)
Definition ymd_le (a b : Z * Z * Z) : bool :=
  let '(y, m, d) := a in
  let '(y', m', d') := b in
  (y <? y') || ((y =? y') && ((m <? m') || ((m =? m') && (d <=? d')))).

Definition ymd {H : Host} (d : Dayjs) : Z * Z * Z :=
  (year d, month d, get_date d).

(** What [generateCalendarDay] writes into a cell, but for the date and the
    two flags that depend on the rules and on the start of the week. *)
Definition cell_fields {H : Host} (c : CalendarDay) (n : Z) (flag : bool)
    (position firstDayOfWeek : Z) (numerals : Numerals) : Prop :=
  number c = n
  /\ isCurrentMonth c = flag
  /\ dayOfMonth c = position
  /\ text c = formatNumber n numerals
  /\ isEndOfWeek c = (day (cd_date c) =? Z.rem (firstDayOfWeek + 6) 7).

(** ** datetime-picker.tsx: the reducer *)

Inductive CalendarViews := view_day | view_month | view_year | view_time.

(** [LocalState] of [./types], with the selection held apart. *)
Record PickerState := mkPickerState {
  selection : LocalState;
  calendarView : CalendarViews;
  currentDate : DateType;
  currentYear : Z;
  isRTL : bool
}.

Inductive CalendarAction :=
| SET_CALENDAR_VIEW (payload : CalendarViews)
| CHANGE_CURRENT_DATE (payload : DateType)
| CHANGE_CURRENT_YEAR (payload : Z)
| CHANGE_SELECTED_DATE (date : DateType)
| CHANGE_SELECTED_RANGE (startDate endDate : DateType)
| CHANGE_SELECTED_MULTIPLE (dates : option (list DateType))
| SET_IS_RTL (payload : bool)
| RESET_STATE (payload : PickerState).

Definition with_selection (prevState : PickerState) (sel : LocalState)
  : PickerState :=
  {| selection := sel;
     calendarView := calendarView prevState;
     currentDate := currentDate prevState;
     currentYear := currentYear prevState;
     isRTL := isRTL prevState |}.

Definition reducer (prevState : PickerState) (action : CalendarAction)
  : PickerState :=
  match action with
  | SET_CALENDAR_VIEW payload =>
      {| selection := selection prevState;
         calendarView := payload;
         currentDate := currentDate prevState;
         currentYear := currentYear prevState;
         isRTL := isRTL prevState |}
  | CHANGE_CURRENT_DATE payload =>
      {| selection := selection prevState;
         calendarView := calendarView prevState;
         currentDate := payload;
         currentYear := currentYear prevState;
         isRTL := isRTL prevState |}
  | CHANGE_CURRENT_YEAR payload =>
      {| selection := selection prevState;
         calendarView := calendarView prevState;
         currentDate := currentDate prevState;
         currentYear := payload;
         isRTL := isRTL prevState |}
  | CHANGE_SELECTED_DATE selectedDate =>
      {| selection :=
           {| st_date := selectedDate;
              startDate := startDate (selection prevState);
              endDate := endDate (selection prevState);
              dates := dates (selection prevState) |};
         calendarView := calendarView prevState;
         currentDate := selectedDate;
         currentYear := currentYear prevState;
         isRTL := isRTL prevState |}
  | CHANGE_SELECTED_RANGE start end_ =>
      with_selection prevState
        {| st_date := st_date (selection prevState);
           startDate := start;
           endDate := end_;
           dates := dates (selection prevState) |}
  | CHANGE_SELECTED_MULTIPLE selectedDates =>
      with_selection prevState
        {| st_date := st_date (selection prevState);
           startDate := startDate (selection prevState);
           endDate := endDate (selection prevState);
           dates := selectedDates |}
  | SET_IS_RTL payload =>
      {| selection := selection prevState;
         calendarView := calendarView prevState;
         currentDate := currentDate prevState;
         currentYear := currentYear prevState;
         isRTL := payload |}
  | RESET_STATE payload => payload
  end.

(** [firstDay]: the [firstDayOfWeek] prop when it is from 1 to 6, else 0. *)
Definition firstDay (firstDayOfWeek : option Z) : Z :=
  match firstDayOfWeek with
  | Some v =>
      if negb (v =? 0) && (v >? 0) && (v <=? 6) then v else 0
  | None => 0
  end.

(** ** Conversions return *)

Section Conversions.
Context {H : Host}.
Variable now : Z.

Lemma bind_Ok {A B : Type} (a : A) (k : A -> result B) :
  bind (Ok a) k = k a.
Proof. reflexivity. Qed.

(** [getDayjs] throws on [null] under the islamic calendar only. *)
Lemma getDayjs_returns (d : DateType) (calendar : option CalendarType) :
  d <> Null -> exists x, getDayjs now d calendar = Ok x.
Proof.
  intros Hd. unfold getDayjs.
  destruct (is_islamic calendar); [| eauto].
  destruct d as [| | n | s | t | o]; try congruence;
    try (unfold adjustDayjsHijriDate; cbn; eauto).
  destruct (is_islamic (d_C o)); [eauto |].
  unfold adjustDayjsHijriDate; cbn; eauto.
Qed.

Lemma getDayjs_Null_islamic :
  getDayjs now Null (Some islamic) = Throw TypeError.
Proof. reflexivity. Qed.

Lemma getDayjs_other (d : DateType) (calendar : option CalendarType) :
  is_islamic calendar = false -> getDayjs now d calendar = Ok (dayjs now d).
Proof.
  intros Hc. unfold getDayjs. rewrite Hc.
  destruct d; reflexivity.
Qed.

Lemma truthy_not_Null (d : DateType) : truthy d = true -> d <> Null.
Proof. destruct d; cbn; congruence. Qed.

Lemma areDatesOnSameDay_returns (a b : DateType)
    (calendar : option CalendarType) :
  areDatesOnSameDay now a b calendar = Ok (sameDay now a b calendar).
Proof.
  unfold sameDay, areDatesOnSameDay.
  destruct (truthy a) eqn:Ha; [| reflexivity].
  destruct (truthy b) eqn:Hb; [| reflexivity].
  cbn.
  destruct (getDayjs_returns a calendar (truthy_not_Null a Ha)) as [x ->].
  destruct (getDayjs_returns b calendar (truthy_not_Null b Hb)) as [y ->].
  reflexivity.
Qed.

Lemma someM_pure {A : Type} (f : A -> result bool) (g : A -> bool)
    (l : list A) :
  (forall x, f x = Ok (g x)) -> someM f l = Ok (existsb g l).
Proof.
  intros Hf. induction l as [| x l IH]; [reflexivity |].
  cbn. rewrite Hf. cbn. destruct (g x); [reflexivity | exact IH].
Qed.

Lemma filterM_pure {A : Type} (f : A -> result bool) (g : A -> bool)
    (l : list A) :
  (forall x, f x = Ok (g x)) -> filterM f l = Ok (filter g l).
Proof.
  intros Hf. induction l as [| x l IH]; [reflexivity |].
  cbn. rewrite Hf, IH. cbn. destruct (g x); reflexivity.
Qed.

(** An entry on which the callback answers false can be left out. *)
Lemma someM_skip {A : Type} (f : A -> result bool) (e : A)
    (l1 l2 : list A) :
  f e = Ok false -> someM f (l1 ++ e :: l2) = someM f (l1 ++ l2).
Proof.
  intros He. induction l1 as [| x l1 IH]; cbn.
  - rewrite He. reflexivity.
  - destruct (f x) as [[|] |]; cbn; auto.
Qed.

End Conversions.

(** ** The date predicate engine *)

(** C3: when [enabledDates] is supplied, [isDateDisabled] is the bound
    checks followed by the negated match against [enabledDates] (list
    membership by same-day comparison, or the predicate), whatever
    [disabledDates] holds, be it a predicate that would throw; this is so in
    both revisions of [utils.ts]. *)
Theorem isDateDisabled_enabledDates_only :
  forall (H : Host) (now : Z) (date : Dayjs) (minDate maxDate : DateType)
         (rule : DateRule) (disabledDates : option DateRule)
         (calendar : option CalendarType),
    isDateDisabled now date minDate maxDate (Some rule) disabledDates calendar
    = disabled_by_enabled_rule now date minDate maxDate rule calendar
    /\ (forall disabledDates',
          isDateDisabled now date minDate maxDate (Some rule)
            disabledDates calendar
          = isDateDisabled now date minDate maxDate (Some rule)
              disabledDates' calendar)
    /\ (forall disabledDates',
          Legacy.isDateDisabled now date minDate maxDate (Some rule)
            disabledDates calendar
          = Legacy.isDateDisabled now date minDate maxDate (Some rule)
              disabledDates' calendar).
Proof.
  intros H now date minDate maxDate rule disabledDates calendar.
  split; [| split].
  - unfold isDateDisabled, disabled_by_enabled_rule, below_minDate,
      above_maxDate, matches_rule.
    destruct rule; reflexivity.
  - intros disabledDates'. unfold isDateDisabled. destruct rule; reflexivity.
  - intros disabledDates'. unfold Legacy.isDateDisabled.
    destruct rule; reflexivity.
Qed.

(** C10: [areDatesOnSameDay] answers false as soon as one argument is null
    or undefined, in both revisions and on every host, also where
    converting that argument would throw; hence an absent entry of an
    [enabledDates] or [disabledDates] list changes nothing, and in multiple
    mode it neither makes the pick count as present nor is removed. *)
Theorem areDatesOnSameDay_absent :
  forall (H : Host) (now : Z) (e : DateType) (cal : option CalendarType),
    absent e = true ->
    (forall x, areDatesOnSameDay now e x cal = Ok false
               /\ areDatesOnSameDay now x e cal = Ok false)
    /\ (forall x, Legacy.areDatesOnSameDay now e x cal = Ok false
                  /\ Legacy.areDatesOnSameDay now x e cal = Ok false)
    /\ (forall date minDate maxDate other l1 l2,
          isDateDisabled now date minDate maxDate
            (Some (RuleList (l1 ++ e :: l2))) other cal
          = isDateDisabled now date minDate maxDate
              (Some (RuleList (l1 ++ l2))) other cal
          /\ isDateDisabled now date minDate maxDate None
               (Some (RuleList (l1 ++ e :: l2))) cal
             = isDateDisabled now date minDate maxDate None
                 (Some (RuleList (l1 ++ l2))) cal)
    /\ (forall props newDate l1 l2,
          multiple_exists now props (l1 ++ e :: l2) newDate
          = multiple_exists now props (l1 ++ l2) newDate)
    /\ (forall props newDate l kept,
          In e l ->
          multiple_newDates now props l newDate true = Ok kept ->
          In e kept).
Proof.
  intros H now e cal He.
  assert (Hleft : forall c x, areDatesOnSameDay now e x c = Ok false).
  { intros c x. unfold areDatesOnSameDay.
    destruct e; cbn in He; try discriminate; reflexivity. }
  assert (Hright : forall c x, areDatesOnSameDay now x e c = Ok false).
  { intros c x. unfold areDatesOnSameDay.
    destruct e; cbn in He; try discriminate;
      cbn; rewrite orb_true_r; reflexivity. }
  split; [intros x; split; [apply Hleft | apply Hright] |].
  split.
  { intros x; split; unfold Legacy.areDatesOnSameDay;
      destruct e; cbn in He; try discriminate;
      cbn; rewrite ?orb_true_r; reflexivity. }
  split.
  { intros date minDate maxDate other l1 l2.
    unfold isDateDisabled.
    rewrite !(someM_skip _ e l1 l2) by apply Hright.
    split; reflexivity. }
  split.
  { intros props newDate l1 l2. unfold multiple_exists.
    apply someM_skip. apply Hleft. }
  intros props newDate l kept Hin Hk.
  unfold multiple_newDates in Hk.
  rewrite (filterM_pure _
             (fun ed => negb (sameDay now ed (Obj newDate) (calendar props))))
    in Hk.
  - injection Hk as <-. apply filter_In. split; [exact Hin |].
    unfold sameDay. rewrite Hleft. reflexivity.
  - intros x. rewrite areDatesOnSameDay_returns. reflexivity.
Qed.

(** ** The calendar adapter *)

Lemma adjustDayjsHijriDate_tag (H : Host) (now : Z) (d : DateType) (x : Dayjs) :
  islamic_tag_kept H ->
  (forall o, d = Obj o -> is_islamic (d_C o) = false) ->
  adjustDayjsHijriDate now d None = Ok x ->
  d_C x = Some islamic.
Proof.
  intros (Htag & Hyear & Hmonth) Hd Hx.
  unfold adjustDayjsHijriDate in Hx.
  destruct (get_C d) as [C |] eqn:HC; cbn in Hx; [| discriminate].
  injection Hx as <-. cbn.
  destruct d as [| | n | s | t | o]; cbn in HC; try discriminate;
    try (rewrite Hmonth, Hyear; apply Htag).
  injection HC as <-.
  specialize (Hd o eq_refl).
  destruct (d_C o) as [[ | | ] |]; cbn in Hd; try discriminate;
    rewrite Hmonth, Hyear; apply Htag.
Qed.

Lemma getDayjs_islamic_tag (H : Host) (now : Z) (d : DateType) (x : Dayjs) :
  islamic_tag_kept H ->
  getDayjs now d (Some islamic) = Ok x -> d_C x = Some islamic.
Proof.
  intros Hlaw Hx. unfold getDayjs in Hx. cbn in Hx.
  destruct d as [| | n | s | t | o];
    try (apply (adjustDayjsHijriDate_tag H now _ x Hlaw) in Hx;
         [exact Hx | intros o' Ho'; discriminate]).
  destruct (is_islamic (d_C o)) eqn:Ho.
  - injection Hx as <-.
    destruct (d_C o) as [[ | | ] |]; cbn in Ho; congruence.
  - apply (adjustDayjsHijriDate_tag H now _ x Hlaw) in Hx; [exact Hx |].
    intros o' Ho'. injection Ho' as <-. exact Ho.
Qed.

Lemma getDayjs_tagged (H : Host) (now : Z) (x : Dayjs) :
  d_C x = Some islamic -> getDayjs now (Obj x) (Some islamic) = Ok x.
Proof. intros Hx. unfold getDayjs. cbn. rewrite Hx. reflexivity. Qed.

(** C7: on a host whose [toCalendarSystem('islamic')] tags its result and
    whose year and month setters keep the tag, converting a converted date
    again gives the same object, at whatever instants the two calls run (a
    [null] throws in both); every other input does convert, and an object
    already tagged islamic is returned as it is. *)
Theorem getDayjs_islamic_idempotent :
  forall (H : Host),
    islamic_tag_kept H ->
    forall (now now' : Z) (d : DateType),
      (x <- getDayjs now d (Some islamic) ;;
       getDayjs now' (Obj x) (Some islamic))
      = getDayjs now d (Some islamic)
      /\ (d <> Null ->
          exists x, getDayjs now d (Some islamic) = Ok x
                    /\ d_C x = Some islamic)
      /\ (forall x, d_C x = Some islamic ->
                    getDayjs now' (Obj x) (Some islamic) = Ok x).
Proof.
  intros H Hlaw now now' d. split; [| split].
  - destruct (getDayjs now d (Some islamic)) as [x |] eqn:Hx; [| reflexivity].
    cbn. apply getDayjs_tagged.
    exact (getDayjs_islamic_tag H now d x Hlaw Hx).
  - intros Hd.
    destruct (getDayjs_returns now d (Some islamic) Hd) as [x Hx].
    exists x. split; [exact Hx |].
    exact (getDayjs_islamic_tag H now d x Hlaw Hx).
  - intros x Hx. apply getDayjs_tagged. exact Hx.
Qed.

(** ** The reference host keeps the libraries' promises *)

Lemma ref_islamic_tag_kept : islamic_tag_kept ref_host.
Proof.
  split; [| split].
  - intros d. reflexivity.
  - intros d v. cbn. unfold Ref.set_year.
    destruct (is_islamic (d_C d)).
    + destruct (Ref.hijri_fields d) as [[cy cm] cd].
      unfold Ref.at_day, Ref.init.
      destruct (Ref.civil_from_days _) as [[y m] dd]. reflexivity.
    + unfold Ref.at_day, Ref.init.
      destruct (Ref.civil_from_days _) as [[y m] dd]. reflexivity.
  - intros d v. cbn. unfold Ref.set_month.
    destruct (is_islamic (d_C d)).
    + destruct (Ref.hijri_fields d) as [[cy cm] cd].
      unfold Ref.at_day, Ref.init.
      destruct (Ref.civil_from_days _) as [[y m] dd]. reflexivity.
    + unfold Ref.at_day, Ref.init.
      destruct (Ref.civil_from_days _) as [[y m] dd]. reflexivity.
Qed.

Lemma ref_instants_kept : instants_kept ref_host.
Proof. split; [| split]; intros; reflexivity. Qed.

Lemma ref_init_weekday (C : option CalendarType) (x : option TimeZone)
    (t : Z) :
  d_W (Ref.init C x t) = (t / Ref.MS_PER_DAY + 4) mod 7.
Proof.
  unfold Ref.init.
  destruct (Ref.civil_from_days _) as [[y m] dd]. reflexivity.
Qed.

Lemma ref_month_length_range (y m : Z) : 28 <= Ref.month_length y m <= 31.
Proof.
  unfold Ref.month_length.
  destruct (m =? 1); [destruct (Ref.is_leap y); lia |].
  destruct ((m =? 3) || (m =? 5) || (m =? 8) || (m =? 10)); lia.
Qed.

Lemma ref_calendar_ranges : calendar_ranges ref_host.
Proof.
  split; [| split].
  - intros d v. cbn. unfold Ref.set_date.
    destruct (is_islamic (d_C d)).
    + destruct (Ref.hijri_fields d) as [[cy cm] cd].
      unfold Ref.at_day. rewrite ref_init_weekday.
      pose proof (Z.mod_pos_bound
                    ((Ref.hijri_to_days cy (cm + 1) v * Ref.MS_PER_DAY
                      + Ref.time_of_day d) / Ref.MS_PER_DAY + 4) 7).
      lia.
    + unfold Ref.at_day. rewrite ref_init_weekday.
      pose proof (Z.mod_pos_bound
                    ((Ref.day_number (d_y d) (d_M d) v * Ref.MS_PER_DAY
                      + Ref.time_of_day d) / Ref.MS_PER_DAY + 4) 7).
      lia.
  - intros d. cbn. unfold Ref.daysInMonth.
    destruct (is_islamic (d_C d)); [| apply ref_month_length_range].
    unfold Ref.hijri_month_length.
    destruct (Ref.month d =? 11);
      [destruct (_ <? 11) | destruct (Z.even (Ref.month d))]; lia.
  - intros u. cbn.
    pose proof (Z.mod_pos_bound (Ref.h_days u + 4) 7). lia.
Qed.

(** ** The month grid *)

Section Grid.
Context {H : Host}.
Variable now : Z.

#[local] Arguments adjustDayjsHijriDate : simpl never.
#[local] Arguments getDayjs : simpl never.
#[local] Arguments isDateDisabled : simpl never.
#[local] Arguments generateCalendarDay : simpl never.

Lemma mapM_Forall2 {A B : Type} (f : A -> result B) (P : A -> B -> Prop)
    (l : list A) :
  (forall x, In x l -> exists y, f x = Ok y /\ P x y) ->
  exists r, mapM f l = Ok r /\ Forall2 P l r.
Proof.
  induction l as [| x l IH]; intros Hf.
  - exists []. split; [reflexivity | constructor].
  - destruct (Hf x (or_introl eq_refl)) as (y & Hy & HP).
    destruct IH as (r & Hr & HF).
    { intros z Hz. apply Hf. right. exact Hz. }
    exists (y :: r). cbn. rewrite Hy, Hr. split; [reflexivity |].
    constructor; assumption.
Qed.

Lemma Forall2_length_eq {A B : Type} (P : A -> B -> Prop) (l : list A)
    (r : list B) :
  Forall2 P l r -> List.length r = List.length l.
Proof. induction 1; cbn; congruence. Qed.

(** A row of cells that are all real, numbered as their indices say. *)
Lemma Forall2_cells (flag : bool) (l : list Z)
    (r : list (option CalendarDay)) :
  Forall2 (fun index cell =>
             exists c, cell = Some c /\ number c = index + 1
                       /\ isCurrentMonth c = flag) l r ->
  exists cells, r = map Some cells
                /\ map number cells = map (fun index => index + 1) l
                /\ Forall (fun c => isCurrentMonth c = flag) cells.
Proof.
  induction 1 as [| index cell l r (c & -> & Hn & Hf) _ (cells & -> & Hm & HF)].
  - exists []. repeat split. constructor.
  - exists (c :: cells). cbn. rewrite Hn, Hm. repeat split.
    constructor; assumption.
Qed.

Lemma adjustDayjsHijriDate_Obj_returns (o : Dayjs)
    (hijriDate : option UmAlQura) :
  exists x, adjustDayjsHijriDate now (Obj o) hijriDate = Ok x.
Proof. unfold adjustDayjsHijriDate. cbn. eauto. Qed.

Lemma getDayjs_Obj_returns (o : Dayjs) (calendar : option CalendarType) :
  exists x, getDayjs now (Obj o) calendar = Ok x.
Proof. apply getDayjs_returns. discriminate. Qed.

Lemma isDateDisabled_returns (date : Dayjs) (minDate maxDate : DateType)
    (enabledDates disabledDates : option DateRule) :
  rule_returns enabledDates ->
  (enabledDates = None -> rule_returns disabledDates) ->
  exists b,
    isDateDisabled now date minDate maxDate enabledDates disabledDates None
    = Ok b.
Proof.
  intros He Hd. unfold isDateDisabled.
  rewrite !getDayjs_other by reflexivity.
  destruct (truthy minDate); cbn;
    [destruct (isBefore date _); [eauto |] |];
    (destruct (truthy maxDate); cbn;
     [destruct (isAfter date _); [eauto |] |]);
    (destruct enabledDates as [[l | f] |]; cbn in *;
     [ rewrite (someM_pure _ (fun e => sameDay now (Obj date) e (Some gregory)))
         by (intros; apply areDatesOnSameDay_returns); cbn; eauto
     | destruct (He date) as [b ->]; cbn; eauto
     | specialize (Hd eq_refl);
       destruct disabledDates as [[l | f] |]; cbn in *;
       [ rewrite (someM_pure _
                    (fun e => sameDay now (Obj date) e (Some gregory)))
           by (intros; apply areDatesOnSameDay_returns); eauto
       | destruct (Hd date) as [b ->]; eauto
       | eauto ] ]).
Qed.

Lemma generateCalendarDay_returns (n : Z) (date : Dayjs)
    (minDate maxDate : DateType)
    (enabledDates disabledDates : option DateRule) (flag : bool)
    (dayOfMonth firstDayOfWeek : Z) (numerals : Numerals)
    (calendar : option CalendarType) :
  rule_returns enabledDates ->
  (enabledDates = None -> rule_returns disabledDates) ->
  exists c,
    generateCalendarDay now n date minDate maxDate enabledDates
      disabledDates flag dayOfMonth firstDayOfWeek numerals calendar = Ok c
    /\ number c = n /\ isCurrentMonth c = flag.
Proof.
  intros He Hd. unfold generateCalendarDay.
  destruct (getDayjs_Obj_returns date calendar) as [d ->].
  rewrite bind_Ok.
  destruct (isDateDisabled_returns date minDate maxDate enabledDates
              disabledDates He Hd) as [b Hb].
  destruct (is_islamic calendar).
  - unfold getStartOfHijriWeek.
    match goal with
    | |- context [adjustDayjsHijriDate now (Obj date) ?u] =>
        destruct (adjustDayjsHijriDate_Obj_returns date u) as [w ->]
    end.
    rewrite bind_Ok, Hb, bind_Ok. cbn. eauto.
  - rewrite bind_Ok, Hb, bind_Ok. cbn. eauto.
Qed.

(** One cell of a row: the day is adjusted under the islamic calendar and
    then described. *)
Lemma cell_returns (islamicDay : result Dayjs) (thisDay : Dayjs) (n : Z)
    (minDate maxDate : DateType)
    (enabledDates disabledDates : option DateRule) (flag : bool)
    (dayOfMonth firstDayOfWeek : Z) (numerals : Numerals)
    (calendar : option CalendarType) :
  rule_returns enabledDates ->
  (enabledDates = None -> rule_returns disabledDates) ->
  (exists t, islamicDay = Ok t) ->
  exists cell,
    (thisDay <- (if is_islamic calendar then islamicDay else Ok thisDay) ;;
     c <- generateCalendarDay now n thisDay minDate maxDate enabledDates
            disabledDates flag dayOfMonth firstDayOfWeek numerals calendar ;;
     Ok (Some c)) = Ok cell
    /\ exists c, cell = Some c /\ number c = n /\ isCurrentMonth c = flag.
Proof.
  intros He Hd (t & ->).
  destruct (is_islamic calendar); rewrite bind_Ok;
    match goal with
    | |- context [generateCalendarDay now ?n ?t ?a ?b ?c ?d ?e ?f ?g ?h ?i] =>
        destruct (generateCalendarDay_returns n t a b c d e f g h i He Hd)
          as (cell & -> & Hn & Hf)
    end;
    rewrite bind_Ok;
    (exists (Some cell); split; [reflexivity | exists cell; auto]).
Qed.

(** The three rows of [getMonthDays], each of the length asked for. *)
Lemma getMonthDays_rows (datetime : DateType) (showOutsideDays : bool)
    (minDate maxDate : DateType) (firstDayOfWeek : Z)
    (enabledDates disabledDates : option DateRule)
    (prevDaysCount offset current next : Z) (numerals : Numerals)
    (calendar : option CalendarType) :
  datetime <> Null ->
  rule_returns enabledDates ->
  (enabledDates = None -> rule_returns disabledDates) ->
  0 <= offset ->
  exists prevDays currentCells nextDays,
    getMonthDays now datetime showOutsideDays minDate maxDate firstDayOfWeek
      enabledDates disabledDates prevDaysCount offset current next
      numerals calendar
    = Ok (prevDays ++ map Some currentCells ++ nextDays)%list
    /\ List.length prevDays = Z.to_nat offset
    /\ (showOutsideDays = false -> prevDays = repeat None (Z.to_nat offset))
    /\ List.length currentCells = Z.to_nat current
    /\ map number currentCells
       = map (fun index => index + 1)
             (map Z.of_nat (seq 0 (Z.to_nat current)))
    /\ Forall (fun c => isCurrentMonth c = true) currentCells
    /\ List.length nextDays = Z.to_nat next.
Proof.
  intros Hdt He Hd Hoff. unfold getMonthDays.
  destruct (getDayjs_returns now datetime calendar Hdt) as [date ->].
  rewrite bind_Ok.
  (* the days of the previous month *)
  match goal with
  | |- exists _ _ _, bind ?c _ = _ /\ _ =>
      assert (Hprev : exists prevDays,
                 c = Ok prevDays
                 /\ List.length prevDays = Z.to_nat offset
                 /\ (showOutsideDays = false ->
                     prevDays = repeat None (Z.to_nat offset)))
  end.
  { destruct showOutsideDays.
    - unfold Array_from.
      match goal with
      | |- context [mapM ?f ?l] =>
          destruct (mapM_Forall2 f
                      (fun index cell =>
                         exists c, cell = Some c
                                   /\ number c
                                      = index + (prevDaysCount - offset + 1)
                                   /\ isCurrentMonth c = false) l)
            as (r & Hr & HF)
      end.
      { intros index _. cbv beta zeta.
        apply cell_returns; auto.
        unfold getPrevHijriDate. apply adjustDayjsHijriDate_Obj_returns. }
      exists r. split; [exact Hr |]. split; [| discriminate].
      rewrite (Forall2_length_eq _ _ _ HF), length_map, length_seq.
      reflexivity.
    - unfold Array_fill.
      destruct (offset <? 0) eqn:Hneg; [apply Z.ltb_lt in Hneg; lia |].
      exists (repeat None (Z.to_nat offset)).
      split; [reflexivity |]. split; [apply repeat_length | reflexivity]. }
  destruct Hprev as (prevDays & Hprev & Hplen & Hpnull).
  rewrite Hprev, bind_Ok.
  (* the days of the month *)
  unfold Array_from.
  match goal with
  | |- exists _ _ _, bind (mapM ?f ?l) _ = _ /\ _ =>
      destruct (mapM_Forall2 f
                  (fun index cell =>
                     exists c, cell = Some c /\ number c = index + 1
                               /\ isCurrentMonth c = true) l)
        as (cur & Hcur & HFcur)
  end.
  { intros index _. cbv beta zeta.
    apply cell_returns; auto.
    apply adjustDayjsHijriDate_Obj_returns. }
  rewrite Hcur, bind_Ok.
  destruct (Forall2_cells true _ _ HFcur) as (cells & -> & Hnum & Hflag).
  (* the days of the next month *)
  match goal with
  | |- exists _ _ _, bind (mapM ?f ?l) _ = _ /\ _ =>
      destruct (mapM_Forall2 f
                  (fun index cell =>
                     exists c, cell = Some c /\ number c = index + 1
                               /\ isCurrentMonth c = false) l)
        as (nxt & Hnxt & HFnxt)
  end.
  { intros index _. cbv beta zeta.
    apply cell_returns; auto.
    unfold getNextHijriDate. apply adjustDayjsHijriDate_Obj_returns. }
  rewrite Hnxt, bind_Ok.
  exists prevDays, cells, nxt.
  split; [reflexivity |]. split; [exact Hplen |]. split; [exact Hpnull |].
  split.
  { apply Forall2_length_eq in HFcur.
    rewrite length_map in HFcur. rewrite HFcur, length_map, length_seq.
    reflexivity. }
  split; [exact Hnum |]. split; [exact Hflag |].
  rewrite (Forall2_length_eq _ _ _ HFnxt), length_map, length_seq.
  reflexivity.
Qed.

End Grid.

(** The counts of [getDaysInMonth], on a host that keeps its ranges. *)
Lemma getDaysInMonth_counts (H : Host) (now : Z) (datetime : DateType)
    (showOutsideDays : bool) (firstDayOfWeek : Z)
    (calendar : option CalendarType) :
  calendar_ranges H ->
  datetime <> Null ->
  exists r,
    getDaysInMonth now datetime showOutsideDays firstDayOfWeek calendar = Ok r
    /\ 0 <= prevMonthOffset r <= 6
    /\ 28 <= daysInCurrentMonth r <= 31
    /\ daysInNextMonth r
       = (if showOutsideDays
          then if prevMonthOffset r + daysInCurrentMonth r >? 35
               then 42 - (prevMonthOffset r + daysInCurrentMonth r)
               else 35 - (prevMonthOffset r + daysInCurrentMonth r)
          else 0)
    /\ fullDaysInMonth r
       = (if showOutsideDays then prevMonthOffset r else 0)
         + daysInCurrentMonth r + daysInNextMonth r.
Proof.
  intros (Hday & Hdim & Hdow) Hdt. unfold getDaysInMonth.
  destruct (getDayjs_returns now datetime calendar Hdt) as [cur ->].
  rewrite bind_Ok. eexists. split; [reflexivity |].
  cbn [prevMonthOffset daysInCurrentMonth daysInNextMonth fullDaysInMonth].
  split; [| split; [| split; reflexivity]].
  - destruct (is_islamic calendar); [apply Hdow |].
    specialize (Hday cur (1 - firstDayOfWeek)).
    rewrite Z.rem_mod_nonneg by lia.
    pose proof (Z.mod_pos_bound (day (set_date cur (1 - firstDayOfWeek))) 7).
    lia.
  - destruct (is_islamic calendar); [| apply Hdim].
    unfold getDaysInHijriMonth. destruct (hd _ =? 30); lia.
Qed.

(** C2: under the islamic calendar [getDaysInMonth] returns as
    [prevMonthOffset] the Umm-al-Qura weekday of day 1 of the month as it
    is, whatever [firstDayOfWeek] says; for a first day of week from 1 to 6
    this is never the rotated value
    [(weekday - firstDayOfWeek + 7) mod 7]. *)
Theorem getDaysInMonth_islamic_offset_not_rotated :
  forall (H : Host) (now : Z) (datetime : DateType) (showOutsideDays : bool)
         (firstDayOfWeek : Z) (r : MonthDays),
    getDaysInMonth now datetime showOutsideDays firstDayOfWeek (Some islamic)
    = Ok r ->
    exists currentDate,
      getDayjs now datetime (Some islamic) = Ok currentDate
      /\ let weekday :=
           dayOfWeek (umalqura (year currentDate) (month currentDate + 1) 1)
         in
         prevMonthOffset r = weekday
         /\ (0 <= weekday <= 6 ->
             1 <= firstDayOfWeek <= 6 ->
             prevMonthOffset r <> (weekday - firstDayOfWeek + 7) mod 7).
Proof.
  intros H now datetime showOutsideDays firstDayOfWeek r Hr.
  unfold getDaysInMonth in Hr.
  destruct (getDayjs now datetime (Some islamic)) as [cur |] eqn:Hcur;
    [| discriminate].
  rewrite bind_Ok in Hr. injection Hr as <-.
  exists cur. split; [reflexivity |].
  cbn [prevMonthOffset is_islamic]. cbv zeta.
  split; [reflexivity |].
  intros Hw Hf Heq.
  set (w := dayOfWeek (umalqura (year cur) (month cur + 1) 1)) in *.
  assert (Hcases : firstDayOfWeek <= w \/ w < firstDayOfWeek) by lia.
  destruct Hcases as [Hle | Hlt].
  - replace (w - firstDayOfWeek + 7) with (w - firstDayOfWeek + 1 * 7)
      in Heq by lia.
    rewrite Z.mod_add, Z.mod_small in Heq by lia. lia.
  - rewrite Z.mod_small in Heq by lia. lia.
Qed.

(** C4: with outside days shown, the counts of [getDaysInMonth] make
    [getMonthDays] return a row of exactly 35 or exactly 42 cells, never
    fewer than [prevMonthOffset + daysInCurrentMonth]; this for every
    reference date (an absent one is the current instant, read anew by each
    call), calendar and first day of week, on a host that keeps its ranges
    and for rules whose predicates return. *)
Theorem getMonthDays_outside_days_35_or_42 :
  forall (H : Host) (now now' : Z) (datetime minDate maxDate : DateType)
         (firstDayOfWeek : Z) (enabledDates disabledDates : option DateRule)
         (numerals : Numerals) (cal : option CalendarType),
    calendar_ranges H ->
    datetime <> Null ->
    rule_returns enabledDates ->
    (enabledDates = None -> rule_returns disabledDates) ->
    exists r cells,
      getDaysInMonth now datetime true firstDayOfWeek cal = Ok r
      /\ getMonthDays now' datetime true minDate maxDate firstDayOfWeek
           enabledDates disabledDates (prevMonthDays r) (prevMonthOffset r)
           (daysInCurrentMonth r) (daysInNextMonth r) numerals cal
         = Ok cells
      /\ (List.length cells = 35%nat \/ List.length cells = 42%nat)
      /\ prevMonthOffset r + daysInCurrentMonth r
         <= Z.of_nat (List.length cells)
      /\ Z.of_nat (List.length cells) = fullDaysInMonth r.
Proof.
  intros H now now' datetime minDate maxDate firstDayOfWeek enabledDates
    disabledDates numerals cal Hlaws Hdt He Hd.
  destruct (getDaysInMonth_counts H now datetime true firstDayOfWeek cal
              Hlaws Hdt) as (r & Hr & Hoff & Hdim & Hnext & Hfull).
  destruct (getMonthDays_rows now' datetime true minDate maxDate
              firstDayOfWeek enabledDates disabledDates (prevMonthDays r)
              (prevMonthOffset r) (daysInCurrentMonth r) (daysInNextMonth r)
              numerals cal Hdt He Hd (proj1 Hoff))
    as (prevDays & cells & nextDays & Hcells & Hp & _ & Hc & _ & _ & Hn).
  exists r, (prevDays ++ map Some cells ++ nextDays)%list.
  split; [exact Hr |]. split; [exact Hcells |].
  rewrite !length_app, length_map, Hp, Hc, Hn, Hfull, Hnext.
  destruct (prevMonthOffset r + daysInCurrentMonth r >? 35) eqn:Hgt;
    [apply Z.gtb_lt in Hgt | rewrite Z.gtb_ltb in Hgt; apply Z.ltb_ge in Hgt];
    (split; [| lia]); [right | left]; lia.
Qed.

(** C5: with outside days suppressed, the counts of [getDaysInMonth] make
    [getMonthDays] return exactly [prevMonthOffset] null placeholders, then
    exactly [daysInCurrentMonth] cells of the month itself, numbered from 1,
    and nothing after them; under the same conditions as above. *)
Theorem getMonthDays_no_outside_days :
  forall (H : Host) (now now' : Z) (datetime minDate maxDate : DateType)
         (firstDayOfWeek : Z) (enabledDates disabledDates : option DateRule)
         (numerals : Numerals) (cal : option CalendarType),
    calendar_ranges H ->
    datetime <> Null ->
    rule_returns enabledDates ->
    (enabledDates = None -> rule_returns disabledDates) ->
    exists r cells,
      getDaysInMonth now datetime false firstDayOfWeek cal = Ok r
      /\ daysInNextMonth r = 0
      /\ getMonthDays now' datetime false minDate maxDate firstDayOfWeek
           enabledDates disabledDates (prevMonthDays r) (prevMonthOffset r)
           (daysInCurrentMonth r) (daysInNextMonth r) numerals cal
         = Ok (repeat None (Z.to_nat (prevMonthOffset r))
               ++ map Some cells)%list
      /\ 0 <= prevMonthOffset r
      /\ Z.of_nat (List.length cells) = daysInCurrentMonth r
      /\ map number cells
         = map Z.of_nat (seq 1 (Z.to_nat (daysInCurrentMonth r)))
      /\ Forall (fun c => isCurrentMonth c = true) cells.
Proof.
  intros H now now' datetime minDate maxDate firstDayOfWeek enabledDates
    disabledDates numerals cal Hlaws Hdt He Hd.
  destruct (getDaysInMonth_counts H now datetime false firstDayOfWeek cal
              Hlaws Hdt) as (r & Hr & Hoff & Hdim & Hnext & Hfull).
  destruct (getMonthDays_rows now' datetime false minDate maxDate
              firstDayOfWeek enabledDates disabledDates (prevMonthDays r)
              (prevMonthOffset r) (daysInCurrentMonth r) (daysInNextMonth r)
              numerals cal Hdt He Hd (proj1 Hoff))
    as (prevDays & cells & nextDays & Hcells & _ & Hp & Hc & Hnum & Hflag
        & Hn).
  exists r, cells.
  rewrite Hnext in Hn. destruct nextDays; [| discriminate].
  rewrite (Hp eq_refl), app_nil_r in Hcells.
  split; [exact Hr |]. split; [exact Hnext |]. split; [exact Hcells |].
  split; [lia |]. split; [lia |]. split; [| exact Hflag].
  rewrite Hnum, map_map, <- seq_shift, map_map.
  apply map_ext. intros n. lia.
Qed.

(** ** Comparing JavaScript numbers *)

Lemma num_eq_ge (a b : Q) : num_eq a b = true -> num_ge a b = true.
Proof.
  unfold num_eq, num_ge. intros Hab.
  apply Qeq_bool_iff in Hab. apply Qle_bool_iff.
  rewrite Hab. apply Qle_refl.
Qed.

Lemma num_eq_not_gt (a b : Q) : num_eq a b = true -> num_gt a b = false.
Proof.
  unfold num_eq, num_gt. intros Hab.
  apply Qeq_bool_iff in Hab. apply negb_false_iff, Qle_bool_iff.
  rewrite Hab. apply Qle_refl.
Qed.

Lemma num_gt_not_eq (a b : Q) : num_gt a b = true -> num_eq a b = false.
Proof.
  intros Hgt. destruct (num_eq a b) eqn:Heq; [| reflexivity].
  apply num_eq_not_gt in Heq. congruence.
Qed.

Lemma num_eq_left (a b c : Q) :
  num_eq a b = true -> num_eq a c = num_eq b c.
Proof.
  unfold num_eq. intros Hab. apply Qeq_bool_iff in Hab.
  destruct (Qeq_bool b c) eqn:Hbc.
  - apply Qeq_bool_iff in Hbc. apply Qeq_bool_iff.
    rewrite Hab. exact Hbc.
  - destruct (Qeq_bool a c) eqn:Hac; [| reflexivity].
    apply Qeq_bool_iff in Hac.
    assert (Hbc' : Qeq_bool b c = true)
      by (apply Qeq_bool_iff; rewrite <- Hab; exact Hac).
    congruence.
Qed.

Lemma num_eq_right (a b c : Q) :
  num_eq b c = true -> num_eq a b = num_eq a c.
Proof.
  unfold num_eq. intros Hbc. apply Qeq_bool_iff in Hbc.
  destruct (Qeq_bool a c) eqn:Hac.
  - apply Qeq_bool_iff in Hac. apply Qeq_bool_iff.
    rewrite Hbc. exact Hac.
  - destruct (Qeq_bool a b) eqn:Hab; [| reflexivity].
    apply Qeq_bool_iff in Hab.
    assert (Hac' : Qeq_bool a c = true)
      by (apply Qeq_bool_iff; rewrite <- Hbc; exact Hab).
    congruence.
Qed.

(** ** Range selection *)

Section Range.
Context {H : Host}.
Variable now : Z.

#[local] Arguments getDayjs : simpl never.
#[local] Arguments getEndOfDay : simpl never.
#[local] Arguments removeTime : simpl never.
#[local] Arguments dateToUnix : simpl never.

Lemma removeTime_not_Null (x : DateType) (timeZone : option TimeZone)
    (calendar : option CalendarType) (y : DateType) :
  removeTime now x timeZone calendar = Ok y -> y <> Null.
Proof.
  unfold removeTime.
  destruct (truthy x); cbn; [| intros [= <-]; discriminate].
  destruct (is_islamic calendar); [| intros [= <-]; discriminate].
  destruct x; intros [= <-]; discriminate.
Qed.

(** A selection held as dayjs objects is always stripped of its time and
    turned into seconds. *)
Lemma removeTime_Obj_returns (d : Dayjs) (timeZone : option TimeZone)
    (calendar : option CalendarType) :
  exists d', removeTime now (Obj d) timeZone calendar = Ok (Obj d').
Proof.
  unfold removeTime. cbn [truthy negb].
  destruct (is_islamic calendar); eauto.
Qed.

Lemma dateToUnix_Obj_returns (d : Dayjs) (calendar : option CalendarType) :
  exists seconds, dateToUnix now (Obj d) calendar = Ok seconds.
Proof.
  unfold dateToUnix. cbn [truthy as_Dayjs].
  destruct (is_islamic calendar); cbn [andb].
  - rewrite bind_Ok. eauto.
  - destruct (getDayjs_returns now (Obj d) calendar) as [x ->];
      [discriminate | rewrite bind_Ok; eauto].
Qed.

Lemma getEndOfDay_returns (d : DateType) (calendar : option CalendarType) :
  d <> Null -> exists e, getEndOfDay now d calendar = Ok e.
Proof.
  intros Hd. unfold getEndOfDay.
  destruct (getDayjs_returns now d calendar Hd) as [x ->].
  rewrite bind_Ok. eauto.
Qed.

(** C1, as the code has it: in range mode, with both bounds set to distinct
    days and a pick on the day of the start, [onSelectDate] reports the
    reset [{startDate: undefined, endDate: undefined}] when a [min] or a
    [max] day count is configured; with neither, it reports the start
    unchanged and the end of the picked day as the end. *)
Theorem onSelectDate_range_repick_start :
  forall (props : Props) (state : LocalState)
         (selectedDate start end_ selected : DateType)
         (selectedUnix startUnix endUnix : Q),
    onChange props = true ->
    mode props = range ->
    removeTime now (startDate state) (timeZone props) (calendar props)
    = Ok start ->
    removeTime now (endDate state) (timeZone props) (calendar props)
    = Ok end_ ->
    removeTime now selectedDate (timeZone props) (calendar props)
    = Ok selected ->
    dateToUnix now selected (calendar props) = Ok selectedUnix ->
    dateToUnix now start (calendar props) = Ok startUnix ->
    dateToUnix now end_ (calendar props) = Ok endUnix ->
    truthy start = true ->
    truthy end_ = true ->
    num_eq startUnix endUnix = false ->
    num_eq selectedUnix startUnix = true ->
    (set_number (min props) || set_number (max props) = true ->
     onSelectDate now props state selectedDate
     = Ok [OnChange (RangeChange None None)])
    /\ (set_number (min props) || set_number (max props) = false ->
        exists endOfDay,
          getEndOfDay now selected (calendar props) = Ok endOfDay
          /\ onSelectDate now props state selectedDate
             = Ok [OnChange
                     (RangeChange
                        (Some (toDate (dayjs_tz now start None)))
                        (Some (toDate (dayjs_tz now (Obj endOfDay)
                                         (timeZone props)))))]).
Proof.
  intros props state selectedDate start end_ selected selectedUnix startUnix
    endUnix Hon Hmode Hstart Hend Hsel HselU HstartU HendU Hts Hte Hse Hps.
  pose proof (removeTime_not_Null _ _ _ _ Hsel) as Hnn.
  destruct (getDayjs_returns now selected (calendar props) Hnn) as [day Hday].
  destruct (getEndOfDay_returns selected (calendar props) Hnn) as [eod Heod].
  unfold onSelectDate. rewrite Hon, Hmode.
  unfold onSelectDate_range. cbv zeta.
  rewrite Hstart, bind_Ok, Hend, bind_Ok, Hsel, bind_Ok.
  rewrite HselU, bind_Ok, HstartU, bind_Ok, HendU, bind_Ok.
  rewrite (num_eq_left _ _ endUnix Hps), Hse, (num_eq_ge _ _ Hps), Hps.
  rewrite (num_eq_not_gt _ _ Hps), Hts, Hte.
  cbn [negb andb orb]. cbv iota beta.
  split; intros Hcount; rewrite Hcount.
  - rewrite bind_Ok. cbv iota beta. cbn [negb andb].
    rewrite Hday, bind_Ok, bind_Ok. reflexivity.
  - rewrite bind_Ok. cbv iota beta. cbn [negb andb].
    rewrite bind_Ok. cbv iota beta. cbn [negb].
    exists eod. split; [exact Heod |].
    rewrite bind_Ok, Heod, bind_Ok, bind_Ok. reflexivity.
Qed.

(** C8, as the code has it: in range mode, with both bounds set on the
    same day and a pick strictly later, [onSelectDate] reports the start
    unchanged (at the start of its day) and the end of the picked day as the
    end, unless a configured [min] or [max] day count is violated by the
    days from the start to the pick; then the range restarts at the pick,
    with no end. *)
Theorem onSelectDate_range_extend_single_day :
  forall (props : Props) (state : LocalState)
         (selectedDate start end_ selected : DateType)
         (selectedUnix startUnix endUnix : Q) (selectedDay : Dayjs),
    onChange props = true ->
    mode props = range ->
    removeTime now (startDate state) (timeZone props) (calendar props)
    = Ok start ->
    removeTime now (endDate state) (timeZone props) (calendar props)
    = Ok end_ ->
    removeTime now selectedDate (timeZone props) (calendar props)
    = Ok selected ->
    dateToUnix now selected (calendar props) = Ok selectedUnix ->
    dateToUnix now start (calendar props) = Ok startUnix ->
    dateToUnix now end_ (calendar props) = Ok endUnix ->
    getDayjs now selected (calendar props) = Ok selectedDay ->
    truthy start = true ->
    truthy end_ = true ->
    num_eq startUnix endUnix = true ->
    num_gt selectedUnix startUnix = true ->
    let numberOfDays := diff_day selectedDay (dayjs now start) in
    let violated :=
      (set_number (min props) || set_number (max props))
      && (above_bound (max props) numberOfDays
          || below_bound (min props) numberOfDays) in
    (violated = false ->
     exists endOfDay,
       getEndOfDay now selected (calendar props) = Ok endOfDay
       /\ onSelectDate now props state selectedDate
          = Ok [OnChange
                  (RangeChange
                     (Some (toDate (dayjs_tz now start None)))
                     (Some (toDate (dayjs_tz now (Obj endOfDay)
                                      (timeZone props)))))])
    /\ (violated = true ->
        onSelectDate now props state selectedDate
        = Ok [OnChange (RangeChange (Some (toDate selectedDay)) None)]).
Proof.
  intros props state selectedDate start end_ selected selectedUnix startUnix
    endUnix selectedDay Hon Hmode Hstart Hend Hsel HselU HstartU HendU Hday
    Hts Hte Hse Hps numberOfDays violated.
  pose proof (removeTime_not_Null _ _ _ _ Hsel) as Hnn.
  destruct (getEndOfDay_returns selected (calendar props) Hnn) as [eod Heod].
  assert (Hstep :
    onSelectDate now props state selectedDate
    = if violated
      then Ok [OnChange (RangeChange (Some (toDate selectedDay)) None)]
      else Ok [OnChange
                 (RangeChange
                    (Some (toDate (dayjs_tz now start None)))
                    (Some (toDate (dayjs_tz now (Obj eod)
                                     (timeZone props)))))]).
  { unfold onSelectDate. rewrite Hon, Hmode.
    unfold onSelectDate_range. cbv zeta.
    rewrite Hstart, bind_Ok, Hend, bind_Ok, Hsel, bind_Ok.
    rewrite HselU, bind_Ok, HstartU, bind_Ok, HendU, bind_Ok.
    rewrite <- (num_eq_right selectedUnix _ _ Hse).
    rewrite (num_gt_not_eq _ _ Hps), Hse, Hps, Hts, Hte.
    cbn [negb andb orb]. rewrite andb_false_r. cbv iota beta.
    cbn [negb andb orb]. rewrite bind_Ok. cbv iota beta. cbn [negb andb].
    subst violated.
    destruct (set_number (min props) || set_number (max props)).
    - rewrite Hday, bind_Ok. fold numberOfDays.
      cbn [andb].
      destruct (above_bound (max props) numberOfDays
                || below_bound (min props) numberOfDays).
      + rewrite bind_Ok. cbv iota beta.
        cbn [bind negb truthy]. reflexivity.
      + rewrite bind_Ok. cbv iota beta. cbn [negb].
        rewrite Heod. cbn [bind]. reflexivity.
    - cbn [andb]. rewrite bind_Ok. cbv iota beta. cbn [negb].
      rewrite Heod. cbn [bind]. reflexivity. }
  split; intros Hv; rewrite Hv in Hstep.
  - exists eod. split; [exact Heod | exact Hstep].
  - exact Hstep.
Qed.

End Range.

(** ** Sorting by a comparison function *)

Section Sorting.
Variable A : Type.
Variable key : A -> Z.
Variable comparefn : A -> A -> Z.

(** [comparefn] puts its first argument after the second exactly when its
    key is the larger one. *)
Hypothesis comparefn_key :
  forall a b, (0 <? comparefn a b) = (key b <? key a).

Lemma sort_insert_Permutation (x : A) (l : list A) :
  Permutation (sort_insert comparefn x l) (x :: l).
Proof.
  induction l as [| y l IH]; cbn; [reflexivity |].
  destruct (0 <? comparefn x y); [| reflexivity].
  rewrite IH. apply perm_swap.
Qed.

Lemma insertion_sort_Permutation (l : list A) :
  Permutation (insertion_sort comparefn l) l.
Proof.
  induction l as [| x l IH]; cbn; [reflexivity |].
  rewrite sort_insert_Permutation. apply perm_skip. exact IH.
Qed.

Lemma sort_insert_Sorted (x : A) (l : list A) :
  Sorted Z.le (map key l) ->
  Sorted Z.le (map key (sort_insert comparefn x l)).
Proof.
  induction l as [| y l IH]; intros Hs; cbn.
  - repeat constructor.
  - rewrite comparefn_key.
    apply Sorted_inv in Hs. destruct Hs as [Hs Hhd].
    destruct (key y <? key x) eqn:Hyx; cbn.
    + apply Z.ltb_lt in Hyx.
      constructor; [apply IH; exact Hs |].
      destruct l as [| z l]; cbn.
      * constructor. lia.
      * rewrite comparefn_key.
        destruct (key z <? key x); cbn; constructor.
        -- apply HdRel_inv in Hhd. exact Hhd.
        -- lia.
    + apply Z.ltb_ge in Hyx.
      constructor; [constructor; assumption |].
      constructor. exact Hyx.
Qed.

Lemma insertion_sort_Sorted (l : list A) :
  Sorted Z.le (map key (insertion_sort comparefn l)).
Proof.
  induction l as [| x l IH]; cbn; [constructor |].
  apply sort_insert_Sorted. exact IH.
Qed.

End Sorting.

(** ** Multiple selection *)

Section Multiple.
Context {H : Host}.
Variable now : Z.

#[local] Arguments getDayjs : simpl never.

Lemma multiple_exists_pure (props : Props) (l : list DateType)
    (newDate : Dayjs) :
  multiple_exists now props l newDate
  = Ok (existsb (fun ed => sameDay now ed (Obj newDate) (calendar props)) l).
Proof.
  unfold multiple_exists. apply someM_pure.
  intros x. apply areDatesOnSameDay_returns.
Qed.

Lemma multiple_newDates_pure (props : Props) (l : list DateType)
    (newDate : Dayjs) (exists_ : bool) :
  multiple_newDates now props l newDate exists_
  = Ok (if exists_
        then filter (fun ed =>
                       negb (sameDay now ed (Obj newDate) (calendar props))) l
        else (l ++ [Obj newDate])%list).
Proof.
  unfold multiple_newDates. destruct exists_; [| reflexivity].
  apply filterM_pure. intros x.
  rewrite areDatesOnSameDay_returns. reflexivity.
Qed.

Lemma multiple_newDate_returns (props : Props) (selectedDate : DateType) :
  selectedDate <> Null ->
  exists newDate, multiple_newDate now props selectedDate = Ok newDate.
Proof.
  intros Hs. unfold multiple_newDate.
  destruct (getDayjs_returns now selectedDate (calendar props) Hs) as [d ->].
  rewrite bind_Ok. eauto.
Qed.

Lemma Array_sort_present (comparefn : DateType -> DateType -> Z)
    (l : list DateType) :
  Forall (fun e => absent e = false) l ->
  Array_sort comparefn l = insertion_sort comparefn l.
Proof.
  intros Hl. unfold Array_sort.
  assert (Hkeep : filter (fun x => negb (is_undefined x)) l = l).
  { induction Hl as [| e l He _ IH]; cbn; [reflexivity |].
    destruct e; cbn in *; try discriminate; rewrite IH; reflexivity. }
  assert (Hnone : filter is_undefined l = []).
  { clear Hkeep. induction Hl as [| e l He _ IH]; cbn; [reflexivity |].
    destruct e; cbn in *; try discriminate; exact IH. }
  rewrite Hkeep, Hnone. apply app_nil_r.
Qed.

(** C6, as the code has it: in multiple mode, for a list of dates and a
    pick normalized to the start of its day, either some entry falls on the
    day of the pick, and then every such entry is taken out and the change
    is ['removed'], or none does, and then the pick is appended and the
    change is ['added']; in both cases nothing is reported when a configured
    maximum is exceeded by the length of the resulting list, and otherwise
    the resulting list is reported sorted ascending by instant. *)
Theorem onSelectDate_multiple_toggle :
  forall (props : Props) (state : LocalState) (selectedDate : DateType),
    instants_kept H ->
    onChange props = true ->
    mode props = multiple ->
    selectedDate <> Null ->
    Forall (fun e => absent e = false) (safeDates state) ->
    exists newDate,
      multiple_newDate now props selectedDate = Ok newDate
      /\ let same :=
           fun ed => sameDay now ed (Obj newDate) (calendar props) in
         let exists_ := existsb same (safeDates state) in
         let newDates :=
           if exists_
           then filter (fun ed => negb (same ed)) (safeDates state)
           else (safeDates state ++ [Obj newDate])%list in
         let exceeded :=
           above_bound (max props) (Z.of_nat (List.length newDates)) in
         (exceeded = true ->
          onSelectDate now props state selectedDate = Ok [])
         /\ (exceeded = false ->
             exists reported,
               onSelectDate now props state selectedDate
               = Ok [OnChange
                       (MultiChange reported
                          (Some (toDate (dayjs now (Obj newDate))))
                          (if exists_ then removed else added))]
               /\ Sorted Z.le reported
               /\ Permutation reported
                    (map (fun e => toDate (dayjs now e)) newDates)).
Proof.
  intros props state selectedDate (Hclone & Hzone & Hafter) Hon Hmode Hsel
    Hpresent.
  destruct (multiple_newDate_returns props selectedDate Hsel)
    as [newDate HnewDate].
  exists newDate. split; [exact HnewDate |].
  intros same exists_ newDates exceeded.
  assert (Hstep :
    onSelectDate now props state selectedDate
    = if exceeded then Ok []
      else Ok [OnChange
                 (MultiChange
                    (map (fun e => toDate (dayjs now e))
                         (insertion_sort (multiple_comparefn now) newDates))
                    (Some (toDate (dayjs now (Obj newDate))))
                    (if exists_ then removed else added))]).
  { unfold onSelectDate. rewrite Hon, Hmode.
    unfold onSelectDate_multiple. cbv zeta.
    rewrite HnewDate, bind_Ok, multiple_exists_pure, bind_Ok.
    rewrite multiple_newDates_pure, bind_Ok.
    subst exceeded newDates exists_ same. cbv beta.
    match goal with
    | |- (if ?b then _ else _) = _ => destruct b; [reflexivity |]
    end.
    rewrite Array_sort_present.
    - rewrite map_map.
      rewrite (map_ext
                 (fun x => toDate (dayjs now
                                     (Obj (tz (dayjs now x) (timeZone props)))))
                 (fun e => toDate (dayjs now e))); [reflexivity |].
      intros e. unfold dayjs at 1. rewrite Hclone, Hzone. reflexivity.
    - destruct (existsb _ (safeDates state)).
      + apply Forall_forall. intros e He. apply filter_In in He.
        rewrite Forall_forall in Hpresent. apply Hpresent. apply He.
      + apply Forall_app. split; [exact Hpresent |].
        constructor; [reflexivity | constructor]. }
  split; intros Hex; rewrite Hex in Hstep; [exact Hstep |].
  eexists. split; [exact Hstep |]. split.
  - apply insertion_sort_Sorted. intros a b.
    unfold multiple_comparefn. rewrite Hafter.
    destruct (toDate (dayjs now b) <? toDate (dayjs now a)); reflexivity.
  - apply Permutation_map. apply insertion_sort_Permutation.
Qed.

(** C9: in multiple mode the maximum is checked against the list that
    results from the toggle, so a pick that falls on the day of an entry is
    not removed, and nothing is reported, when more than [max] dates would
    remain. *)
Theorem onSelectDate_multiple_max_blocks_removal :
  forall (props : Props) (state : LocalState) (selectedDate : DateType)
         (newDate : Dayjs) (v : Z),
    onChange props = true ->
    mode props = multiple ->
    multiple_newDate now props selectedDate = Ok newDate ->
    existsb (fun ed => sameDay now ed (Obj newDate) (calendar props))
            (safeDates state) = true ->
    max props = Some v ->
    v <> 0 ->
    v < Z.of_nat
          (List.length
             (filter (fun ed =>
                        negb (sameDay now ed (Obj newDate) (calendar props)))
                     (safeDates state))) ->
    onSelectDate now props state selectedDate = Ok [].
Proof.
  intros props state selectedDate newDate v Hon Hmode HnewDate Hex Hmax Hv
    Hlen.
  unfold onSelectDate. rewrite Hon, Hmode.
  unfold onSelectDate_multiple. cbv zeta.
  rewrite HnewDate, bind_Ok, multiple_exists_pure, bind_Ok, Hex.
  rewrite multiple_newDates_pure, bind_Ok, Hmax.
  unfold above_bound.
  destruct (v =? 0) eqn:Hv0; [apply Z.eqb_eq in Hv0; contradiction |].
  cbn [negb andb].
  match goal with
  | |- (if ?n >? v then _ else _) = _ =>
      destruct (n >? v) eqn:Hgt; [reflexivity |]
  end.
  rewrite Z.gtb_ltb in Hgt. apply Z.ltb_ge in Hgt. lia.
Qed.

End Multiple.

(** ** Year pages and weekday headers *)

(** X1. [getYearRange] returns the twelve consecutive years that start at
    the multiple of twelve at or below [year], and at 0 for a negative
    [year]; from year 0 on the page contains [year]. *)
Theorem getYearRange_page (year : Z) :
  getYearRange year
  = map (fun i => Z.max 0 (12 * (year / 12)) + i)
        [0; 1; 2; 3; 4; 5; 6; 7; 8; 9; 10; 11]
  /\ (0 <= year -> In year (getYearRange year)).
Proof.
  assert (Hpage : getYearRange year
                  = map (fun i => Z.max 0 (12 * (year / 12)) + i)
                        [0; 1; 2; 3; 4; 5; 6; 7; 8; 9; 10; 11]).
  { unfold getYearRange, YEAR_PAGE_SIZE, Math_ceil_div.
    change (map Z.of_nat (seq 0 (Z.to_nat 12)))
      with [0; 1; 2; 3; 4; 5; 6; 7; 8; 9; 10; 11].
    cbv zeta.
    match goal with
    | |- map (fun i => ?s + i) _ = _ =>
        assert (Hs : s = Z.max 0 (12 * (year / 12)))
    end.
    { destruct (12 * - (- year / 12) =? year) eqn:Hend;
        [apply Z.eqb_eq in Hend | apply Z.eqb_neq in Hend];
        match goal with
        | |- (if ?s <? 0 then _ else _) = _ =>
            destruct (s <? 0) eqn:Hneg;
              [apply Z.ltb_lt in Hneg | apply Z.ltb_ge in Hneg]
        end;
        Z.to_euclidean_division_equations; lia. }
    rewrite Hs. reflexivity. }
  split; [exact Hpage |].
  intros Hyear. rewrite Hpage.
  apply in_map_iff. exists (year mod 12). split.
  - Z.to_euclidean_division_equations; lia.
  - assert (Hm : 0 <= year mod 12 < 12) by (apply Z.mod_pos_bound; lia).
    cbn [In].
    assert (Hc : year mod 12 = 0 \/ year mod 12 = 1 \/ year mod 12 = 2
                 \/ year mod 12 = 3 \/ year mod 12 = 4 \/ year mod 12 = 5
                 \/ year mod 12 = 6 \/ year mod 12 = 7 \/ year mod 12 = 8
                 \/ year mod 12 = 9 \/ year mod 12 = 10 \/ year mod 12 = 11)
      by lia.
    intuition congruence.
Qed.

Lemma map_indexed_length {A B : Type} (f : A -> nat -> B) (l : list A)
    (index : nat) :
  List.length (map_indexed f l index) = List.length l.
Proof.
  revert index. induction l as [| x l IH]; intros index; cbn;
    [reflexivity | rewrite IH; reflexivity].
Qed.

Lemma map_indexed_nth_error {A B : Type} (f : A -> nat -> B) (l : list A)
    (index i : nat) :
  nth_error (map_indexed f l index) i
  = option_map (fun x => f x (index + i)%nat) (nth_error l i).
Proof.
  revert index i. induction l as [| x l IH]; intros index [| i]; cbn;
    try reflexivity.
  - rewrite Nat.add_0_r. reflexivity.
  - rewrite IH. rewrite Nat.add_succ_r. reflexivity.
Qed.

(** X2. For any [firstDayOfWeek], [getWeekdays] returns the weekdays of the
    locale, each once: a rearrangement of what it returns for 0. *)
Theorem getWeekdays_permutation
    (weekdayNames weekdayShortNames weekdayMinNames : list string)
    (firstDayOfWeek : Z) :
  Permutation
    (getWeekdays weekdayNames weekdayShortNames weekdayMinNames
       firstDayOfWeek)
    (getWeekdays weekdayNames weekdayShortNames weekdayMinNames 0).
Proof.
  unfold getWeekdays. cbv zeta. cbn [Z.gtb Z.compare].
  destruct (firstDayOfWeek >? 0); [| apply Permutation_refl].
  match goal with
  | |- Permutation (skipn ?k ?l ++ firstn ?k ?l)%list _ =>
      rewrite <- (firstn_skipn k l) at 3
  end.
  apply Permutation_app_comm.
Qed.

(** X3. With the seven weekday names of a locale and [firstDayOfWeek] from
    0 to 6, column [i] of the header holds weekday
    [(firstDayOfWeek + i) mod 7] with its own three names. *)
Theorem getWeekdays_rotation
    (weekdayNames weekdayShortNames weekdayMinNames : list string)
    (firstDayOfWeek : Z) (i : nat) :
  List.length weekdayNames = 7%nat ->
  0 <= firstDayOfWeek <= 6 ->
  (i < 7)%nat ->
  let index := Z.to_nat ((firstDayOfWeek + Z.of_nat i) mod 7) in
  nth_error
    (getWeekdays weekdayNames weekdayShortNames weekdayMinNames
       firstDayOfWeek) i
  = Some {| cw_index := (firstDayOfWeek + Z.of_nat i) mod 7;
            cw_name :=
              {| wn_full := nth index weekdayNames "";
                 wn_short := nth index weekdayShortNames "";
                 wn_min := nth index weekdayMinNames "" |} |}.
Proof.
  intros Hlen Hf Hi index.
  assert (Hindex : (index < 7)%nat).
  { subst index.
    assert (0 <= (firstDayOfWeek + Z.of_nat i) mod 7 < 7)
      by (apply Z.mod_pos_bound; lia).
    lia. }
  assert (Hcell : forall l k,
             nth_error
               (map_indexed
                  (fun name index =>
                     {| cw_index := Z.of_nat index;
                        cw_name :=
                          {| wn_full := name;
                             wn_short := name_at weekdayShortNames index;
                             wn_min := name_at weekdayMinNames index |} |})
                  weekdayNames 0) k = l ->
             k = index ->
             l = Some {| cw_index := (firstDayOfWeek + Z.of_nat i) mod 7;
                         cw_name :=
                           {| wn_full := nth index weekdayNames "";
                              wn_short := nth index weekdayShortNames "";
                              wn_min := nth index weekdayMinNames "" |} |}).
  { intros l k <- ->. rewrite map_indexed_nth_error.
    rewrite (nth_error_nth' weekdayNames "") by lia.
    cbn [option_map]. unfold name_at. rewrite Nat.add_0_l.
    subst index. rewrite Z2Nat.id by (apply Z.mod_pos_bound; lia).
    reflexivity. }
  unfold getWeekdays. cbv zeta.
  destruct (firstDayOfWeek >? 0) eqn:Hpos.
  - apply Z.gtb_lt in Hpos.
    destruct (Nat.lt_ge_cases i (7 - Z.to_nat firstDayOfWeek)) as [Hlt | Hge].
    + rewrite nth_error_app1
        by (rewrite length_skipn, map_indexed_length; lia).
      rewrite nth_error_skipn.
      eapply Hcell; [reflexivity |].
      subst index. rewrite Z.mod_small by lia. lia.
    + rewrite nth_error_app2
        by (rewrite length_skipn, map_indexed_length; lia).
      rewrite length_skipn, map_indexed_length, Hlen.
      rewrite nth_error_firstn.
      match goal with
      | |- (if ?b then _ else _) = _ => destruct b eqn:Hb
      end.
      * eapply Hcell; [reflexivity |].
        subst index.
        replace (firstDayOfWeek + Z.of_nat i)
          with (firstDayOfWeek + Z.of_nat i - 7 + 1 * 7) by lia.
        rewrite Z.mod_add by lia. rewrite Z.mod_small by lia. lia.
      * apply Nat.ltb_ge in Hb. lia.
  - rewrite Z.gtb_ltb in Hpos. apply Z.ltb_ge in Hpos.
    eapply Hcell; [reflexivity |].
    subst index. replace firstDayOfWeek with 0 by lia.
    rewrite Z.mod_small by lia. lia.
Qed.

(** ** Betweenness and the month and year bounds *)

Section Predicates.
Context {H : Host}.
Variable now : Z.

#[local] Arguments getDayjs : simpl never.

(** The chain of comparisons of [isHijriDateBetween] is the order of the
    triples. *)
Lemma ymd_le_chain (y m d y' m' d' : Z) :
  (if y >? y' then false
   else if y <? y' then true
   else if m >? m' then false
   else if m <? m' then true
   else d <=? d')
  = ymd_le (y, m, d) (y', m', d').
Proof.
  unfold ymd_le. rewrite !Z.gtb_ltb.
  destruct (Z.ltb_spec y' y), (Z.ltb_spec y y'), (Z.eqb_spec y y');
    try lia; cbn [orb andb]; try reflexivity.
  destruct (Z.ltb_spec m' m), (Z.ltb_spec m m'), (Z.eqb_spec m m');
    try lia; cbn [orb andb]; reflexivity.
Qed.

(** X4. With dayjs objects as bounds, [isHijriDateBetween] places the
    converted date between them by year, then month, then day of the month,
    both ends included; hours and minutes play no part. *)
Theorem isHijriDateBetween_lexicographic (date : DateType)
    (current start end_ : Dayjs) :
  getDayjs now date (Some islamic) = Ok current ->
  isHijriDateBetween now date (Obj start) (Obj end_)
  = Ok (ymd_le (ymd start) (ymd current) && ymd_le (ymd current) (ymd end_)).
Proof.
  intros Hcur. unfold isHijriDateBetween.
  rewrite Hcur, bind_Ok. cbv zeta. cbn [as_Dayjs].
  rewrite !bind_Ok, !ymd_le_chain. fold (ymd start) (ymd current) (ymd end_).
  destruct (ymd_le (ymd start) (ymd current)); reflexivity.
Qed.

(** X5. Under the islamic calendar [isDateBetween] answers by
    [isHijriDateBetween] alone, whatever the comparison of the instants
    gave; and a start bound that is set but is no dayjs object (a native
    [Date], a string, a number) makes it throw a [TypeError]. *)
Theorem isDateBetween_islamic (StringToNumber : string -> option Q)
    (date startDate endDate : DateType) :
  truthy startDate = true ->
  truthy endDate = true ->
  isDateBetween now StringToNumber date startDate endDate (Some islamic)
  = isHijriDateBetween now date startDate endDate
  /\ ((forall o, startDate <> Obj o) ->
      isDateBetween now StringToNumber date startDate endDate (Some islamic)
      = Throw TypeError).
Proof.
  intros Hs He.
  assert (Heq : isDateBetween now StringToNumber date startDate endDate
                  (Some islamic)
                = isHijriDateBetween now date startDate endDate).
  { unfold isDateBetween. rewrite Hs, He. cbn [negb orb is_islamic].
    unfold isHijriDateBetween.
    destruct (getDayjs now date (Some islamic)) as [d | e];
      [| reflexivity].
    rewrite !bind_Ok.
    destruct (js_le StringToNumber (Obj d) endDate); rewrite !bind_Ok;
      reflexivity. }
  split; [exact Heq |].
  intros Hobj. rewrite Heq. unfold isHijriDateBetween.
  destruct (getDayjs now date (Some islamic)) as [d | e] eqn:Hd.
  - rewrite bind_Ok. cbv zeta.
    destruct startDate; try reflexivity.
    exfalso. eapply Hobj. reflexivity.
  - unfold getDayjs in Hd. cbn [is_islamic] in Hd.
    destruct date as [| | n | s | t | o]; cbn in Hd;
      try discriminate; try (injection Hd as <-; reflexivity).
    destruct (is_islamic (d_C o)); cbn in Hd; discriminate.
Qed.

Lemma Qle_bool_inject_Z (a b : Z) :
  Qle_bool (inject_Z a) (inject_Z b) = (a <=? b).
Proof.
  unfold Qle_bool, inject_Z. cbn [Qnum Qden].
  rewrite !Z.mul_1_r. reflexivity.
Qed.

(** X6. Under the other calendars, with dayjs objects as bounds,
    [isDateBetween] holds exactly when the instant of the date lies between
    the instants of the bounds, both included. *)
Theorem isDateBetween_instants (StringToNumber : string -> option Q)
    (date : DateType) (start end_ : Dayjs) (cal : option CalendarType) :
  is_islamic cal = false ->
  isDateBetween now StringToNumber date (Obj start) (Obj end_) cal
  = Ok ((toDate start <=? toDate (dayjs now date))
        && (toDate (dayjs now date) <=? toDate end_)).
Proof.
  intros Hcal. unfold isDateBetween. cbn [truthy negb orb].
  rewrite getDayjs_other, !bind_Ok, Hcal by exact Hcal.
  unfold js_le. cbn [ToNumber]. rewrite !Qle_bool_inject_Z.
  destruct (toDate (dayjs now date) <=? toDate end_);
    rewrite !bind_Ok; [| rewrite andb_false_r; reflexivity].
  rewrite andb_true_r. reflexivity.
Qed.

(** X7. With both bounds set, the years [isYearDisabled] leaves enabled are
    exactly those from the year of [minDate] to the year of [maxDate]. *)
Theorem isYearDisabled_interval (year_ : Z) (minDate maxDate : DateType)
    (cal : option CalendarType) (minYear maxYear : Z) :
  truthy minDate = true ->
  truthy maxDate = true ->
  getDateYear now minDate cal = Ok minYear ->
  getDateYear now maxDate cal = Ok maxYear ->
  isYearDisabled now year_ minDate maxDate cal
  = Ok (negb ((minYear <=? year_) && (year_ <=? maxYear))).
Proof.
  intros Hmin Hmax Hy Hy'. unfold isYearDisabled.
  rewrite Hmin, Hmax, Hy, Hy', !bind_Ok. rewrite Z.gtb_ltb.
  destruct (Z.ltb_spec year_ minYear), (Z.leb_spec minYear year_);
    try lia; [reflexivity |].
  rewrite ?bind_Ok. cbv iota.
  destruct (Z.ltb_spec maxYear year_), (Z.leb_spec year_ maxYear);
    try lia; reflexivity.
Qed.

(** X8. [isMonthDisabled] looks at the months of one year only: when the
    year of [date] is neither the year of [minDate] nor the year of
    [maxDate], no month is disabled, also in a year that lies wholly before
    [minDate] or after [maxDate]. *)
Theorem isMonthDisabled_other_years (month_ : Z)
    (date minDate maxDate : DateType) (cal : option CalendarType)
    (y : Z) :
  getDateYear now date cal = Ok y ->
  (forall y', getDateYear now minDate cal = Ok y' -> y' <> y) ->
  (forall y', getDateYear now maxDate cal = Ok y' -> y' <> y) ->
  isMonthDisabled now month_ date minDate maxDate cal = Ok false.
Proof.
  intros Hy Hmin Hmax. unfold isMonthDisabled.
  assert (Hbound : forall bound (test : Z -> bool),
             (forall y', getDateYear now bound cal = Ok y' -> y' <> y) ->
             (if truthy bound
              then m <- getDateMonth now bound cal ;;
                   if test m
                   then y0 <- getDateYear now date cal ;;
                        y' <- getDateYear now bound cal ;;
                        Ok (y0 =? y')
                   else Ok false
              else Ok false) = Ok false).
  { intros bound test Hb.
    destruct (truthy bound) eqn:Ht; [| reflexivity].
    unfold getDateMonth, getDateYear in *.
    destruct (getDayjs_returns now bound cal (truthy_not_Null _ Ht))
      as [d Hd].
    rewrite Hd, !bind_Ok in *.
    destruct (test (month d)); [| reflexivity].
    rewrite Hy, !bind_Ok.
    destruct (Z.eqb_spec y (year d)) as [Heq | Hne]; [| reflexivity].
    exfalso. apply (Hb (year d)); [reflexivity | congruence]. }
  rewrite (Hbound minDate (fun m => month_ <? m) Hmin), bind_Ok.
  rewrite (Hbound maxDate (fun m => month_ >? m) Hmax), bind_Ok.
  reflexivity.
Qed.

(** X9. Outside the islamic calendar [getFirstDayOfMonth] and the
    [prevMonthOffset] of [getDaysInMonth] are the same number. *)
Theorem getFirstDayOfMonth_is_prevMonthOffset (date : DateType)
    (showOutsideDays : bool) (firstDayOfWeek : Z)
    (cal : option CalendarType) :
  calendar_ranges H ->
  is_islamic cal = false ->
  exists r,
    getDaysInMonth now date showOutsideDays firstDayOfWeek cal = Ok r
    /\ getFirstDayOfMonth now date firstDayOfWeek cal
       = Ok (prevMonthOffset r).
Proof.
  intros (Hday & _ & _) Hcal.
  unfold getDaysInMonth, getFirstDayOfMonth, getDate.
  rewrite getDayjs_other, !bind_Ok, Hcal by exact Hcal.
  remember (1 - firstDayOfWeek) as v eqn:Hv.
  eexists. split; [reflexivity |]. cbn [prevMonthOffset].
  specialize (Hday (dayjs now date) v).
  rewrite Z.rem_small by lia. reflexivity.
Qed.

(** X10. Under the islamic calendar the month lengths [getDaysInMonth]
    reports, for the month and for the month before it, are 29 or 30 on
    every host. *)
Theorem getDaysInMonth_islamic_lengths (date : DateType)
    (showOutsideDays : bool) (firstDayOfWeek : Z) :
  date <> Null ->
  exists r,
    getDaysInMonth now date showOutsideDays firstDayOfWeek (Some islamic)
    = Ok r
    /\ (daysInCurrentMonth r = 29 \/ daysInCurrentMonth r = 30)
    /\ (prevMonthDays r = 29 \/ prevMonthDays r = 30).
Proof.
  intros Hdate. unfold getDaysInMonth.
  destruct (getDayjs_returns now date (Some islamic) Hdate) as [d ->].
  rewrite bind_Ok. cbv zeta. cbn [is_islamic].
  remember (1 - firstDayOfWeek) as v eqn:Hv.
  eexists. split; [reflexivity |].
  cbn [daysInCurrentMonth prevMonthDays]. unfold getDaysInHijriMonth.
  split; match goal with
         | |- context [if ?b then _ else _] => destruct b
         end; auto.
Qed.

(** X11. A date before the start of the day of [minDate] is disabled without
    [maxDate], [enabledDates] or [disabledDates] being consulted: a
    predicate that would throw is never called. *)
Theorem isDateDisabled_below_minDate (date : Dayjs)
    (minDate maxDate : DateType)
    (enabledDates disabledDates : option DateRule)
    (cal : option CalendarType) :
  is_islamic cal = false ->
  truthy minDate = true ->
  isBefore date (startOf (dayjs now minDate) u_day) = true ->
  isDateDisabled now date minDate maxDate enabledDates disabledDates cal
  = Ok true.
Proof.
  intros Hcal Hmin Hbefore. unfold isDateDisabled. cbv zeta.
  rewrite Hmin, getDayjs_other, bind_Ok, Hbefore
    by (destruct cal as [[| |] |]; cbn in *; congruence).
  reflexivity.
Qed.

(** X12. [areDatesOnSameDay] does not depend on the order of its arguments,
    and a set date is on the same day as itself. *)
Theorem areDatesOnSameDay_symmetric (a b : DateType)
    (cal : option CalendarType) :
  areDatesOnSameDay now a b cal = areDatesOnSameDay now b a cal
  /\ (truthy a = true -> areDatesOnSameDay now a a cal = Ok true).
Proof.
  split.
  - unfold areDatesOnSameDay.
    destruct (truthy a) eqn:Ha, (truthy b) eqn:Hb; try reflexivity.
    cbn [negb orb].
    destruct (getDayjs_returns now a cal (truthy_not_Null a Ha)) as [x ->].
    destruct (getDayjs_returns now b cal (truthy_not_Null b Hb)) as [y ->].
    rewrite !bind_Ok. rewrite String.eqb_sym. reflexivity.
  - intros Ha. unfold areDatesOnSameDay. rewrite Ha. cbn [negb orb].
    destruct (getDayjs_returns now a cal (truthy_not_Null a Ha)) as [x ->].
    rewrite !bind_Ok, String.eqb_refl. reflexivity.
Qed.

End Predicates.

(** ** Times and numerals *)

Section Times.
Context {H : Host}.
Variable now : Z.

(** X13. Under the islamic calendar [addTime] cannot set midnight: an hour
    of 0 leaves the hour as it was and a minute of 0 leaves the minute as
    it was, where the other calendars put both to 0 when asked for 0:00. *)
Theorem addTime_islamic_zero (set_hour set_minute : Dayjs -> Z -> Dayjs)
    (date : Dayjs) (hour minute : option Z) (cal : option CalendarType) :
  d_H (addTime set_hour set_minute date (Some islamic) (Some 0) minute)
  = d_H date
  /\ d_m (addTime set_hour set_minute date (Some islamic) hour (Some 0))
     = d_m date
  /\ (is_islamic cal = false ->
      addTime set_hour set_minute date cal (Some 0) (Some 0)
      = set_minute (set_hour date 0) 0).
Proof.
  split; [| split].
  - unfold addTime. cbn [is_islamic set_number Z.eqb negb].
    destruct (set_number minute); reflexivity.
  - unfold addTime. cbn [is_islamic set_number Z.eqb negb].
    destruct (set_number hour); reflexivity.
  - intros Hcal. unfold addTime. rewrite Hcal. reflexivity.
Qed.

(** X14. Under the islamic calendar [removeTime] undoes [addTime]: the
    time written by [addTime] is the only thing it changes. *)
Theorem removeTime_addTime_islamic
    (set_hour set_minute : Dayjs -> Z -> Dayjs) (date : Dayjs)
    (hour minute : option Z) (timeZone : option TimeZone) :
  removeTime now
    (Obj (addTime set_hour set_minute date (Some islamic) hour minute))
    timeZone (Some islamic)
  = removeTime now (Obj date) timeZone (Some islamic).
Proof.
  unfold removeTime, addTime. cbn [truthy negb is_islamic].
  destruct (set_number hour), (set_number minute); reflexivity.
Qed.

Lemma toString_digit (i : Z) :
  0 <= i <= 9 ->
  toString i = String (ascii_of_nat (Z.to_nat (i + 48))) "".
Proof.
  intros Hi.
  assert (Hc : i = 0 \/ i = 1 \/ i = 2 \/ i = 3 \/ i = 4 \/ i = 5 \/ i = 6
               \/ i = 7 \/ i = 8 \/ i = 9) by lia.
  repeat (destruct Hc as [-> | Hc]; [reflexivity |]).
  subst i. reflexivity.
Qed.

Lemma digit_of_Some (c : ascii) (i : Z) :
  digit_of c = Some i ->
  0 <= i <= 9 /\ c = ascii_of_nat (Z.to_nat (i + 48)).
Proof.
  unfold digit_of. cbv zeta.
  destruct (Z.leb_spec 48 (Z.of_nat (nat_of_ascii c)));
    destruct (Z.leb_spec (Z.of_nat (nat_of_ascii c)) 57);
    cbn [andb]; try discriminate.
  intros [= <-]. split; [lia |].
  replace (Z.of_nat (nat_of_ascii c) - 48 + 48)
    with (Z.of_nat (nat_of_ascii c)) by lia.
  rewrite Nat2Z.id, ascii_nat_embedding. reflexivity.
Qed.

(** X15. Where the table of the numeral system holds the ten ASCII digits,
    [replaceDigits] returns its input and [formatNumber] is
    [value.toString()]. *)
Theorem formatNumber_ascii_digits (numerals : Numerals) :
  (forall i, 0 <= i <= 9 -> numeralSystems numerals i = Some (toString i)) ->
  (forall input, replaceDigits input numerals = input)
  /\ (forall value, formatNumber value numerals = toString value).
Proof.
  intros Htable.
  assert (Hid : forall input, replaceDigits input numerals = input).
  { induction input as [| c rest IH]; [reflexivity |].
    cbn [replaceDigits]. rewrite IH. unfold getDigitMap.
    destruct (digit_of c) as [i |] eqn:Hc; [| reflexivity].
    destruct (digit_of_Some c i Hc) as (Hi & Hchar).
    rewrite (Htable i Hi), (toString_digit i Hi), <- Hchar.
    reflexivity. }
  split; [exact Hid |].
  intros value. unfold formatNumber. apply Hid.
Qed.

End Times.

(** ** The reducer and the first day of the week *)

(** X16. Every action of the reducer is idempotent: dispatched twice in a
    row it leaves the state it left the first time. *)
Theorem reducer_idempotent (prevState : PickerState)
    (action : CalendarAction) :
  reducer (reducer prevState action) action = reducer prevState action.
Proof. destruct action; reflexivity. Qed.

(** X17. The first day of the week handed to the grid is from 0 to 6
    whatever the [firstDayOfWeek] prop holds, and is the prop itself when
    that is from 0 to 6. *)
Theorem firstDay_range (firstDayOfWeek : option Z) :
  0 <= firstDay firstDayOfWeek <= 6
  /\ (forall v, firstDayOfWeek = Some v -> 0 <= v <= 6 ->
                firstDay firstDayOfWeek = v).
Proof.
  unfold firstDay. destruct firstDayOfWeek as [v |]; [| split; [lia |]].
  - rewrite Z.gtb_ltb.
    destruct (Z.eqb_spec v 0), (Z.ltb_spec 0 v), (Z.leb_spec v 6);
      cbn [negb andb]; (split; [lia |]); intros w [= <-] Hw; lia.
  - intros v [=].
Qed.

(** ** The month grid, cell by cell *)

Section GridCells.
Context {H : Host}.
Variable now : Z.

#[local] Arguments adjustDayjsHijriDate : simpl never.
#[local] Arguments getDayjs : simpl never.
#[local] Arguments isDateDisabled : simpl never.
#[local] Arguments generateCalendarDay : simpl never.

Lemma generateCalendarDay_fields (n : Z) (date : Dayjs)
    (minDate maxDate : DateType)
    (enabledDates disabledDates : option DateRule) (flag : bool)
    (position firstDayOfWeek : Z) (numerals : Numerals)
    (calendar : option CalendarType) :
  rule_returns enabledDates ->
  (enabledDates = None -> rule_returns disabledDates) ->
  exists c,
    generateCalendarDay now n date minDate maxDate enabledDates
      disabledDates flag position firstDayOfWeek numerals calendar = Ok c
    /\ cd_date c = date
    /\ cell_fields c n flag position firstDayOfWeek numerals.
Proof.
  intros He Hd. unfold generateCalendarDay, cell_fields.
  destruct (getDayjs_Obj_returns now date calendar) as [d ->].
  rewrite bind_Ok.
  destruct (isDateDisabled_returns now date minDate maxDate enabledDates
              disabledDates He Hd) as [b Hb].
  destruct (is_islamic calendar).
  - unfold getStartOfHijriWeek.
    match goal with
    | |- context [adjustDayjsHijriDate now (Obj date) ?u] =>
        destruct (adjustDayjsHijriDate_Obj_returns now date u) as [w ->]
    end.
    rewrite bind_Ok, Hb, bind_Ok. eexists. split; [reflexivity |].
    cbn [cd_date number isCurrentMonth dayOfMonth text isEndOfWeek].
    auto 10.
  - rewrite bind_Ok, Hb, bind_Ok. eexists. split; [reflexivity |].
    cbn [cd_date number isCurrentMonth dayOfMonth text isEndOfWeek].
    auto 10.
Qed.

Lemma cell_with_fields (islamicDay : result Dayjs) (thisDay : Dayjs) (n : Z)
    (minDate maxDate : DateType)
    (enabledDates disabledDates : option DateRule) (flag : bool)
    (position firstDayOfWeek : Z) (numerals : Numerals)
    (calendar : option CalendarType) :
  rule_returns enabledDates ->
  (enabledDates = None -> rule_returns disabledDates) ->
  (exists t, islamicDay = Ok t) ->
  exists cell,
    (thisDay <- (if is_islamic calendar then islamicDay else Ok thisDay) ;;
     c <- generateCalendarDay now n thisDay minDate maxDate enabledDates
            disabledDates flag position firstDayOfWeek numerals calendar ;;
     Ok (Some c)) = Ok cell
    /\ exists c, cell = Some c
                 /\ cell_fields c n flag position firstDayOfWeek numerals
                 /\ (is_islamic calendar = false -> cd_date c = thisDay).
Proof.
  intros He Hd (t & ->).
  destruct (is_islamic calendar); rewrite bind_Ok;
    match goal with
    | |- context [generateCalendarDay now ?n ?t ?a ?b ?c ?d ?e ?f ?g ?h ?i] =>
        destruct (generateCalendarDay_fields n t a b c d e f g h i He Hd)
          as (cell & -> & Hdate & Hfields)
    end;
    rewrite bind_Ok;
    (exists (Some cell); split; [reflexivity |];
     exists cell; split; [reflexivity |]; split; [exact Hfields |]);
    [discriminate | intros _; exact Hdate].
Qed.

Lemma Forall2_Some {A B : Type} (Q : A -> B -> Prop) (l : list A)
    (r : list (option B)) :
  Forall2 (fun x cell => exists c, cell = Some c /\ Q x c) l r ->
  exists cells, r = map Some cells /\ Forall2 Q l cells.
Proof.
  induction 1 as [| x cell l r (c & -> & HQ) _ (cells & -> & HF)].
  - exists []. split; [reflexivity | constructor].
  - exists (c :: cells). split; [reflexivity | constructor; assumption].
Qed.

Lemma Forall2_map_eq {A B C : Type} (g : B -> C) (h : A -> C) (l : list A)
    (cells : list B) :
  Forall2 (fun x c => g c = h x) l cells -> map g cells = map h l.
Proof. induction 1; cbn; congruence. Qed.

Lemma Forall2_weaken {A B : Type} (P Q : A -> B -> Prop) (l : list A)
    (cells : list B) :
  (forall x c, In x l -> P x c -> Q x c) ->
  Forall2 P l cells -> Forall2 Q l cells.
Proof.
  intros HPQ HF. induction HF as [| x c l cells HP _ IH]; constructor.
  - apply HPQ; [left; reflexivity | exact HP].
  - apply IH. intros y d Hy. apply HPQ. right. exact Hy.
Qed.

Lemma Forall2_Forall_r {A B : Type} (P : A -> B -> Prop) (Q : B -> Prop)
    (l : list A) (cells : list B) :
  (forall x c, In x l -> P x c -> Q c) ->
  Forall2 P l cells -> Forall Q cells.
Proof.
  intros HPQ HF. induction HF as [| x c l cells HP _ IH]; constructor.
  - apply (HPQ x); [left; reflexivity | exact HP].
  - apply IH. intros y d Hy. apply HPQ. right. exact Hy.
Qed.

Lemma In_indices (n index : Z) :
  In index (map Z.of_nat (seq 0 (Z.to_nat n))) -> 0 <= index < n.
Proof.
  intros Hin. apply in_map_iff in Hin. destruct Hin as (k & <- & Hk).
  apply in_seq in Hk. lia.
Qed.

(** The three rows of [getMonthDays] with outside days shown, each cell
    with what was written into it. *)
Lemma getMonthDays_rows_fields (datetime : DateType) (date : Dayjs)
    (minDate maxDate : DateType) (firstDayOfWeek : Z)
    (enabledDates disabledDates : option DateRule)
    (prevDaysCount offset current next : Z) (numerals : Numerals)
    (calendar : option CalendarType) :
  getDayjs now datetime calendar = Ok date ->
  rule_returns enabledDates ->
  (enabledDates = None -> rule_returns disabledDates) ->
  exists prevCells currentCells nextCells,
    getMonthDays now datetime true minDate maxDate firstDayOfWeek
      enabledDates disabledDates prevDaysCount offset current next
      numerals calendar
    = Ok (map Some prevCells ++ map Some currentCells
          ++ map Some nextCells)%list
    /\ Forall2 (fun index c =>
                  cell_fields c (index + (prevDaysCount - offset + 1)) false
                    (index + 1) firstDayOfWeek numerals)
         (map Z.of_nat (seq 0 (Z.to_nat offset))) prevCells
    /\ Forall2 (fun index c =>
                  cell_fields c (index + 1) true (offset + (index + 1))
                    firstDayOfWeek numerals
                  /\ (is_islamic calendar = false ->
                      cd_date c = set_date date (index + 1)))
         (map Z.of_nat (seq 0 (Z.to_nat current))) currentCells
    /\ Forall2 (fun index c =>
                  cell_fields c (index + 1) false
                    (current + offset + (index + 1)) firstDayOfWeek numerals)
         (map Z.of_nat (seq 0 (Z.to_nat next))) nextCells.
Proof.
  intros Hdate He Hd. unfold getMonthDays.
  rewrite Hdate, bind_Ok. unfold Array_from.
  match goal with
  | |- exists _ _ _, bind (mapM ?f ?l) _ = _ /\ _ =>
      destruct (mapM_Forall2 f
                  (fun index cell =>
                     exists c, cell = Some c
                               /\ cell_fields c
                                    (index + (prevDaysCount - offset + 1))
                                    false (index + 1) firstDayOfWeek
                                    numerals) l)
        as (prv & Hprv & HFprv)
  end.
  { intros index _. cbv beta zeta.
    match goal with
    | |- context [if is_islamic calendar then ?i else Ok ?t] =>
        destruct (cell_with_fields i t
                    (index + (prevDaysCount - offset + 1)) minDate maxDate
                    enabledDates disabledDates false (index + 1)
                    firstDayOfWeek numerals calendar He Hd)
          as (cell & Hcell & c & -> & Hfields & _)
    end.
    { unfold getPrevHijriDate. apply adjustDayjsHijriDate_Obj_returns. }
    exists (Some c). split; [exact Hcell |]. exists c. auto. }
  rewrite Hprv, bind_Ok.
  destruct (Forall2_Some _ _ _ HFprv) as (prevCells & -> & HFprev).
  match goal with
  | |- exists _ _ _, bind (mapM ?f ?l) _ = _ /\ _ =>
      destruct (mapM_Forall2 f
                  (fun index cell =>
                     exists c, cell = Some c
                               /\ cell_fields c (index + 1) true
                                    (offset + (index + 1)) firstDayOfWeek
                                    numerals
                               /\ (is_islamic calendar = false ->
                                   cd_date c = set_date date (index + 1))) l)
        as (cur & Hcur & HFcur)
  end.
  { intros index _. cbv beta zeta.
    match goal with
    | |- context [if is_islamic calendar then ?i else Ok ?t] =>
        destruct (cell_with_fields i t (index + 1) minDate maxDate
                    enabledDates disabledDates true (offset + (index + 1))
                    firstDayOfWeek numerals calendar He Hd)
          as (cell & Hcell & c & -> & Hfields & Hday)
    end.
    { apply adjustDayjsHijriDate_Obj_returns. }
    exists (Some c). split; [exact Hcell |]. exists c. auto. }
  rewrite Hcur, bind_Ok.
  destruct (Forall2_Some _ _ _ HFcur) as (currentCells & -> & HFcurrent).
  match goal with
  | |- exists _ _ _, bind (mapM ?f ?l) _ = _ /\ _ =>
      destruct (mapM_Forall2 f
                  (fun index cell =>
                     exists c, cell = Some c
                               /\ cell_fields c (index + 1) false
                                    (current + offset + (index + 1))
                                    firstDayOfWeek numerals) l)
        as (nxt & Hnxt & HFnxt)
  end.
  { intros index _. cbv beta zeta.
    match goal with
    | |- context [if is_islamic calendar then ?i else Ok ?t] =>
        destruct (cell_with_fields i t (index + 1) minDate maxDate
                    enabledDates disabledDates false
                    (current + offset + (index + 1))
                    firstDayOfWeek numerals calendar He Hd)
          as (cell & Hcell & c & -> & Hfields & _)
    end.
    { unfold getNextHijriDate. apply adjustDayjsHijriDate_Obj_returns. }
    exists (Some c). split; [exact Hcell |]. exists c. auto. }
  rewrite Hnxt, bind_Ok.
  destruct (Forall2_Some _ _ _ HFnxt) as (nextCells & -> & HFnext).
  exists prevCells, currentCells, nextCells.
  split; [reflexivity |]. auto.
Qed.

End GridCells.

Lemma seq_from (a b : nat) : seq a b = map (Nat.add a) (seq 0 b).
Proof.
  revert a. induction b as [| b IH]; intros a; [reflexivity |].
  cbn [seq map]. rewrite Nat.add_0_r. f_equal.
  rewrite (IH (S a)), <- seq_shift, map_map.
  apply map_ext. intros i. lia.
Qed.

Lemma Forall2_length_r {A B : Type} (P : A -> B -> Prop) (l : list A)
    (r : list B) :
  Forall2 P l r -> List.length r = List.length l.
Proof. induction 1; cbn; congruence. Qed.

Lemma Forall2_indices_map {B C : Type} (g : B -> C) (h : Z -> C) (n : nat)
    (cells : list B) :
  Forall2 (fun index c => g c = h index) (map Z.of_nat (seq 0 n)) cells ->
  map g cells = map (fun i => h (Z.of_nat i)) (seq 0 n).
Proof.
  intros HF. rewrite (Forall2_map_eq g h _ _ HF), map_map. reflexivity.
Qed.

(** X18. With outside days shown and counts that are not negative, every
    cell of the grid [getMonthDays] returns is a real one, [dayOfMonth] is
    its position in the grid counted from 1, its text is its number in the
    numeral system, and it is marked as of the current month exactly at the
    positions after the offset that the month fills. *)
Theorem getMonthDays_positions :
  forall (H : Host) (now : Z) (datetime minDate maxDate : DateType)
         (firstDayOfWeek : Z) (enabledDates disabledDates : option DateRule)
         (prevDaysCount offset current next : Z) (numerals : Numerals)
         (cal : option CalendarType),
    datetime <> Null ->
    rule_returns enabledDates ->
    (enabledDates = None -> rule_returns disabledDates) ->
    0 <= offset -> 0 <= current -> 0 <= next ->
    exists cells,
      getMonthDays now datetime true minDate maxDate firstDayOfWeek
        enabledDates disabledDates prevDaysCount offset current next
        numerals cal
      = Ok (map Some cells)
      /\ List.length cells = Z.to_nat (offset + current + next)
      /\ map dayOfMonth cells
         = map (fun i => Z.of_nat i + 1) (seq 0 (List.length cells))
      /\ Forall (fun c =>
                   isCurrentMonth c
                   = (offset <? dayOfMonth c)
                     && (dayOfMonth c <=? offset + current)) cells
      /\ Forall (fun c => text c = formatNumber (number c) numerals) cells.
Proof.
  intros H now datetime minDate maxDate firstDayOfWeek enabledDates
    disabledDates prevDaysCount offset current next numerals cal
    Hdt He Hd Hoff Hcur Hnext.
  destruct (getDayjs_returns now datetime cal Hdt) as [date Hdate].
  destruct (getMonthDays_rows_fields now datetime date minDate maxDate
              firstDayOfWeek enabledDates disabledDates prevDaysCount
              offset current next numerals cal Hdate He Hd)
    as (prv & cur & nxt & Hrun & HFp & HFc & HFn).
  exists (prv ++ cur ++ nxt)%list.
  pose proof (Forall2_length_r _ _ _ HFp) as Hlp.
  pose proof (Forall2_length_r _ _ _ HFc) as Hlc.
  pose proof (Forall2_length_r _ _ _ HFn) as Hln.
  rewrite length_map, length_seq in Hlp, Hlc, Hln.
  split; [rewrite !map_app; exact Hrun |].
  split; [rewrite !length_app; lia |].
  split; [| split].
  - rewrite !length_app, Hlp, Hlc, Hln, !seq_app, !map_app.
    cbn [Nat.add].
    rewrite (seq_from (Z.to_nat offset)),
      (seq_from (Z.to_nat offset + Z.to_nat current)), !map_map.
    f_equal; [| f_equal].
    + rewrite (Forall2_indices_map dayOfMonth (fun index => index + 1)
                 (Z.to_nat offset) prv); [reflexivity |].
      eapply Forall2_weaken; [| exact HFp].
      intros index c _ (_ & _ & Hpos & _). exact Hpos.
    + rewrite (Forall2_indices_map dayOfMonth
                 (fun index => offset + (index + 1))
                 (Z.to_nat current) cur).
      * apply map_ext. intros i. lia.
      * eapply Forall2_weaken; [| exact HFc].
        intros index c _ ((_ & _ & Hpos & _) & _). exact Hpos.
    + rewrite (Forall2_indices_map dayOfMonth
                 (fun index => current + offset + (index + 1))
                 (Z.to_nat next) nxt).
      * apply map_ext. intros i. lia.
      * eapply Forall2_weaken; [| exact HFn].
        intros index c _ (_ & _ & Hpos & _). exact Hpos.
  - rewrite !Forall_app. split; [| split].
    + eapply Forall2_Forall_r; [| exact HFp].
      intros index c Hin (_ & Hflag & Hpos & _).
      apply In_indices in Hin. rewrite Hflag, Hpos.
      destruct (Z.ltb_spec offset (index + 1)); [lia | reflexivity].
    + eapply Forall2_Forall_r; [| exact HFc].
      intros index c Hin ((_ & Hflag & Hpos & _) & _).
      apply In_indices in Hin. rewrite Hflag, Hpos.
      destruct (Z.ltb_spec offset (offset + (index + 1))); [| lia].
      destruct (Z.leb_spec (offset + (index + 1)) (offset + current));
        [reflexivity | lia].
    + eapply Forall2_Forall_r; [| exact HFn].
      intros index c Hin (_ & Hflag & Hpos & _).
      apply In_indices in Hin. rewrite Hflag, Hpos.
      destruct (Z.leb_spec (current + offset + (index + 1))
                  (offset + current)); [lia |].
      rewrite andb_false_r. reflexivity.
  - rewrite !Forall_app. split; [| split].
    + eapply Forall2_Forall_r; [| exact HFp].
      intros index c _ (Hn & _ & _ & Htext & _). rewrite Hn. exact Htext.
    + eapply Forall2_Forall_r; [| exact HFc].
      intros index c _ ((Hn & _ & _ & Htext & _) & _).
      rewrite Hn. exact Htext.
    + eapply Forall2_Forall_r; [| exact HFn].
      intros index c _ (Hn & _ & _ & Htext & _). rewrite Hn. exact Htext.
Qed.



(** ** The remaining picks in range mode *)

Lemma num_eq_reflect (a b : Q) : reflect (a == b)%Q (num_eq a b).
Proof.
  unfold num_eq. destruct (Qeq_bool a b) eqn:Hab; constructor.
  - apply Qeq_bool_iff. exact Hab.
  - intros Heq. apply Qeq_bool_iff in Heq. congruence.
Qed.

Lemma num_ge_reflect (a b : Q) : reflect (b <= a)%Q (num_ge a b).
Proof.
  unfold num_ge. destruct (Qle_bool b a) eqn:Hab; constructor.
  - apply Qle_bool_iff. exact Hab.
  - intros Hle. apply Qle_bool_iff in Hle. congruence.
Qed.

Lemma num_gt_reflect (a b : Q) : reflect (b < a)%Q (num_gt a b).
Proof.
  unfold num_gt. destruct (Qle_bool a b) eqn:Hab; constructor.
  - apply Qle_bool_iff in Hab. lra.
  - apply Qnot_le_lt. intros Hle. apply Qle_bool_iff in Hle. congruence.
Qed.

Lemma num_lt_reflect (a b : Q) : reflect (a < b)%Q (num_lt a b).
Proof.
  unfold num_lt. destruct (Qle_bool b a) eqn:Hab; constructor.
  - apply Qle_bool_iff in Hab. lra.
  - apply Qnot_le_lt. intros Hle. apply Qle_bool_iff in Hle. congruence.
Qed.

(** Decide every comparison of seconds in sight and drop the cases the
    order of the rationals rules out. *)
Ltac compare_seconds :=
  repeat match goal with
         | H : context [num_eq ?a ?b] |- _ =>
             destruct (num_eq_reflect a b); try discriminate H
         | H : context [num_ge ?a ?b] |- _ =>
             destruct (num_ge_reflect a b); try discriminate H
         | H : context [num_gt ?a ?b] |- _ =>
             destruct (num_gt_reflect a b); try discriminate H
         | H : context [num_lt ?a ?b] |- _ =>
             destruct (num_lt_reflect a b); try discriminate H
         | |- context [num_eq ?a ?b] => destruct (num_eq_reflect a b)
         | |- context [num_ge ?a ?b] => destruct (num_ge_reflect a b)
         | |- context [num_gt ?a ?b] => destruct (num_gt_reflect a b)
         | |- context [num_lt ?a ?b] => destruct (num_lt_reflect a b)
         end;
  try (exfalso; lra).

(** Simplify what the two truth values and the decided comparisons leave. *)
Ltac settle Hts Hte :=
  repeat (progress (try rewrite Hts; try rewrite Hte;
                    cbn [negb andb orb truthy]; cbv iota beta)).

Section RangePicks.
Context {H : Host}.
Variable now : Z.

#[local] Arguments getDayjs : simpl never.
#[local] Arguments getEndOfDay : simpl never.
#[local] Arguments removeTime : simpl never.
#[local] Arguments dateToUnix : simpl never.

(** X20. In range mode, with both bounds set on the same day, a pick of that
    day reports the reset [{startDate: undefined, endDate: undefined}],
    with or without a [min] or [max] day count. *)
Theorem onSelectDate_range_repick_single_day :
  forall (props : Props) (state : LocalState)
         (selectedDate start end_ selected : DateType)
         (selectedUnix startUnix endUnix : Q),
    onChange props = true ->
    mode props = range ->
    removeTime now (startDate state) (timeZone props) (calendar props)
    = Ok start ->
    removeTime now (endDate state) (timeZone props) (calendar props)
    = Ok end_ ->
    removeTime now selectedDate (timeZone props) (calendar props)
    = Ok selected ->
    dateToUnix now selected (calendar props) = Ok selectedUnix ->
    dateToUnix now start (calendar props) = Ok startUnix ->
    dateToUnix now end_ (calendar props) = Ok endUnix ->
    truthy start = true ->
    truthy end_ = true ->
    num_eq startUnix endUnix = true ->
    num_eq selectedUnix startUnix = true ->
    onSelectDate now props state selectedDate
    = Ok [OnChange (RangeChange None None)].
Proof.
  intros props state selectedDate start end_ selected selectedUnix startUnix
    endUnix Hon Hmode Hstart Hend Hsel HselU HstartU HendU Hts Hte Hse Hps.
  pose proof (removeTime_not_Null _ _ _ _ _ Hend) as Hnn.
  destruct (getDayjs_returns now end_ (calendar props) Hnn) as [e He].
  unfold onSelectDate. rewrite Hon, Hmode.
  unfold onSelectDate_range. cbv zeta.
  rewrite Hstart, bind_Ok, Hend, bind_Ok, Hsel, bind_Ok.
  rewrite HselU, bind_Ok, HstartU, bind_Ok, HendU, bind_Ok.
  compare_seconds. settle Hts Hte.
  destruct (set_number (min props) || set_number (max props));
    [rewrite He, bind_Ok;
     destruct (above_bound (max props) _ || below_bound (min props) _) |];
    rewrite bind_Ok; settle Hts Hte; rewrite bind_Ok; reflexivity.
Qed.

Lemma removeTime_unset (x : DateType) (timeZone : option TimeZone)
    (calendar : option CalendarType) :
  truthy x = false -> removeTime now x timeZone calendar = Ok Undefined.
Proof. intros Hx. unfold removeTime. rewrite Hx. reflexivity. Qed.

(** The seconds of an unset bound are those of the clock. *)
Lemma dateToUnix_Undefined (calendar : option CalendarType) :
  exists d,
    getDayjs now Undefined calendar = Ok d
    /\ dateToUnix now Undefined calendar = Ok (inject_Z (unix d)).
Proof.
  destruct (getDayjs_returns now Undefined calendar) as [d Hd];
    [discriminate |].
  exists d. split; [exact Hd |].
  unfold dateToUnix. cbn [truthy]. rewrite andb_false_r, Hd. reflexivity.
Qed.


(** X22. In range mode with a start and no end, a pick after the start
    completes the range: the start is kept and the end of the picked day is
    the end, unless a configured [min] or [max] day count is violated, when
    the pick becomes the start and there is no end.  This holds as long as
    neither the pick nor the start falls on the second the clock shows:
    the seconds of the missing end are read from the clock. *)
Theorem onSelectDate_range_complete :
  forall (props : Props) (state : LocalState)
         (selectedDate start selected : DateType)
         (selectedUnix startUnix clockUnix : Q) (selectedDay : Dayjs),
    onChange props = true ->
    mode props = range ->
    removeTime now (startDate state) (timeZone props) (calendar props)
    = Ok start ->
    truthy (endDate state) = false ->
    removeTime now selectedDate (timeZone props) (calendar props)
    = Ok selected ->
    dateToUnix now selected (calendar props) = Ok selectedUnix ->
    dateToUnix now start (calendar props) = Ok startUnix ->
    dateToUnix now Undefined (calendar props) = Ok clockUnix ->
    getDayjs now selected (calendar props) = Ok selectedDay ->
    truthy start = true ->
    num_gt selectedUnix startUnix = true ->
    num_eq selectedUnix clockUnix = false ->
    num_eq startUnix clockUnix = false ->
    let numberOfDays := diff_day selectedDay (dayjs now start) in
    let violated :=
      (set_number (min props) || set_number (max props))
      && (above_bound (max props) numberOfDays
          || below_bound (min props) numberOfDays) in
    (violated = false ->
     exists endOfDay,
       getEndOfDay now selected (calendar props) = Ok endOfDay
       /\ onSelectDate now props state selectedDate
          = Ok [OnChange
                  (RangeChange
                     (Some (toDate (dayjs_tz now start None)))
                     (Some (toDate (dayjs_tz now (Obj endOfDay)
                                      (timeZone props)))))])
    /\ (violated = true ->
        onSelectDate now props state selectedDate
        = Ok [OnChange (RangeChange (Some (toDate selectedDay)) None)]).
Proof.
  intros props state selectedDate start selected selectedUnix startUnix
    clockUnix selectedDay Hon Hmode Hstart Hte Hsel HselU HstartU Hclock
    Hday Hts Hgt Hsc Hstc numberOfDays violated.
  pose proof (removeTime_not_Null _ _ _ _ _ Hsel) as Hnn.
  destruct (getEndOfDay_returns now selected (calendar props) Hnn)
    as [eod Heod].
  assert (Hstep :
    onSelectDate now props state selectedDate
    = if violated
      then Ok [OnChange (RangeChange (Some (toDate selectedDay)) None)]
      else Ok [OnChange
                 (RangeChange
                    (Some (toDate (dayjs_tz now start None)))
                    (Some (toDate (dayjs_tz now (Obj eod)
                                     (timeZone props)))))]).
  { unfold onSelectDate. rewrite Hon, Hmode.
    unfold onSelectDate_range. cbv zeta.
    rewrite Hstart, bind_Ok, (removeTime_unset _ _ _ Hte), bind_Ok.
    rewrite Hsel, bind_Ok, HselU, bind_Ok, HstartU, bind_Ok, Hclock, bind_Ok.
    compare_seconds. settle Hts Hts. rewrite bind_Ok. settle Hts Hts.
    subst violated.
    destruct (set_number (min props) || set_number (max props)).
    - rewrite Hday, bind_Ok. fold numberOfDays. cbn [andb].
      destruct (above_bound (max props) numberOfDays
                || below_bound (min props) numberOfDays);
        rewrite bind_Ok; settle Hts Hts;
        rewrite ?Hday, ?Heod, !bind_Ok; reflexivity.
    - rewrite bind_Ok. settle Hts Hts. rewrite Heod, !bind_Ok.
      reflexivity. }
  split; intros Hv; rewrite Hv in Hstep.
  - exists eod. split; [exact Heod | exact Hstep].
  - exact Hstep.
Qed.

(** X23. With a start and no end, a pick after the start that falls on the
    second the clock shows, or made while the start falls on that second,
    does not complete the range: the pick becomes the start and no end is
    reported. *)
Theorem onSelectDate_range_clock_second_restarts :
  forall (props : Props) (state : LocalState)
         (selectedDate start selected : DateType)
         (selectedUnix startUnix clockUnix : Q) (selectedDay : Dayjs),
    onChange props = true ->
    mode props = range ->
    removeTime now (startDate state) (timeZone props) (calendar props)
    = Ok start ->
    truthy (endDate state) = false ->
    removeTime now selectedDate (timeZone props) (calendar props)
    = Ok selected ->
    dateToUnix now selected (calendar props) = Ok selectedUnix ->
    dateToUnix now start (calendar props) = Ok startUnix ->
    dateToUnix now Undefined (calendar props) = Ok clockUnix ->
    getDayjs now selected (calendar props) = Ok selectedDay ->
    truthy start = true ->
    num_gt selectedUnix startUnix = true ->
    num_eq selectedUnix clockUnix || num_eq startUnix clockUnix = true ->
    onSelectDate now props state selectedDate
    = Ok [OnChange (RangeChange (Some (toDate selectedDay)) None)].
Proof.
  intros props state selectedDate start selected selectedUnix startUnix
    clockUnix selectedDay Hon Hmode Hstart Hte Hsel HselU HstartU Hclock
    Hday Hts Hgt Hsc.
  unfold onSelectDate. rewrite Hon, Hmode.
  unfold onSelectDate_range. cbv zeta.
  rewrite Hstart, bind_Ok, (removeTime_unset _ _ _ Hte), bind_Ok.
  rewrite Hsel, bind_Ok, HselU, bind_Ok, HstartU, bind_Ok, Hclock, bind_Ok.
  compare_seconds; settle Hts Hts; rewrite !bind_Ok; settle Hts Hts;
    rewrite Hday, !bind_Ok; reflexivity.
Qed.

(** X24. In range mode with a start and no end, a pick before the start
    turns the range around: the pick is the start and the end of the day of
    the old start is the end, unless a configured [min] or [max] day count
    is violated by the days from the pick to the old start, when the pick
    is the start and there is no end. *)
Theorem onSelectDate_range_pick_before_lone_start :
  forall (props : Props) (state : LocalState)
         (selectedDate start selected : DateType)
         (selectedUnix startUnix : Q) (selectedDay startDay : Dayjs),
    onChange props = true ->
    mode props = range ->
    removeTime now (startDate state) (timeZone props) (calendar props)
    = Ok start ->
    truthy (endDate state) = false ->
    removeTime now selectedDate (timeZone props) (calendar props)
    = Ok selected ->
    dateToUnix now selected (calendar props) = Ok selectedUnix ->
    dateToUnix now start (calendar props) = Ok startUnix ->
    getDayjs now selected (calendar props) = Ok selectedDay ->
    getDayjs now start (calendar props) = Ok startDay ->
    truthy start = true ->
    num_lt selectedUnix startUnix = true ->
    let numberOfDays := diff_day startDay (dayjs now selected) in
    let violated :=
      (set_number (min props) || set_number (max props))
      && (above_bound (max props) numberOfDays
          || below_bound (min props) numberOfDays) in
    (violated = false ->
     exists endOfDay,
       getEndOfDay now start (calendar props) = Ok endOfDay
       /\ onSelectDate now props state selectedDate
          = Ok [OnChange
                  (RangeChange
                     (Some (toDate selectedDay))
                     (Some (toDate (dayjs_tz now (Obj endOfDay)
                                      (timeZone props)))))])
    /\ (violated = true ->
        onSelectDate now props state selectedDate
        = Ok [OnChange (RangeChange (Some (toDate selectedDay)) None)]).
Proof.
  intros props state selectedDate start selected selectedUnix startUnix
    selectedDay startDay Hon Hmode Hstart Hte Hsel HselU HstartU Hday Hsday
    Hts Hlt numberOfDays violated.
  destruct (getEndOfDay_returns now start (calendar props)
              (truthy_not_Null _ Hts)) as [eod Heod].
  destruct (dateToUnix_Undefined (calendar props))
    as (clock & _ & Hclock).
  assert (Hstep :
    onSelectDate now props state selectedDate
    = if violated
      then Ok [OnChange (RangeChange (Some (toDate selectedDay)) None)]
      else Ok [OnChange
                 (RangeChange
                    (Some (toDate selectedDay))
                    (Some (toDate (dayjs_tz now (Obj eod)
                                     (timeZone props)))))]).
  { unfold onSelectDate. rewrite Hon, Hmode.
    unfold onSelectDate_range. cbv zeta.
    rewrite Hstart, bind_Ok, (removeTime_unset _ _ _ Hte), bind_Ok.
    rewrite Hsel, bind_Ok, HselU, bind_Ok, HstartU, bind_Ok, Hclock, bind_Ok.
    subst violated.
    compare_seconds; settle Hts Hts;
      (destruct (set_number (min props) || set_number (max props));
       [ rewrite Hsday, bind_Ok; fold numberOfDays; cbn [andb];
         destruct (above_bound (max props) numberOfDays
                   || below_bound (min props) numberOfDays) |]);
      rewrite bind_Ok; settle Hts Hts; rewrite bind_Ok; settle Hts Hts;
      rewrite ?Hday, ?Heod, !bind_Ok; reflexivity. }
  split; intros Hv; rewrite Hv in Hstep.
  - exists eod. split; [exact Heod | exact Hstep].
  - exact Hstep.
Qed.

(** X25. In range mode with a start before the end, a pick of the day of
    the end starts over from that day: the pick is the start and there is
    no end, whatever [min] and [max] are. *)
Theorem onSelectDate_range_pick_end :
  forall (props : Props) (state : LocalState)
         (selectedDate start end_ selected : DateType)
         (selectedUnix startUnix endUnix : Q),
    onChange props = true ->
    mode props = range ->
    removeTime now (startDate state) (timeZone props) (calendar props)
    = Ok start ->
    removeTime now (endDate state) (timeZone props) (calendar props)
    = Ok end_ ->
    removeTime now selectedDate (timeZone props) (calendar props)
    = Ok selected ->
    dateToUnix now selected (calendar props) = Ok selectedUnix ->
    dateToUnix now start (calendar props) = Ok startUnix ->
    dateToUnix now end_ (calendar props) = Ok endUnix ->
    truthy start = true ->
    truthy end_ = true ->
    num_lt startUnix endUnix = true ->
    num_eq selectedUnix endUnix = true ->
    exists selectedDay,
      getDayjs now selected (calendar props) = Ok selectedDay
      /\ onSelectDate now props state selectedDate
         = Ok [OnChange (RangeChange (Some (toDate selectedDay)) None)].
Proof.
  intros props state selectedDate start end_ selected selectedUnix startUnix
    endUnix Hon Hmode Hstart Hend Hsel HselU HstartU HendU Hts Hte Hlt Hse.
  pose proof (removeTime_not_Null _ _ _ _ _ Hsel) as Hnn.
  destruct (getDayjs_returns now selected (calendar props) Hnn)
    as [day Hday].
  exists day. split; [exact Hday |].
  unfold onSelectDate. rewrite Hon, Hmode.
  unfold onSelectDate_range. cbv zeta.
  rewrite Hstart, bind_Ok, Hend, bind_Ok, Hsel, bind_Ok.
  rewrite HselU, bind_Ok, HstartU, bind_Ok, HendU, bind_Ok.
  compare_seconds. settle Hts Hte. rewrite bind_Ok. settle Hts Hte.
  rewrite bind_Ok. settle Hts Hte. rewrite Hday, !bind_Ok. reflexivity.
Qed.

(** X26. In range mode with both bounds set on different days, a pick before
    the start moves the start back to the pick and keeps the end, unless a
    configured [min] or [max] day count is violated by the days from the
    pick to the end, when the pick is the start and there is no end. *)
Theorem onSelectDate_range_pick_before_start :
  forall (props : Props) (state : LocalState)
         (selectedDate start end_ selected : DateType)
         (selectedUnix startUnix endUnix : Q) (selectedDay endDay : Dayjs),
    onChange props = true ->
    mode props = range ->
    removeTime now (startDate state) (timeZone props) (calendar props)
    = Ok start ->
    removeTime now (endDate state) (timeZone props) (calendar props)
    = Ok end_ ->
    removeTime now selectedDate (timeZone props) (calendar props)
    = Ok selected ->
    dateToUnix now selected (calendar props) = Ok selectedUnix ->
    dateToUnix now start (calendar props) = Ok startUnix ->
    dateToUnix now end_ (calendar props) = Ok endUnix ->
    getDayjs now selected (calendar props) = Ok selectedDay ->
    getDayjs now end_ (calendar props) = Ok endDay ->
    truthy start = true ->
    truthy end_ = true ->
    num_eq startUnix endUnix = false ->
    num_lt selectedUnix startUnix = true ->
    let numberOfDays := diff_day endDay (dayjs now selected) in
    let violated :=
      (set_number (min props) || set_number (max props))
      && (above_bound (max props) numberOfDays
          || below_bound (min props) numberOfDays) in
    (violated = false ->
     exists endOfDay,
       getEndOfDay now end_ (calendar props) = Ok endOfDay
       /\ onSelectDate now props state selectedDate
          = Ok [OnChange
                  (RangeChange
                     (Some (toDate selectedDay))
                     (Some (toDate (dayjs_tz now (Obj endOfDay)
                                      (timeZone props)))))])
    /\ (violated = true ->
        onSelectDate now props state selectedDate
        = Ok [OnChange (RangeChange (Some (toDate selectedDay)) None)]).
Proof.
  intros props state selectedDate start end_ selected selectedUnix startUnix
    endUnix selectedDay endDay Hon Hmode Hstart Hend Hsel HselU HstartU
    HendU Hday Heday Hts Hte Hse Hlt numberOfDays violated.
  destruct (getEndOfDay_returns now end_ (calendar props)
              (truthy_not_Null _ Hte)) as [eod Heod].
  assert (Hstep :
    onSelectDate now props state selectedDate
    = if violated
      then Ok [OnChange (RangeChange (Some (toDate selectedDay)) None)]
      else Ok [OnChange
                 (RangeChange
                    (Some (toDate selectedDay))
                    (Some (toDate (dayjs_tz now (Obj eod)
                                     (timeZone props)))))]).
  { unfold onSelectDate. rewrite Hon, Hmode.
    unfold onSelectDate_range. cbv zeta.
    rewrite Hstart, bind_Ok, Hend, bind_Ok, Hsel, bind_Ok.
    rewrite HselU, bind_Ok, HstartU, bind_Ok, HendU, bind_Ok.
    subst violated.
    compare_seconds; settle Hts Hte;
      (destruct (set_number (min props) || set_number (max props));
       [ rewrite Heday, bind_Ok; fold numberOfDays; cbn [andb];
         destruct (above_bound (max props) numberOfDays
                   || below_bound (min props) numberOfDays) |]);
      rewrite bind_Ok; settle Hts Hte; rewrite bind_Ok; settle Hts Hte;
      rewrite ?Hday, ?Heod, !bind_Ok; reflexivity. }
  split; intros Hv; rewrite Hv in Hstep.
  - exists eod. split; [exact Heod | exact Hstep].
  - exact Hstep.
Qed.

(** X27. In range mode with both bounds set on different days, a pick after
    the start and not on the day of the end keeps the start and makes the
    end of the picked day the end, be the pick inside the range or beyond
    it; unless a configured [min] or [max] day count is violated by the days
    from the start to the pick, when the pick is the start and there is no
    end. *)
Theorem onSelectDate_range_move_end :
  forall (props : Props) (state : LocalState)
         (selectedDate start end_ selected : DateType)
         (selectedUnix startUnix endUnix : Q) (selectedDay : Dayjs),
    onChange props = true ->
    mode props = range ->
    removeTime now (startDate state) (timeZone props) (calendar props)
    = Ok start ->
    removeTime now (endDate state) (timeZone props) (calendar props)
    = Ok end_ ->
    removeTime now selectedDate (timeZone props) (calendar props)
    = Ok selected ->
    dateToUnix now selected (calendar props) = Ok selectedUnix ->
    dateToUnix now start (calendar props) = Ok startUnix ->
    dateToUnix now end_ (calendar props) = Ok endUnix ->
    getDayjs now selected (calendar props) = Ok selectedDay ->
    truthy start = true ->
    truthy end_ = true ->
    num_eq startUnix endUnix = false ->
    num_gt selectedUnix startUnix = true ->
    num_eq selectedUnix endUnix = false ->
    let numberOfDays := diff_day selectedDay (dayjs now start) in
    let violated :=
      (set_number (min props) || set_number (max props))
      && (above_bound (max props) numberOfDays
          || below_bound (min props) numberOfDays) in
    (violated = false ->
     exists endOfDay,
       getEndOfDay now selected (calendar props) = Ok endOfDay
       /\ onSelectDate now props state selectedDate
          = Ok [OnChange
                  (RangeChange
                     (Some (toDate (dayjs_tz now start None)))
                     (Some (toDate (dayjs_tz now (Obj endOfDay)
                                      (timeZone props)))))])
    /\ (violated = true ->
        onSelectDate now props state selectedDate
        = Ok [OnChange (RangeChange (Some (toDate selectedDay)) None)]).
Proof.
  intros props state selectedDate start end_ selected selectedUnix startUnix
    endUnix selectedDay Hon Hmode Hstart Hend Hsel HselU HstartU HendU Hday
    Hts Hte Hse Hgt Hsn numberOfDays violated.
  pose proof (removeTime_not_Null _ _ _ _ _ Hsel) as Hnn.
  destruct (getEndOfDay_returns now selected (calendar props) Hnn)
    as [eod Heod].
  assert (Hstep :
    onSelectDate now props state selectedDate
    = if violated
      then Ok [OnChange (RangeChange (Some (toDate selectedDay)) None)]
      else Ok [OnChange
                 (RangeChange
                    (Some (toDate (dayjs_tz now start None)))
                    (Some (toDate (dayjs_tz now (Obj eod)
                                     (timeZone props)))))]).
  { unfold onSelectDate. rewrite Hon, Hmode.
    unfold onSelectDate_range. cbv zeta.
    rewrite Hstart, bind_Ok, Hend, bind_Ok, Hsel, bind_Ok.
    rewrite HselU, bind_Ok, HstartU, bind_Ok, HendU, bind_Ok.
    subst violated.
    compare_seconds; settle Hts Hte; rewrite bind_Ok; settle Hts Hte;
      (destruct (set_number (min props) || set_number (max props));
       [ rewrite Hday, bind_Ok; fold numberOfDays; cbn [andb];
         destruct (above_bound (max props) numberOfDays
                   || below_bound (min props) numberOfDays) |]);
      rewrite bind_Ok; settle Hts Hte;
      rewrite ?Hday, ?Heod, !bind_Ok; reflexivity. }
  split; intros Hv; rewrite Hv in Hstep.
  - exists eod. split; [exact Heod | exact Hstep].
  - exact Hstep.
Qed.

(** X28. In range mode with a start and no end, a pick of the day of the
    start reports the reset when a [min] or a [max] day count is
    configured, and the single day from its start to its end when neither
    is; this as long as the start does not fall on the second the clock
    shows. *)
Theorem onSelectDate_range_repick_lone_start :
  forall (props : Props) (state : LocalState)
         (selectedDate start selected : DateType)
         (selectedUnix startUnix clockUnix : Q),
    onChange props = true ->
    mode props = range ->
    removeTime now (startDate state) (timeZone props) (calendar props)
    = Ok start ->
    truthy (endDate state) = false ->
    removeTime now selectedDate (timeZone props) (calendar props)
    = Ok selected ->
    dateToUnix now selected (calendar props) = Ok selectedUnix ->
    dateToUnix now start (calendar props) = Ok startUnix ->
    dateToUnix now Undefined (calendar props) = Ok clockUnix ->
    truthy start = true ->
    num_eq selectedUnix startUnix = true ->
    num_eq startUnix clockUnix = false ->
    (set_number (min props) || set_number (max props) = true ->
     onSelectDate now props state selectedDate
     = Ok [OnChange (RangeChange None None)])
    /\ (set_number (min props) || set_number (max props) = false ->
        exists endOfDay,
          getEndOfDay now selected (calendar props) = Ok endOfDay
          /\ onSelectDate now props state selectedDate
             = Ok [OnChange
                     (RangeChange
                        (Some (toDate (dayjs_tz now start None)))
                        (Some (toDate (dayjs_tz now (Obj endOfDay)
                                         (timeZone props)))))]).
Proof.
  intros props state selectedDate start selected selectedUnix startUnix
    clockUnix Hon Hmode Hstart Hte Hsel HselU HstartU Hclock Hts Hps Hsc.
  pose proof (removeTime_not_Null _ _ _ _ _ Hsel) as Hnn.
  destruct (getDayjs_returns now selected (calendar props) Hnn)
    as [day Hday].
  destruct (getEndOfDay_returns now selected (calendar props) Hnn)
    as [eod Heod].
  assert (Hstep :
    onSelectDate now props state selectedDate
    = if set_number (min props) || set_number (max props)
      then Ok [OnChange (RangeChange None None)]
      else Ok [OnChange
                 (RangeChange
                    (Some (toDate (dayjs_tz now start None)))
                    (Some (toDate (dayjs_tz now (Obj eod)
                                     (timeZone props)))))]).
  { unfold onSelectDate. rewrite Hon, Hmode.
    unfold onSelectDate_range. cbv zeta.
    rewrite Hstart, bind_Ok, (removeTime_unset _ _ _ Hte), bind_Ok.
    rewrite Hsel, bind_Ok, HselU, bind_Ok, HstartU, bind_Ok, Hclock, bind_Ok.
    compare_seconds; settle Hts Hts; rewrite bind_Ok; settle Hts Hts;
      destruct (set_number (min props) || set_number (max props));
      rewrite ?Hday, !bind_Ok; settle Hts Hts;
      rewrite ?Heod, ?bind_Ok; reflexivity. }
  split; intros Hcount; rewrite Hcount in Hstep.
  - exact Hstep.
  - exists eod. split; [exact Heod | exact Hstep].
Qed.

End RangePicks.

(** ** Runs on the reference host *)

#[local] Existing Instance ref_host.

(** The range scenarios of the specification. *)
Example range_extend_2024_01_10 :
  onSelectDate (H := ref_host) 0 (range_props None None)
    (range_state (Obj (day_object 2024 1 10)) (Obj (day_object 2024 1 10)))
    (Obj (day_object 2024 1 15))
  = Ok [OnChange (RangeChange (Some (midnight 2024 1 10))
                              (Some (last_ms 2024 1 15)))].
Proof. vm_compute. reflexivity. Qed.

Example range_reset_with_min :
  onSelectDate (H := ref_host) 0 (range_props (Some 1) None)
    (range_state (Obj (day_object 2024 1 10)) (Obj (day_object 2024 1 15)))
    (Obj (day_object 2024 1 10))
  = Ok [OnChange (RangeChange None None)].
Proof. vm_compute. reflexivity. Qed.

(** The multiple-mode scenarios of the specification. *)
Example multiple_remove_2024_01_05 :
  onSelectDate (H := ref_host) 0 (multiple_props None)
    (multiple_state [on_day 2024 1 5; on_day 2024 1 10])
    (Obj (day_object 2024 1 5))
  = Ok [OnChange (MultiChange [midnight 2024 1 10]
                              (Some (midnight 2024 1 5)) removed)].
Proof. vm_compute. reflexivity. Qed.

Example multiple_add_2024_01_03 :
  onSelectDate (H := ref_host) 0 (multiple_props None)
    (multiple_state [on_day 2024 1 5; on_day 2024 1 10])
    (Obj (day_object 2024 1 3))
  = Ok [OnChange (MultiChange
                    [midnight 2024 1 3; midnight 2024 1 5; midnight 2024 1 10]
                    (Some (midnight 2024 1 3)) added)].
Proof. vm_compute. reflexivity. Qed.

(** C1 as stated fails without bounds: with start 2024-01-10 and end
    2024-01-15, a pick of 2024-01-10 reports the single day 2024-01-10 as
    the range, not the reset. *)
Lemma onSelectDate_range_repick_start_counterexample :
  onSelectDate (H := ref_host) 0 (range_props None None)
    (range_state (Obj (day_object 2024 1 10)) (Obj (day_object 2024 1 15)))
    (Obj (day_object 2024 1 10))
  = Ok [OnChange (RangeChange (Some (midnight 2024 1 10))
                              (Some (last_ms 2024 1 10)))]
  /\ onSelectDate (H := ref_host) 0 (range_props None None)
       (range_state (Obj (day_object 2024 1 10)) (Obj (day_object 2024 1 15)))
       (Obj (day_object 2024 1 10))
     <> Ok [OnChange (RangeChange None None)].
Proof. split; [vm_compute; reflexivity | vm_compute; discriminate]. Qed.

(** With a maximum configured the same pick does reset the range. *)
Lemma onSelectDate_range_repick_start_witness :
  onSelectDate (H := ref_host) 0 (range_props None (Some 7))
    (range_state (Obj (day_object 2024 1 10)) (Obj (day_object 2024 1 15)))
    (Obj (day_object 2024 1 10))
  = Ok [OnChange (RangeChange None None)].
Proof.
  refine (proj1
            (onSelectDate_range_repick_start (H := ref_host) 0
               (range_props None (Some 7))
               (range_state (Obj (day_object 2024 1 10))
                            (Obj (day_object 2024 1 15)))
               (Obj (day_object 2024 1 10))
               (Obj (day_object 2024 1 10)) (Obj (day_object 2024 1 15))
               (Obj (day_object 2024 1 10))
               (inject_Z 1704844800) (inject_Z 1704844800)
               (inject_Z 1705276800)
               eq_refl eq_refl _ _ _ _ _ _ eq_refl eq_refl _ _) eq_refl);
    vm_compute; reflexivity.
Defined.

(** C8 as stated fails under a bound: with start and end on 2024-01-10 and
    [max = 3], a pick of 2024-01-15 restarts the range at the pick and
    reports no end. *)
Lemma onSelectDate_range_extend_single_day_counterexample :
  onSelectDate (H := ref_host) 0 (range_props None (Some 3))
    (range_state (Obj (day_object 2024 1 10)) (Obj (day_object 2024 1 10)))
    (Obj (day_object 2024 1 15))
  = Ok [OnChange (RangeChange (Some (midnight 2024 1 15)) None)]
  /\ onSelectDate (H := ref_host) 0 (range_props None (Some 3))
       (range_state (Obj (day_object 2024 1 10)) (Obj (day_object 2024 1 10)))
       (Obj (day_object 2024 1 15))
     <> Ok [OnChange (RangeChange (Some (midnight 2024 1 10))
                                  (Some (last_ms 2024 1 15)))].
Proof. split; [vm_compute; reflexivity | vm_compute; discriminate]. Qed.

(** With [max = 7] the single day 2024-01-10 is extended to 2024-01-15. *)
Lemma onSelectDate_range_extend_single_day_witness :
  exists endOfDay,
    getEndOfDay (H := ref_host) 0 (Obj (day_object 2024 1 15)) (Some gregory)
    = Ok endOfDay
    /\ onSelectDate (H := ref_host) 0 (range_props None (Some 7))
         (range_state (Obj (day_object 2024 1 10))
                      (Obj (day_object 2024 1 10)))
         (Obj (day_object 2024 1 15))
       = Ok [OnChange
               (RangeChange
                  (Some (toDate (dayjs_tz 0 (Obj (day_object 2024 1 10))
                                   None)))
                  (Some (toDate (dayjs_tz 0 (Obj endOfDay) None))))].
Proof.
  refine (proj1
            (onSelectDate_range_extend_single_day (H := ref_host) 0
               (range_props None (Some 7))
               (range_state (Obj (day_object 2024 1 10))
                            (Obj (day_object 2024 1 10)))
               (Obj (day_object 2024 1 15))
               (Obj (day_object 2024 1 10)) (Obj (day_object 2024 1 10))
               (Obj (day_object 2024 1 15))
               (inject_Z 1705276800) (inject_Z 1704844800)
               (inject_Z 1704844800) (day_object 2024 1 15)
               eq_refl eq_refl _ _ _ _ _ _ _ eq_refl eq_refl _ _) _);
    vm_compute; reflexivity.
Defined.

(** C6 as stated fails under a maximum: with the dates 2024-01-05,
    2024-01-10 and 2024-01-12, [max = 1] and a pick of 2024-01-05, the entry
    is not removed and nothing is reported. *)
Lemma onSelectDate_multiple_toggle_counterexample :
  onSelectDate (H := ref_host) 0 (multiple_props (Some 1))
    (multiple_state [on_day 2024 1 5; on_day 2024 1 10; on_day 2024 1 12])
    (Obj (day_object 2024 1 5))
  = Ok []
  /\ onSelectDate (H := ref_host) 0 (multiple_props (Some 1))
       (multiple_state [on_day 2024 1 5; on_day 2024 1 10; on_day 2024 1 12])
       (Obj (day_object 2024 1 5))
     <> Ok [OnChange (MultiChange [midnight 2024 1 10; midnight 2024 1 12]
                                  (Some (midnight 2024 1 5)) removed)].
Proof. split; [vm_compute; reflexivity | vm_compute; discriminate]. Qed.

(** A pick of 2024-01-03 is added to an unsorted list and the three dates
    are reported in ascending order. *)
Lemma onSelectDate_multiple_toggle_witness :
  exists reported,
    onSelectDate (H := ref_host) 0 (multiple_props (Some 3))
      (multiple_state [on_day 2024 1 10; on_day 2024 1 5])
      (Obj (day_object 2024 1 3))
    = Ok [OnChange (MultiChange reported (Some (midnight 2024 1 3)) added)]
    /\ Sorted Z.le reported
    /\ Permutation reported
         [midnight 2024 1 10; midnight 2024 1 5; midnight 2024 1 3].
Proof.
  destruct (onSelectDate_multiple_toggle (H := ref_host) 0
              (multiple_props (Some 3))
              (multiple_state [on_day 2024 1 10; on_day 2024 1 5])
              (Obj (day_object 2024 1 3))
              ref_instants_kept eq_refl eq_refl)
    as (newDate & HnewDate & _ & Hreported).
  - discriminate.
  - repeat constructor.
  - vm_compute in HnewDate. injection HnewDate as <-.
    destruct Hreported as (reported & Hrun & Hsorted & Hperm);
      [vm_compute; reflexivity |].
    exists reported. split; [exact Hrun |]. split; [exact Hsorted |].
    exact Hperm.
Defined.

(** Three dates, [max = 1]: the pick of an entry leaves two, so nothing is
    reported. *)
Lemma onSelectDate_multiple_max_blocks_removal_witness :
  onSelectDate (H := ref_host) 0 (multiple_props (Some 1))
    (multiple_state [on_day 2024 1 5; on_day 2024 1 10; on_day 2024 1 12])
    (Obj (day_object 2024 1 5))
  = Ok [].
Proof.
  refine (onSelectDate_multiple_max_blocks_removal (H := ref_host) 0
            (multiple_props (Some 1))
            (multiple_state
               [on_day 2024 1 5; on_day 2024 1 10; on_day 2024 1 12])
            (Obj (day_object 2024 1 5)) (day_object 2024 1 5) 1
            eq_refl eq_refl _ _ eq_refl _ _);
    [vm_compute; reflexivity | vm_compute; reflexivity | discriminate
    | vm_compute; reflexivity].
Defined.

(** 2025-03-20, converted at one instant and converted again at the next. *)
Lemma getDayjs_islamic_idempotent_witness :
  (x <- getDayjs (H := ref_host) 0 (on_day 2025 3 20) (Some islamic) ;;
   getDayjs (H := ref_host) 1 (Obj x) (Some islamic))
  = getDayjs (H := ref_host) 0 (on_day 2025 3 20) (Some islamic).
Proof.
  exact (proj1 (getDayjs_islamic_idempotent ref_host ref_islamic_tag_kept
                  0 1 (on_day 2025 3 20))).
Defined.

(** [null] against a date under the islamic calendar, where converting
    [null] would throw. *)
Lemma areDatesOnSameDay_absent_witness :
  absent Null = true
  /\ areDatesOnSameDay (H := ref_host) 0 Null (on_day 2024 1 5)
       (Some islamic) = Ok false
  /\ areDatesOnSameDay (H := ref_host) 0 (on_day 2024 1 5) Null
       (Some islamic) = Ok false.
Proof.
  split; [reflexivity |].
  exact (proj1 (areDatesOnSameDay_absent ref_host 0 Null (Some islamic)
                  eq_refl) (on_day 2024 1 5)).
Defined.

(** The failing input of C2: for 2025-03-20 (in Ramadan 1446, whose first
    day is a Saturday) and a week starting on Monday, the offset returned is
    6 where the rotation asks for 5. *)
Lemma getDaysInMonth_islamic_offset_not_rotated_witness :
  exists r,
    getDaysInMonth (H := ref_host) 0 (on_day 2025 3 20) true 1 (Some islamic)
    = Ok r
    /\ prevMonthOffset r = 6
    /\ prevMonthOffset r <> (6 - 1 + 7) mod 7.
Proof.
  eexists. split; [vm_compute; reflexivity |].
  destruct (getDaysInMonth_islamic_offset_not_rotated ref_host 0
              (on_day 2025 3 20) true 1 _ eq_refl)
    as (currentDate & Hcur & Hoff & Hne).
  vm_compute in Hcur. injection Hcur as <-.
  split; [reflexivity |].
  apply Hne; vm_compute; split; discriminate.
Defined.

(** January 2024 with outside days. *)
Lemma getMonthDays_outside_days_35_or_42_witness :
  exists r cells,
    getDaysInMonth (H := ref_host) 0 (on_day 2024 1 10) true 0 (Some gregory)
    = Ok r
    /\ getMonthDays (H := ref_host) 0 (on_day 2024 1 10) true
         Undefined Undefined 0 None None (prevMonthDays r)
         (prevMonthOffset r) (daysInCurrentMonth r) (daysInNextMonth r)
         "latn" (Some gregory)
       = Ok cells
    /\ (List.length cells = 35%nat \/ List.length cells = 42%nat)
    /\ prevMonthOffset r + daysInCurrentMonth r
       <= Z.of_nat (List.length cells)
    /\ Z.of_nat (List.length cells) = fullDaysInMonth r.
Proof.
  apply (getMonthDays_outside_days_35_or_42 ref_host 0 0 (on_day 2024 1 10)
           Undefined Undefined 0 None None "latn" (Some gregory)
           ref_calendar_ranges);
    [discriminate | exact I | intros _; exact I].
Defined.

(** Ramadan 1446 without outside days. *)
Lemma getMonthDays_no_outside_days_witness :
  exists r cells,
    getDaysInMonth (H := ref_host) 0 (on_day 2025 3 20) false 0
      (Some islamic) = Ok r
    /\ daysInNextMonth r = 0
    /\ getMonthDays (H := ref_host) 0 (on_day 2025 3 20) false
         Undefined Undefined 0 None None (prevMonthDays r)
         (prevMonthOffset r) (daysInCurrentMonth r) (daysInNextMonth r)
         "latn" (Some islamic)
       = Ok (repeat None (Z.to_nat (prevMonthOffset r))
             ++ map Some cells)%list
    /\ 0 <= prevMonthOffset r
    /\ Z.of_nat (List.length cells) = daysInCurrentMonth r
    /\ map number cells
       = map Z.of_nat (seq 1 (Z.to_nat (daysInCurrentMonth r)))
    /\ Forall (fun c => isCurrentMonth c = true) cells.
Proof.
  apply (getMonthDays_no_outside_days ref_host 0 0 (on_day 2025 3 20)
           Undefined Undefined 0 None None "latn" (Some islamic)
           ref_calendar_ranges);
    [discriminate | exact I | intros _; exact I].
Defined.

(** ** The rotation on the reference host *)

Lemma ref_at_day_weekday (d : Dayjs) (n : Z) :
  d_W (Ref.at_day d n) = (n + 4) mod 7.
Proof.
  unfold Ref.at_day. rewrite ref_init_weekday.
  unfold Ref.time_of_day, Ref.MS_PER_DAY.
  rewrite Z.div_add_l by lia.
  rewrite Z.div_small by (apply Z.mod_pos_bound; lia).
  f_equal. lia.
Qed.

(** Setting the day of the month moves the weekday along with it. *)
Lemma ref_set_date_weekday (d : Dayjs) :
  exists base, forall v, d_W (Ref.set_date d v) = (base + v) mod 7.
Proof.
  unfold Ref.set_date. destruct (is_islamic (d_C d)).
  - destruct (Ref.hijri_fields d) as [[cy cm] cd].
    exists (Ref.hijri_to_days cy (cm + 1) 0 + 4). intros v.
    rewrite ref_at_day_weekday. f_equal. unfold Ref.hijri_to_days. lia.
  - exists (Ref.day_number (d_y d) (d_M d) 0 + 4). intros v.
    rewrite ref_at_day_weekday. f_equal. unfold Ref.day_number. lia.
Qed.

(** Outside the islamic branch [getDaysInMonth] does rotate: on the
    reference host [prevMonthOffset] is the weekday of day 1 of the month
    moved back by [firstDayOfWeek]. *)
Lemma ref_getDaysInMonth_offset_rotated (now : Z) (datetime : DateType)
    (showOutsideDays : bool) (firstDayOfWeek : Z)
    (cal : option CalendarType) (r : MonthDays) :
  is_islamic cal = false ->
  getDaysInMonth (H := ref_host) now datetime showOutsideDays firstDayOfWeek
    cal = Ok r ->
  prevMonthOffset r
  = (day (set_date (dayjs now datetime) 1) - firstDayOfWeek + 7) mod 7.
Proof.
  intros Hcal Hr. unfold getDaysInMonth in Hr.
  rewrite getDayjs_other, bind_Ok, Hcal in Hr by exact Hcal.
  remember (1 - firstDayOfWeek) as v eqn:Hv.
  injection Hr as <-. cbn [prevMonthOffset].
  change (@day ref_host) with d_W.
  change (@set_date ref_host) with Ref.set_date.
  destruct (ref_set_date_weekday (dayjs now datetime)) as [base Hbase].
  rewrite !Hbase.
  rewrite Z.rem_mod_nonneg by (try apply Z.mod_pos_bound; lia).
  rewrite Z.mod_mod by lia.
  replace ((base + 1) mod 7 - firstDayOfWeek + 7)
    with ((base + 1) mod 7 - firstDayOfWeek + 1 * 7) by lia.
  rewrite Z.mod_add by lia.
  rewrite Zminus_mod_idemp_l. f_equal. lia.
Qed.

(** The calendar arithmetic of the reference host, checked on each of the
    60000 days from 1970-01-01 on. *)
Example ref_civil_round_trip :
  forallb (fun n =>
             let '(y, m, d) := Ref.civil_from_days n in
             (Ref.days_from_civil y m d =? n)
             && (1 <=? m) && (m <=? 12)
             && (1 <=? d) && (d <=? Ref.month_length y (m - 1)))
          (days_from 0 (Z.to_nat 60000))
  = true.
Proof. vm_compute. reflexivity. Qed.

Example ref_hijri_round_trip :
  forallb (fun n =>
             let '(y, m, d) := Ref.days_to_hijri n in
             (Ref.hijri_to_days y m d =? n)
             && (1 <=? m) && (m <=? 12)
             && (1 <=? d) && (d <=? Ref.hijri_month_length y (m - 1)))
          (days_from 0 (Z.to_nat 60000))
  = true.
Proof. vm_compute. reflexivity. Qed.

(** ** The further properties on the reference host *)


(** The page of 2024 holds 2024. *)
Lemma getYearRange_page_witness : In 2024 (getYearRange 2024).
Proof. apply (proj2 (getYearRange_page 2024)). lia. Defined.

(** A week that starts on Monday ends on Sunday. *)
Lemma getWeekdays_rotation_witness :
  nth_error
    (getWeekdays
       ["Sunday"; "Monday"; "Tuesday"; "Wednesday"; "Thursday"; "Friday";
        "Saturday"]
       ["Sun"; "Mon"; "Tue"; "Wed"; "Thu"; "Fri"; "Sat"]
       ["Su"; "Mo"; "Tu"; "We"; "Th"; "Fr"; "Sa"] 1) 6
  = Some {| cw_index := 0;
            cw_name := {| wn_full := "Sunday"; wn_short := "Sun";
                          wn_min := "Su" |} |}.
Proof.
  refine (getWeekdays_rotation
            ["Sunday"; "Monday"; "Tuesday"; "Wednesday"; "Thursday";
             "Friday"; "Saturday"]
            ["Sun"; "Mon"; "Tue"; "Wed"; "Thu"; "Fri"; "Sat"]
            ["Su"; "Mo"; "Tu"; "We"; "Th"; "Fr"; "Sa"] 1 6 eq_refl _ _);
    lia.
Defined.

(** 2025-03-20 lies between 2025-03-05 and 2025-03-25, taken as days of
    the Hijri calendar. *)
Lemma isHijriDateBetween_lexicographic_witness :
  isHijriDateBetween (H := ref_host) 0 (on_day 2025 3 20)
    (Obj (Ref.toCalendarSystem (day_object 2025 3 5) islamic))
    (Obj (Ref.toCalendarSystem (day_object 2025 3 25) islamic))
  = Ok true.
Proof.
  eapply eq_trans;
    [ eapply (isHijriDateBetween_lexicographic (H := ref_host) 0);
      vm_compute; reflexivity
    | vm_compute; reflexivity ].
Defined.

(** Native dates as bounds under the islamic calendar. *)
Lemma isDateBetween_islamic_witness :
  isDateBetween (H := ref_host) 0 (fun _ => None) (on_day 2025 3 20)
    (on_day 2025 3 5) (on_day 2025 3 25) (Some islamic)
  = Throw TypeError.
Proof.
  refine (proj2 (isDateBetween_islamic (H := ref_host) 0 (fun _ => None)
                   (on_day 2025 3 20) (on_day 2025 3 5) (on_day 2025 3 25)
                   eq_refl eq_refl) _).
  intros o. discriminate.
Defined.

(** 2024-01-15 lies between 2024-01-10 and 2024-01-15. *)
Lemma isDateBetween_instants_witness :
  isDateBetween (H := ref_host) 0 (fun _ => None) (on_day 2024 1 15)
    (Obj (day_object 2024 1 10)) (Obj (day_object 2024 1 15))
    (Some gregory)
  = Ok true.
Proof.
  exact (isDateBetween_instants (H := ref_host) 0 (fun _ => None)
           (on_day 2024 1 15) (day_object 2024 1 10) (day_object 2024 1 15)
           (Some gregory) eq_refl).
Defined.

(** Bounds in 2020 and 2024: 2019 is disabled. *)
Lemma isYearDisabled_interval_witness :
  isYearDisabled (H := ref_host) 0 2019 (on_day 2020 3 1) (on_day 2024 6 30)
    (Some gregory)
  = Ok true.
Proof.
  refine (isYearDisabled_interval (H := ref_host) 0 2019 (on_day 2020 3 1)
            (on_day 2024 6 30) (Some gregory) 2020 2024 eq_refl eq_refl
            _ _);
    vm_compute; reflexivity.
Defined.

(** With [minDate] on 2020-03-01, January of 2019 is not disabled. *)
Lemma isMonthDisabled_other_years_witness :
  isMonthDisabled (H := ref_host) 0 0 (on_day 2019 6 15) (on_day 2020 3 1)
    Undefined (Some gregory)
  = Ok false.
Proof.
  refine (isMonthDisabled_other_years (H := ref_host) 0 0 (on_day 2019 6 15)
            (on_day 2020 3 1) Undefined (Some gregory) 2019 _ _ _).
  - vm_compute. reflexivity.
  - intros y' Hy'. vm_compute in Hy'. injection Hy' as <-. discriminate.
  - intros y' Hy'. vm_compute in Hy'. injection Hy' as <-. discriminate.
Defined.

(** January 2024 with a week that starts on Monday. *)
Lemma getFirstDayOfMonth_is_prevMonthOffset_witness :
  exists r,
    getDaysInMonth (H := ref_host) 0 (on_day 2024 1 10) true 1 (Some gregory)
    = Ok r
    /\ getFirstDayOfMonth (H := ref_host) 0 (on_day 2024 1 10) 1
         (Some gregory)
       = Ok (prevMonthOffset r).
Proof.
  exact (getFirstDayOfMonth_is_prevMonthOffset (H := ref_host) 0
           (on_day 2024 1 10) true 1 (Some gregory) ref_calendar_ranges
           eq_refl).
Defined.

(** Ramadan 1446. *)
Lemma getDaysInMonth_islamic_lengths_witness :
  exists r,
    getDaysInMonth (H := ref_host) 0 (on_day 2025 3 20) true 0
      (Some islamic) = Ok r
    /\ (daysInCurrentMonth r = 29 \/ daysInCurrentMonth r = 30)
    /\ (prevMonthDays r = 29 \/ prevMonthDays r = 30).
Proof.
  apply (getDaysInMonth_islamic_lengths (H := ref_host) 0 (on_day 2025 3 20)
           true 0).
  discriminate.
Defined.

(** 2024-01-05 with [minDate] on 2024-01-10 and a predicate that throws. *)
Lemma isDateDisabled_below_minDate_witness :
  isDateDisabled (H := ref_host) 0 (day_object 2024 1 5) (on_day 2024 1 10)
    Undefined (Some (RuleFn (fun _ => Throw TypeError))) None
    (Some gregory)
  = Ok true.
Proof.
  refine (isDateDisabled_below_minDate (H := ref_host) 0
            (day_object 2024 1 5) (on_day 2024 1 10) Undefined
            (Some (RuleFn (fun _ => Throw TypeError))) None (Some gregory)
            eq_refl eq_refl _).
  vm_compute. reflexivity.
Defined.

(** A native date against itself. *)
Lemma areDatesOnSameDay_symmetric_witness :
  areDatesOnSameDay (H := ref_host) 0 (on_day 2024 1 5) (on_day 2024 1 5)
    (Some islamic)
  = Ok true.
Proof.
  exact (proj2 (areDatesOnSameDay_symmetric (H := ref_host) 0
                  (on_day 2024 1 5) (on_day 2024 1 5) (Some islamic))
           eq_refl).
Defined.

(** 0:00 asked for under the Gregorian calendar. *)
Lemma addTime_islamic_zero_witness :
  addTime (fun d h => assign_H_m d h (d_m d))
    (fun d m => assign_H_m d (d_H d) m)
    (day_object 2024 1 5) (Some gregory) (Some 0) (Some 0)
  = assign_H_m (day_object 2024 1 5) 0 0.
Proof.
  exact (proj2 (proj2 (addTime_islamic_zero
                         (fun d h => assign_H_m d h (d_m d))
                         (fun d m => assign_H_m d (d_H d) m)
                         (day_object 2024 1 5) None None (Some gregory)))
           eq_refl).
Defined.

(** The Latin table of the reference host. *)
Lemma formatNumber_ascii_digits_witness :
  formatNumber (H := ref_host) 2024 "latn" = "2024".
Proof.
  refine (proj2 (formatNumber_ascii_digits (H := ref_host) "latn" _) 2024).
  intros i Hi. unfold numeralSystems, ref_host, Ref.numeralSystems.
  destruct (Z.leb_spec 0 i); [| lia].
  destruct (Z.leb_spec i 9); [| lia].
  reflexivity.
Defined.

(** A prop of 3 is kept. *)
Lemma firstDay_range_witness : firstDay (Some 3) = 3.
Proof.
  apply (proj2 (firstDay_range (Some 3)) 3); [reflexivity | lia].
Defined.

(** January 2024 with the counts 1, 31 and 3. *)
Lemma getMonthDays_positions_witness :
  exists cells,
    getMonthDays (H := ref_host) 0 (on_day 2024 1 10) true Undefined Undefined
      0 None None 31 1 31 3 "latn" (Some gregory)
    = Ok (map Some cells)
    /\ List.length cells = Z.to_nat (1 + 31 + 3)
    /\ map dayOfMonth cells
       = map (fun i => Z.of_nat i + 1) (seq 0 (List.length cells))
    /\ Forall (fun c =>
                 isCurrentMonth c
                 = (1 <? dayOfMonth c) && (dayOfMonth c <=? 1 + 31)) cells
    /\ Forall (fun c => text c = formatNumber (number c) "latn") cells.
Proof.
  apply (getMonthDays_positions ref_host 0 (on_day 2024 1 10) Undefined
           Undefined 0 None None 31 1 31 3 "latn" (Some gregory));
    [discriminate | exact I | intros _; exact I | lia | lia | lia].
Defined.


(** The day 2024-01-10 alone, picked again under [max = 7]. *)
Lemma onSelectDate_range_repick_single_day_witness :
  onSelectDate (H := ref_host) 0 (range_props None (Some 7))
    (range_state (Obj (day_object 2024 1 10)) (Obj (day_object 2024 1 10)))
    (Obj (day_object 2024 1 10))
  = Ok [OnChange (RangeChange None None)].
Proof.
  refine (onSelectDate_range_repick_single_day (H := ref_host) 0
            (range_props None (Some 7))
            (range_state (Obj (day_object 2024 1 10))
                         (Obj (day_object 2024 1 10)))
            (Obj (day_object 2024 1 10))
            (Obj (day_object 2024 1 10)) (Obj (day_object 2024 1 10))
            (Obj (day_object 2024 1 10))
            (inject_Z 1704844800) (inject_Z 1704844800)
            (inject_Z 1704844800)
            eq_refl eq_refl _ _ _ _ _ _ eq_refl eq_refl _ _);
    vm_compute; reflexivity.
Defined.


(** Start 2024-01-10, 2024-01-15 picked, [max = 7]. *)
Lemma onSelectDate_range_complete_witness :
  exists endOfDay,
    getEndOfDay (H := ref_host) 0 (Obj (day_object 2024 1 15)) (Some gregory)
    = Ok endOfDay
    /\ onSelectDate (H := ref_host) 0 (range_props None (Some 7))
         (range_state (Obj (day_object 2024 1 10)) Undefined)
         (Obj (day_object 2024 1 15))
       = Ok [OnChange
               (RangeChange
                  (Some (toDate (dayjs_tz 0 (Obj (day_object 2024 1 10))
                                   None)))
                  (Some (toDate (dayjs_tz 0 (Obj endOfDay) None))))].
Proof.
  refine (proj1
            (onSelectDate_range_complete (H := ref_host) 0
               (range_props None (Some 7))
               (range_state (Obj (day_object 2024 1 10)) Undefined)
               (Obj (day_object 2024 1 15))
               (Obj (day_object 2024 1 10)) (Obj (day_object 2024 1 15))
               (inject_Z 1705276800) (inject_Z 1704844800) (inject_Z 0)
               (day_object 2024 1 15)
               eq_refl eq_refl _ eq_refl _ _ _ _ _ eq_refl _ _ _) _);
    vm_compute; reflexivity.
Defined.

(** Start 2024-01-10, 2024-01-15 picked in the first second of
    2024-01-15. *)
Lemma onSelectDate_range_clock_second_restarts_witness :
  onSelectDate (H := ref_host) (midnight 2024 1 15) (range_props None None)
    (range_state (Obj (day_object 2024 1 10)) Undefined)
    (Obj (day_object 2024 1 15))
  = Ok [OnChange (RangeChange (Some (midnight 2024 1 15)) None)].
Proof.
  refine (onSelectDate_range_clock_second_restarts (H := ref_host)
            (midnight 2024 1 15) (range_props None None)
            (range_state (Obj (day_object 2024 1 10)) Undefined)
            (Obj (day_object 2024 1 15))
            (Obj (day_object 2024 1 10)) (Obj (day_object 2024 1 15))
            (inject_Z 1705276800) (inject_Z 1704844800)
            (inject_Z 1705276800) (day_object 2024 1 15)
            eq_refl eq_refl _ eq_refl _ _ _ _ _ eq_refl _ _);
    vm_compute; reflexivity.
Defined.

(** Start 2024-01-10, 2024-01-05 picked. *)
Lemma onSelectDate_range_pick_before_lone_start_witness :
  exists endOfDay,
    getEndOfDay (H := ref_host) 0 (Obj (day_object 2024 1 10)) (Some gregory)
    = Ok endOfDay
    /\ onSelectDate (H := ref_host) 0 (range_props None None)
         (range_state (Obj (day_object 2024 1 10)) Undefined)
         (Obj (day_object 2024 1 5))
       = Ok [OnChange
               (RangeChange
                  (Some (toDate (day_object 2024 1 5)))
                  (Some (toDate (dayjs_tz 0 (Obj endOfDay) None))))].
Proof.
  refine (proj1
            (onSelectDate_range_pick_before_lone_start (H := ref_host) 0
               (range_props None None)
               (range_state (Obj (day_object 2024 1 10)) Undefined)
               (Obj (day_object 2024 1 5))
               (Obj (day_object 2024 1 10)) (Obj (day_object 2024 1 5))
               (inject_Z 1704412800) (inject_Z 1704844800)
               (day_object 2024 1 5) (day_object 2024 1 10)
               eq_refl eq_refl _ eq_refl _ _ _ _ _ eq_refl _) _);
    vm_compute; reflexivity.
Defined.

(** 2024-01-10 to 2024-01-15, 2024-01-15 picked. *)
Lemma onSelectDate_range_pick_end_witness :
  exists selectedDay,
    getDayjs (H := ref_host) 0 (Obj (day_object 2024 1 15)) (Some gregory)
    = Ok selectedDay
    /\ onSelectDate (H := ref_host) 0 (range_props None None)
         (range_state (Obj (day_object 2024 1 10))
                      (Obj (day_object 2024 1 15)))
         (Obj (day_object 2024 1 15))
       = Ok [OnChange (RangeChange (Some (toDate selectedDay)) None)].
Proof.
  refine (onSelectDate_range_pick_end (H := ref_host) 0
            (range_props None None)
            (range_state (Obj (day_object 2024 1 10))
                         (Obj (day_object 2024 1 15)))
            (Obj (day_object 2024 1 15))
            (Obj (day_object 2024 1 10)) (Obj (day_object 2024 1 15))
            (Obj (day_object 2024 1 15))
            (inject_Z 1705276800) (inject_Z 1704844800)
            (inject_Z 1705276800)
            eq_refl eq_refl _ _ _ _ _ _ eq_refl eq_refl _ _);
    vm_compute; reflexivity.
Defined.

(** 2024-01-10 to 2024-01-15, 2024-01-05 picked. *)
Lemma onSelectDate_range_pick_before_start_witness :
  exists endOfDay,
    getEndOfDay (H := ref_host) 0 (Obj (day_object 2024 1 15)) (Some gregory)
    = Ok endOfDay
    /\ onSelectDate (H := ref_host) 0 (range_props None None)
         (range_state (Obj (day_object 2024 1 10))
                      (Obj (day_object 2024 1 15)))
         (Obj (day_object 2024 1 5))
       = Ok [OnChange
               (RangeChange
                  (Some (toDate (day_object 2024 1 5)))
                  (Some (toDate (dayjs_tz 0 (Obj endOfDay) None))))].
Proof.
  refine (proj1
            (onSelectDate_range_pick_before_start (H := ref_host) 0
               (range_props None None)
               (range_state (Obj (day_object 2024 1 10))
                            (Obj (day_object 2024 1 15)))
               (Obj (day_object 2024 1 5))
               (Obj (day_object 2024 1 10)) (Obj (day_object 2024 1 15))
               (Obj (day_object 2024 1 5))
               (inject_Z 1704412800) (inject_Z 1704844800)
               (inject_Z 1705276800)
               (day_object 2024 1 5) (day_object 2024 1 15)
               eq_refl eq_refl _ _ _ _ _ _ _ _ eq_refl eq_refl _ _) _);
    vm_compute; reflexivity.
Defined.

(** 2024-01-10 to 2024-01-15, 2024-01-20 picked under [max = 3]. *)
Lemma onSelectDate_range_move_end_witness :
  onSelectDate (H := ref_host) 0 (range_props None (Some 3))
    (range_state (Obj (day_object 2024 1 10)) (Obj (day_object 2024 1 15)))
    (Obj (day_object 2024 1 20))
  = Ok [OnChange (RangeChange (Some (toDate (day_object 2024 1 20))) None)].
Proof.
  refine (proj2
            (onSelectDate_range_move_end (H := ref_host) 0
               (range_props None (Some 3))
               (range_state (Obj (day_object 2024 1 10))
                            (Obj (day_object 2024 1 15)))
               (Obj (day_object 2024 1 20))
               (Obj (day_object 2024 1 10)) (Obj (day_object 2024 1 15))
               (Obj (day_object 2024 1 20))
               (inject_Z 1705708800) (inject_Z 1704844800)
               (inject_Z 1705276800)
               (day_object 2024 1 20)
               eq_refl eq_refl _ _ _ _ _ _ _ eq_refl eq_refl _ _ _) _);
    vm_compute; reflexivity.
Defined.

(** Start 2024-01-10 picked again, without bounds. *)
Lemma onSelectDate_range_repick_lone_start_witness :
  exists endOfDay,
    getEndOfDay (H := ref_host) 0 (Obj (day_object 2024 1 10)) (Some gregory)
    = Ok endOfDay
    /\ onSelectDate (H := ref_host) 0 (range_props None None)
         (range_state (Obj (day_object 2024 1 10)) Undefined)
         (Obj (day_object 2024 1 10))
       = Ok [OnChange
               (RangeChange
                  (Some (toDate (dayjs_tz 0 (Obj (day_object 2024 1 10))
                                   None)))
                  (Some (toDate (dayjs_tz 0 (Obj endOfDay) None))))].
Proof.
  refine (proj2
            (onSelectDate_range_repick_lone_start (H := ref_host) 0
               (range_props None None)
               (range_state (Obj (day_object 2024 1 10)) Undefined)
               (Obj (day_object 2024 1 10))
               (Obj (day_object 2024 1 10)) (Obj (day_object 2024 1 10))
               (inject_Z 1704844800) (inject_Z 1704844800) (inject_Z 0)
               eq_refl eq_refl _ eq_refl _ _ _ _ eq_refl _ _) _);
    vm_compute; reflexivity.
Defined.
